(** * Device-state synchronisation between the MQTT sensor and the dashboard

    A shallow embedding of [sensor_publisher.py] (the emitter,
    class [TemperatureHumiditySensor]) and [screen_subscriber.py] (the
    observer, class [SensorDataDisplay]), and the properties of the
    synchronisation protocol they implement.

    Conventions of the embedding.
    - A method that reads and writes [self] is a function in the monad
      [exec]: it takes the object's state and either returns a value or
      raises a Python exception; in both cases it yields the state reached
      and the outputs produced so far (prints, socket emits, MQTT publishes).
    - Parsed JSON documents are values of type [json]; the numbers are
      rationals (the literals NaN and Infinity that [json.loads] also accepts
      are not modelled).
    - The wall clock ([datetime.now()]) and the random generator are inputs
      of the functions that read them.
    - The dictionaries nested in the observer's [sensor_data] live in a heap,
      so that the copy made for a snapshot shares them with the store, as
      [dict.copy()] does. *)

From Stdlib Require Import QArith Qcanon ZArith Lqa.
From stdpp Require Import base option list gmap strings.

Open Scope string_scope.
Local Set Warnings "-register-all".

(** ** Python values *)

(** The result of [json.loads]. An object is the list of its members in
    document order; [json.loads] never builds an object with a repeated
    key. *)
Inductive json : Type :=
| JNull
| JBool (b : bool)
| JNum (q : Qc)
| JStr (s : string)
| JArr (l : list json)
| JObj (d : list (string * json)).

(** What a dictionary holds besides JSON values: [datetime] objects. A
    datetime is represented by its ISO-8601 rendering, which determines
    it. *)
Inductive pyval : Type :=
| PJ (j : json)
| PDatetime (iso : string).

Inductive exn : Type :=
| UnicodeDecodeError
| JSONDecodeError
| KeyError
| AttributeError
| TypeError.

Fixpoint assoc {A : Type} (k : string) (d : list (string * A)) : option A :=
  match d with
  | [] => None
  | (k', v) :: d' => if String.eqb k k' then Some v else assoc k d'
  end.

(** [d[k] = v] on the members of an object with string keys: the value is
    replaced in place, a new key goes to the end. *)
Fixpoint assoc_set {A : Type} (k : string) (v : A) (d : list (string * A))
  : list (string * A) :=
  match d with
  | [] => [(k, v)]
  | (k', v') :: d' =>
      if String.eqb k k' then (k', v) :: d' else (k', v') :: assoc_set k v d'
  end.

Definition num_of_bool (b : bool) : Qc := if b then 1%Qc else 0%Qc.

(** Python's [==] on JSON values: [True == 1] and [False == 0], lists are
    compared element by element, dictionaries member by member in any
    order. *)
Fixpoint py_eq (a b : json) {struct a} : bool :=
  match a, b with
  | JNull, JNull => true
  | JBool x, JBool y => Bool.eqb x y
  | JBool x, JNum q => Qc_eq_bool (num_of_bool x) q
  | JNum q, JBool y => Qc_eq_bool q (num_of_bool y)
  | JNum p, JNum q => Qc_eq_bool p q
  | JStr s, JStr t => String.eqb s t
  | JArr l, JArr m =>
      (fix all2 (l m : list json) {struct l} : bool :=
         match l, m with
         | [], [] => true
         | x :: l', y :: m' => py_eq x y && all2 l' m'
         | _, _ => false
         end) l m
  | JObj d, JObj e =>
      Nat.eqb (length d) (length e) &&
      (fix sub (d : list (string * json)) : bool :=
         match d with
         | [] => true
         | (k, v) :: d' =>
             match assoc k e with
             | Some w => py_eq v w
             | None => false
             end && sub d'
         end) d
  | _, _ => false
  end.

(** Truth value of a JSON value in a condition. *)
Definition truthy (j : json) : bool :=
  match j with
  | JNull => false
  | JBool b => b
  | JNum q => negb (Qc_eq_bool q 0%Qc)
  | JStr s => negb (String.eqb s "")
  | JArr l => match l with [] => false | _ => true end
  | JObj d => match d with [] => false | _ => true end
  end.

(** A datetime object is always true. *)
Definition truthy_val (v : pyval) : bool :=
  match v with
  | PJ j => truthy j
  | PDatetime _ => true
  end.

(** Lists and dictionaries cannot be dictionary keys. *)
Definition hashable (j : json) : bool :=
  match j with
  | JArr _ | JObj _ => false
  | _ => true
  end.

(** [x.get(k, dflt)]: only a dictionary has a [get] method. *)
Definition py_get (x : json) (k : string) (dflt : json) : exn + json :=
  match x with
  | JObj d => inr (default dflt (assoc k d))
  | _ => inl AttributeError
  end.

(** [x[k]] for a string [k]. *)
Definition py_getitem (x : json) (k : string) : exn + json :=
  match x with
  | JObj d =>
      match assoc k d with
      | Some v => inr v
      | None => inl KeyError
      end
  | _ => inl TypeError
  end.

(** ** Dictionaries with arbitrary hashable keys

    Python dictionaries keep insertion order; [sensor_states] is rendered in
    that order by the dashboard. *)
Definition pydict : Type := list (json * pyval).

Fixpoint dict_lookup (k : json) (d : pydict) : option pyval :=
  match d with
  | [] => None
  | (k', v) :: d' => if py_eq k k' then Some v else dict_lookup k d'
  end.

Definition dict_mem (k : json) (d : pydict) : bool :=
  match dict_lookup k d with
  | Some _ => true
  | None => false
  end.

Fixpoint dict_set (k : json) (v : pyval) (d : pydict) : pydict :=
  match d with
  | [] => [(k, v)]
  | (k', v') :: d' =>
      if py_eq k k' then (k', v) :: d' else (k', v') :: dict_set k v d'
  end.

(** [x in l] for a list [l]. *)
Definition list_mem (x : json) (l : list json) : bool :=
  existsb (py_eq x) l.

(** ** What arrives on the bus

    [msg.payload.decode('utf-8')] raises [UnicodeDecodeError] on bytes that
    are not UTF-8, and [json.loads] raises [JSONDecodeError] on text that is
    not a JSON document. *)
Inductive payload : Type :=
| Undecodable
| Malformed
| Document (j : json).

Record message : Type := Message { topic : string; body : payload }.

(** ** Computations that may raise *)

Section Exec.
Context {S E : Type}.

Inductive outcome (A : Type) : Type :=
| Returns (a : A) (s : S) (out : list E)
| Raises (e : exn) (s : S) (out : list E).
Global Arguments Returns {A} a s out.
Global Arguments Raises {A} e s out.

Definition exec (A : Type) : Type := S → outcome A.

Definition ret {A} (a : A) : exec A := λ s, Returns a s [].

Definition raise {A} (e : exn) : exec A := λ s, Raises e s [].

Definition bind {A B} (c : exec A) (k : A → exec B) : exec B :=
  λ s,
    match c s with
    | Returns a s1 o1 =>
        match k a s1 with
        | Returns b s2 o2 => Returns b s2 (o1 ++ o2)
        | Raises e s2 o2 => Raises e s2 (o1 ++ o2)
        end
    | Raises e s1 o1 => Raises e s1 o1
    end.

Definition get_state : exec S := λ s, Returns s s [].
Definition set_state (s' : S) : exec unit := λ _, Returns tt s' [].
Definition output (e : E) : exec unit := λ s, Returns tt s [e].

Definition lift {A} (r : exn + A) : exec A :=
  match r with
  | inl e => raise e
  | inr a => ret a
  end.

(** [try: body except Exception as e: handler(e)] *)
Definition try_except {A} (body : exec A) (handler : exn → exec A)
  : exec A :=
  λ s,
    match body s with
    | Returns a s1 o1 => Returns a s1 o1
    | Raises e s1 o1 =>
        match handler e s1 with
        | Returns a s2 o2 => Returns a s2 (o1 ++ o2)
        | Raises e' s2 o2 => Raises e' s2 (o1 ++ o2)
        end
    end.

Definition final_state {A} (r : outcome A) : S :=
  match r with
  | Returns _ s _ => s
  | Raises _ s _ => s
  end.

Definition outputs {A} (r : outcome A) : list E :=
  match r with
  | Returns _ _ o => o
  | Raises _ _ o => o
  end.

Definition returned {A} (r : outcome A) : bool :=
  match r with
  | Returns _ _ _ => true
  | Raises _ _ _ => false
  end.

(** [wp c Q R s]: started in [s], the computation [c] returns a value and a
    state in [Q], or raises an exception in a state of [R]. *)
Definition wp {A} (c : exec A) (Q : A → S → Prop) (R : exn → S → Prop)
  (s : S) : Prop :=
  match c s with
  | Returns a s' _ => Q a s'
  | Raises e s' _ => R e s'
  end.

(** [payload = msg.payload.decode('utf-8'); data = json.loads(payload)] *)
Definition decode_and_load (p : payload) : exec json :=
  match p with
  | Undecodable => raise UnicodeDecodeError
  | Malformed => raise JSONDecodeError
  | Document j => ret j
  end.

(** [wpo c Q R s]: as [wp], for postconditions that also read the outputs
    produced. *)
Definition wpo {A} (c : exec A) (Q : A → S → list E → Prop)
  (R : exn → S → list E → Prop) (s : S) : Prop :=
  match c s with
  | Returns a s' o => Q a s' o
  | Raises e s' o => R e s' o
  end.

(** Every output of [c], started in any state, satisfies [P]. *)
Definition only_outputs {A} (P : E → Prop) (c : exec A) : Prop :=
  ∀ s, Forall P (outputs (c s)).
End Exec.

Declare Scope exec_scope.
Delimit Scope exec_scope with exec.
Notation "x <- c ;; k" := (bind c (λ x, k))
  (at level 100, c at next level, right associativity) : exec_scope.
Notation "c ;;; k" := (bind c (λ _, k))
  (at level 100, right associativity) : exec_scope.
Open Scope exec_scope.

(** ** The emitter: [TemperatureHumiditySensor] *)

Module Sensor.

Inductive log : Type :=
| LogToggled (enabled : bool)        (* "Sensor {status} từ web interface" *)
| LogConnected                       (* "Kết nối thành công đến broker ..." *)
| LogSubscribed (topic : string)     (* "Đã subscribe topic control: ..." *)
| LogConnectFailed (rc : Z)          (* "Kết nối thất bại. Mã lỗi: {rc}" *)
| LogDisconnected (rc : Z)           (* "Mất kết nối đến broker. Mã: {rc}" *)
| LogEnabledByControl                (* "Sensor được bật từ MQTT control" *)
| LogDisabledByControl               (* "Sensor được tắt từ MQTT control" *)
| LogControlError (e : exn)          (* "Lỗi xử lý message điều khiển: {e}" *)
| LogSent (temperature humidity : json)  (* "Gửi: T=...°C, H=...%" *)
| LogPublishError (e : exn)          (* "Lỗi khi publish: {e}" *)
| LogLoopStarted                     (* "Bắt đầu sensor loop..." *)
| LogLoopError (e : exn).            (* "Lỗi trong sensor loop: {e}" *)

Inductive effect : Type :=
| Printed (l : log)
| Emit (event : string) (data : json)          (* socketio.emit *)
| Subscribe (topic : string)                   (* client.subscribe *)
| Publish (topic : string) (data : json)       (* client.publish(topic, json.dumps(data)) *)
| Sleep (seconds : Z).                         (* time.sleep *)

Record sensor : Type := Build_sensor {
  client_id : string;
  is_connected : bool;
  is_running : bool;
  sensor_enabled : bool;
  current_data : json
}.

Definition topic_temperature : string := "sensors/temperature".
Definition topic_humidity : string := "sensors/humidity".
Definition topic_combined : string := "sensors/temp_humidity".
Definition topic_control : string := "sensors/control".

Definition M : Type → Type := @exec sensor effect.

Definition with_is_connected (b : bool) (s : sensor) : sensor :=
  Build_sensor (client_id s) b (is_running s) (sensor_enabled s)
               (current_data s).


Definition with_sensor_enabled (b : bool) (s : sensor) : sensor :=
  Build_sensor (client_id s) (is_connected s) (is_running s) b
               (current_data s).

Definition with_current_data (d : json) (s : sensor) : sensor :=
  Build_sensor (client_id s) (is_connected s) (is_running s)
               (sensor_enabled s) d.

Definition set_is_connected (b : bool) : M unit :=
  s <- get_state ;; set_state (with_is_connected b s).


Definition set_sensor_enabled (b : bool) : M unit :=
  s <- get_state ;; set_state (with_sensor_enabled b s).

Definition set_current_data (d : json) : M unit :=
  s <- get_state ;; set_state (with_current_data d s).

(** [__init__]; [now] is the ISO rendering of [datetime.now()]. *)
Definition init (client_id : string) (now : string) : sensor :=
  {| client_id := client_id;
     is_connected := false;
     is_running := false;
     sensor_enabled := true;
     current_data :=
       JObj [("temperature", JNum (Q2Qc 25));
             ("humidity", JNum (Q2Qc 60));
             ("timestamp", JStr now);
             ("status", JStr "offline")] |}.

(** The dictionary sent with every [status_update]. *)
Definition status (s : sensor) : json :=
  JObj [("connected", JBool (is_connected s));
        ("running", JBool (is_running s));
        ("enabled", JBool (sensor_enabled s));
        ("data", current_data s)].

(** [self.current_data["status"] = v] *)
Definition set_data_status (v : string) : M unit :=
  s <- get_state ;;
  match current_data s with
  | JObj d => set_current_data (JObj (assoc_set "status" (JStr v) d))
  | _ => raise TypeError
  end.

Definition handle_connect : M unit :=
  s <- get_state ;;
  output (Emit "status_update" (status s)).

Definition handle_toggle_sensor : M unit :=
  s <- get_state ;;
  set_sensor_enabled (negb (sensor_enabled s)) ;;;
  s <- get_state ;;
  output (Printed (LogToggled (sensor_enabled s))) ;;;
  output (Emit "status_update" (status s)) ;;;
  output (Publish (topic_control ++ "/sub") (status s)).

Definition on_connect (rc : Z) : M unit :=
  if (rc =? 0)%Z then
    set_is_connected true ;;;
    set_data_status "online" ;;;
    output (Printed LogConnected) ;;;
    output (Subscribe topic_control) ;;;
    output (Printed (LogSubscribed topic_control)) ;;;
    s <- get_state ;;
    output (Emit "status_update" (status s))
  else
    output (Printed (LogConnectFailed rc)).

Definition on_disconnect (rc : Z) : M unit :=
  set_is_connected false ;;;
  set_data_status "offline" ;;;
  output (Printed (LogDisconnected rc)) ;;;
  s <- get_state ;;
  output (Emit "status_update" (status s)).

(** The body of the [try] block of [on_message]. *)
Definition on_message_body (msg : message) : M unit :=
  if String.eqb (topic msg) topic_control then
    payload <- decode_and_load (body msg) ;;
    command <- lift (py_get payload "command" (JStr "")) ;;
    (if py_eq command (JStr "enable") then
       set_sensor_enabled true ;;;
       output (Printed LogEnabledByControl)
     else if py_eq command (JStr "disable") then
       set_sensor_enabled false ;;;
       output (Printed LogDisabledByControl)
     else ret tt) ;;;
    s <- get_state ;;
    output (Emit "status_update" (status s))
  else ret tt.

Definition on_message (msg : message) : M unit :=
  try_except (on_message_body msg)
             (λ e, output (Printed (LogControlError e))).

(** One draw of the simulated sensor: the two rounded random values and
    the clock reading. *)
Record sample : Type := Sample {
  temperature : Qc;
  humidity : Qc;
  timestamp : string
}.

(** The dictionary [data] built by [generate_sensor_data]. *)
Definition reading (client_id : string) (connected : bool) (x : sample) : json :=
  JObj [("temperature", JNum (temperature x));
        ("humidity", JNum (humidity x));
        ("timestamp", JStr (timestamp x));
        ("sensor_id", JStr client_id);
        ("unit_temp", JStr "°C");
        ("unit_humidity", JStr "%");
        ("status", JStr (if connected then "online" else "offline"))].

(** Returns [None] (here [JNull]) when the sensor is disabled. *)
Definition generate_sensor_data (x : sample) : M json :=
  s <- get_state ;;
  if negb (sensor_enabled s) then ret JNull
  else
    let data := reading (client_id s) (is_connected s) x in
    set_current_data data ;;;
    ret data.

(** The body of the [try] block of [publish_data]. The two payloads built
    first are only published in lines that are commented out; building
    them still reads the keys. *)
Definition publish_data_body (data : json) : M bool :=
  _ <- lift (py_getitem data "temperature") ;;
  _ <- lift (py_getitem data "unit_temp") ;;
  _ <- lift (py_getitem data "timestamp") ;;
  _ <- lift (py_getitem data "sensor_id") ;;
  _ <- lift (py_getitem data "humidity") ;;
  _ <- lift (py_getitem data "unit_humidity") ;;
  _ <- lift (py_getitem data "timestamp") ;;
  _ <- lift (py_getitem data "sensor_id") ;;
  output (Publish topic_combined data) ;;;
  t <- lift (py_getitem data "temperature") ;;
  h <- lift (py_getitem data "humidity") ;;
  output (Printed (LogSent t h)) ;;;
  output (Emit "data_update" data) ;;;
  ret true.

Definition publish_data (data : json) : M bool :=
  s <- get_state ;;
  if negb (is_connected s) || negb (truthy data) then ret false
  else
    try_except (publish_data_body data)
               (λ e, output (Printed (LogPublishError e)) ;;; ret false).

(** One iteration of the [while] loop of [run_sensor]. *)
Definition tick (x : sample) (interval : Z) : M unit :=
  try_except
    (sensor_data <- generate_sensor_data x ;;
     (if truthy sensor_data then
        _ <- publish_data sensor_data ;; ret tt
      else ret tt) ;;;
     output (Sleep interval))
    (λ e, output (Printed (LogLoopError e)) ;;; output (Sleep 1)).



(** The MQTT messages among the outputs. *)
Definition published (out : list effect) : list (string * json) :=
  omap (λ e, match e with Publish t d => Some (t, d) | _ => None end) out.

(** What happens to the emitter, in order: the callbacks of the MQTT
    client, the requests of its web page, and the iterations of the sampling
    loop. *)
Inductive event : Type :=
| Connected (rc : Z)
| Disconnected (rc : Z)
| Received (msg : message)
| Opened
| Toggled
| Ticked (x : sample) (interval : Z).

Definition handle (ev : event) : M unit :=
  match ev with
  | Connected rc => on_connect rc
  | Disconnected rc => on_disconnect rc
  | Received msg => on_message msg
  | Opened => handle_connect
  | Toggled => handle_toggle_sensor
  | Ticked x interval => tick x interval
  end.

(** The state after a sequence of events; an exception that leaves a
    callback leaves the object in the state it had when it was raised. *)
Definition run (evs : list event) (s : sensor) : sensor :=
  fold_left (λ s ev, final_state (handle ev s)) evs s.

(** [current_data] is a dictionary whose "status" entry tells whether the
    broker is connected. *)
Definition status_consistent (s : sensor) : Prop :=
  py_get (current_data s) "status" JNull =
    inr (JStr (if is_connected s then "online" else "offline")).

(** [k in data], for a dictionary [data]; false for any other value. *)
Definition has_key (data : json) (k : string) : bool :=
  match py_getitem data k with
  | inr _ => true
  | inl _ => false
  end.

(** The keys [publish_data] reads. *)
Definition complete (data : json) : bool :=
  forallb (has_key data)
    ["temperature"; "unit_temp"; "timestamp"; "sensor_id"; "humidity";
     "unit_humidity"].

End Sensor.

(** ** The observer: [SensorDataDisplay] *)

Module Display.

(** The dictionaries nested in [self.sensor_data] are objects of a heap:
    [self.sensor_data.copy()] copies the references to them, not the
    dictionaries. *)
Abbreviation loc := positive (only parsing).
Abbreviation heap_t := (gmap positive pydict) (only parsing).

(** A location that holds no object reads as the empty dictionary; in the
    states of the observer every location read is allocated ([wf]). *)
Definition heap_get (h : heap_t) (l : loc) : pydict := default [] (h !! l).
Definition heap_put (h : heap_t) (l : loc) (d : pydict) : heap_t :=
  <[l := d]> h.

(** The top-level dictionary [self.sensor_data]; its five keys never
    change. [combined] holds [None] or the last combined document. *)
Record sensor_data_t : Type := Build_sensor_data {
  temperature : loc;
  humidity : loc;
  combined : pyval;
  last_update : pyval;
  sensor_states : loc
}.

Record display : Type := Build_display {
  client_id : string;
  is_connected : bool;
  heap : heap_t;
  next_loc : loc;
  sensor_data : sensor_data_t;
  message_count : nat;
  connected_devices : list json
}.

Definition topics : list string :=
  ["sensors/temperature"; "sensors/humidity"; "sensors/temp_humidity";
   "sensors/control/sub"].
Definition control_topic : string := "sensors/control".

(** The contents a snapshot has when it is sent. *)
Record view : Type := View {
  v_temperature : pydict;
  v_humidity : pydict;
  v_combined : pyval;
  v_last_update : pyval;
  v_sensor_states : pydict
}.

Definition render (h : heap_t) (d : sensor_data_t) : view :=
  {| v_temperature := heap_get h (temperature d);
     v_humidity := heap_get h (humidity d);
     v_combined := combined d;
     v_last_update := last_update d;
     v_sensor_states := heap_get h (sensor_states d) |}.

(** [get_statistics()], without the two figures computed from the wall
    clock ([uptime] and [avg_msg_per_sec]). *)
Record stats : Type := Stats {
  st_message_count : nat;
  st_connected_devices : nat;
  st_device_list : list json
}.

Inductive emitted : Type :=
| StatusUpdate (mqtt_connected : bool) (data : view) (st : stats)
| DataUpdate (topic : string) (data : json) (sensor_data : view) (st : stats)
| DeviceUpdate (states : pydict)
| MqttStatus (connected : bool).

Inductive log : Type :=
| LogWebConnected                        (* "Client kết nối web dashboard" *)
| LogWebDisconnected                     (* "Client ngắt kết nối web dashboard" *)
| LogCommandIssued (command device_id : json)  (* "Gửi lệnh {command} đến thiết bị {device_id}" *)
| LogConnected                           (* "Kết nối thành công đến broker ..." *)
| LogSubscribed (topic : string)         (* "Đã subscribe topic: {topic}" *)
| LogConnectFailed (rc : Z)              (* "Kết nối thất bại. Mã lỗi: {rc}" *)
| LogDisconnected (rc : Z)               (* "Mất kết nối đến broker. Mã: {rc}" *)
| LogReceived (topic : string) (data : json)   (* "Nhận từ {topic}: ..." *)
| LogJsonError (topic : string)          (* "Không thể decode JSON từ topic {msg.topic}" *)
| LogMessageError (e : exn)              (* "Lỗi xử lý message: {e}" *)
| LogStateUpdated (device_id : json) (enabled : bool)  (* "Cập nhật trạng thái sensor ..." *)
| LogNotConnected                        (* "Chưa kết nối đến broker" *)
| LogCommandSent (command device_id : json)    (* "Gửi lệnh điều khiển: ..." *)
| LogCommandError (e : exn).             (* "Lỗi gửi lệnh điều khiển: {e}" *)

Inductive effect : Type :=
| Printed (l : log)
| Emit (event : string) (data : emitted)       (* socketio.emit / emit *)
| Subscribe (topic : string)                   (* client.subscribe *)
| Publish (topic : string) (data : json).      (* client.publish(topic, json.dumps(data)) *)

Definition M : Type → Type := @exec display effect.

Definition with_is_connected (b : bool) (s : display) : display :=
  Build_display (client_id s) b (heap s) (next_loc s) (sensor_data s)
                (message_count s) (connected_devices s).

Definition with_heap (h : heap_t) (s : display) : display :=
  Build_display (client_id s) (is_connected s) h (next_loc s) (sensor_data s)
                (message_count s) (connected_devices s).

Definition with_sensor_data (d : sensor_data_t) (s : display) : display :=
  Build_display (client_id s) (is_connected s) (heap s) (next_loc s) d
                (message_count s) (connected_devices s).

Definition with_message_count (n : nat) (s : display) : display :=
  Build_display (client_id s) (is_connected s) (heap s) (next_loc s)
                (sensor_data s) n (connected_devices s).

Definition with_connected_devices (l : list json) (s : display) : display :=
  Build_display (client_id s) (is_connected s) (heap s) (next_loc s)
                (sensor_data s) (message_count s) l.

Definition with_temperature (l : loc) (d : sensor_data_t) : sensor_data_t :=
  Build_sensor_data l (humidity d) (combined d) (last_update d)
                    (sensor_states d).

Definition with_humidity (l : loc) (d : sensor_data_t) : sensor_data_t :=
  Build_sensor_data (temperature d) l (combined d) (last_update d)
                    (sensor_states d).

Definition with_combined (v : pyval) (d : sensor_data_t) : sensor_data_t :=
  Build_sensor_data (temperature d) (humidity d) v (last_update d)
                    (sensor_states d).

Definition with_last_update (v : pyval) (d : sensor_data_t) : sensor_data_t :=
  Build_sensor_data (temperature d) (humidity d) (combined d) v
                    (sensor_states d).

Definition modify (f : display → display) : M unit :=
  s <- get_state ;; set_state (f s).

(** A dictionary display [{...}]: a new object. *)
Definition alloc (d : pydict) : M loc :=
  s <- get_state ;;
  let l := next_loc s in
  set_state (Build_display (client_id s) (is_connected s)
               (heap_put (heap s) l d) (Pos.succ l) (sensor_data s)
               (message_count s) (connected_devices s)) ;;;
  ret l.

(** [obj[k] = v] for the dictionary [obj] at [l]. *)
Definition obj_setitem (l : loc) (k : json) (v : pyval) : M unit :=
  if hashable k then
    modify (λ s, with_heap (heap_put (heap s) l
                              (dict_set k v (heap_get (heap s) l))) s)
  else raise TypeError.

(** [k in obj] for the dictionary [obj] at [l]. *)
Definition obj_contains (l : loc) (k : json) : M bool :=
  if hashable k then
    s <- get_state ;; ret (dict_mem k (heap_get (heap s) l))
  else raise TypeError.

(** [obj[k]] for the dictionary [obj] at [l] and a string [k]. *)
Definition obj_getitem (l : loc) (k : string) : M pyval :=
  s <- get_state ;;
  match dict_lookup (JStr k) (heap_get (heap s) l) with
  | Some v => ret v
  | None => raise KeyError
  end.

(** [__init__] *)
Definition init (client_id : string) : display :=
  {| client_id := client_id;
     is_connected := false;
     heap :=
       heap_put
         (heap_put
            (heap_put ∅ 1%positive
               [(JStr "value", PJ (JNum (Q2Qc 0)));
                (JStr "unit", PJ (JStr "°C"));
                (JStr "timestamp", PJ JNull)])
            2%positive
            [(JStr "value", PJ (JNum (Q2Qc 0)));
             (JStr "unit", PJ (JStr "%"));
             (JStr "timestamp", PJ JNull)])
         3%positive [];
     next_loc := 4%positive;
     sensor_data :=
       {| temperature := 1%positive;
          humidity := 2%positive;
          combined := PJ JNull;
          last_update := PJ JNull;
          sensor_states := 3%positive |};
     message_count := 0;
     connected_devices := [] |}.

Definition get_statistics : M stats :=
  s <- get_state ;;
  ret {| st_message_count := message_count s;
         st_connected_devices := length (connected_devices s);
         st_device_list := connected_devices s |}.

(** [x.isoformat()]: a method of datetime objects only. *)
Definition isoformat (v : pyval) : M pyval :=
  match v with
  | PDatetime iso => ret (PJ (JStr iso))
  | PJ _ => raise AttributeError
  end.

(** Returns the copy: a top-level dictionary of its own, which holds the
    same nested objects as [self.sensor_data]. *)
Definition _serialize_sensor_data : M sensor_data_t :=
  s <- get_state ;;
  let serialized_data := sensor_data s in
  serialized_data <-
    (if truthy_val (last_update serialized_data) then
       v <- isoformat (last_update serialized_data) ;;
       ret (with_last_update v serialized_data)
     else ret serialized_data) ;;
  ts <- obj_getitem (temperature serialized_data) "timestamp" ;;
  (if truthy_val ts then
     v <- isoformat ts ;;
     obj_setitem (temperature serialized_data) (JStr "timestamp") v
   else ret tt) ;;;
  ts <- obj_getitem (humidity serialized_data) "timestamp" ;;
  (if truthy_val ts then
     v <- isoformat ts ;;
     obj_setitem (humidity serialized_data) (JStr "timestamp") v
   else ret tt) ;;;
  ret serialized_data.

(** The value a snapshot is sent as. *)
Definition serialized_view : M view :=
  d <- _serialize_sensor_data ;;
  s <- get_state ;;
  ret (render (heap s) d).

Definition handle_connect : M unit :=
  output (Printed LogWebConnected) ;;;
  serialized_data <- serialized_view ;;
  s <- get_state ;;
  st <- get_statistics ;;
  output (Emit "status_update"
            (StatusUpdate (is_connected s) serialized_data st)).

Definition handle_disconnect : M unit :=
  output (Printed LogWebDisconnected).

Definition handle_get_status : M unit :=
  serialized_data <- serialized_view ;;
  s <- get_state ;;
  st <- get_statistics ;;
  output (Emit "status_update"
            (StatusUpdate (is_connected s) serialized_data st)).

(** The dictionary [control_data] built by [send_control_command]. *)
Definition control_data (command device_id : json) (now sender : string) : json :=
  JObj [("command", command);
        ("device_id", device_id);
        ("timestamp", JStr now);
        ("sender", JStr sender)].

(** [now] is the ISO rendering of [datetime.now()]. *)
Definition send_control_command (now : string) (command device_id : json)
  : M bool :=
  s <- get_state ;;
  if negb (is_connected s) then
    output (Printed LogNotConnected) ;;; ret false
  else
    try_except
      (output (Publish control_topic
                 (control_data command device_id now (client_id s))) ;;;
       output (Printed (LogCommandSent command device_id)) ;;;
       ret true)
      (λ e, output (Printed (LogCommandError e)) ;;; ret false).

(** [for device in devices: self.sensor_data["sensor_states"][device] = v] *)
Fixpoint set_each (devices : list json) (v : bool) : M unit :=
  match devices with
  | [] => ret tt
  | device :: rest =>
      s <- get_state ;;
      obj_setitem (sensor_states (sensor_data s)) device (PJ (JBool v)) ;;;
      set_each rest v
  end.

Definition handle_control_device (now : string) (data : json) : M unit :=
  command <- lift (py_get data "command" (JStr "")) ;;
  device_id <- lift (py_get data "device_id" (JStr "all")) ;;
  if list_mem command [JStr "enable"; JStr "disable"] then
    _ <- send_control_command now command device_id ;;
    s <- get_state ;;
    (if negb (py_eq device_id (JStr "all")) then
       obj_setitem (sensor_states (sensor_data s)) device_id
                   (PJ (JBool (py_eq command (JStr "enable"))))
     else if py_eq command (JStr "enable") then
       set_each (connected_devices s) true
     else if py_eq command (JStr "disable") then
       set_each (connected_devices s) false
     else ret tt) ;;;
    output (Printed (LogCommandIssued command device_id)) ;;;
    serialized_data <- serialized_view ;;
    st <- get_statistics ;;
    output (Emit "data_update"
              (DataUpdate control_topic
                 (JObj [("command", command); ("device_id", device_id)])
                 serialized_data st))
  else ret tt.

Fixpoint subscribe_all (ts : list string) : M unit :=
  match ts with
  | [] => ret tt
  | t :: ts' =>
      output (Subscribe t) ;;;
      output (Printed (LogSubscribed t)) ;;;
      subscribe_all ts'
  end.

Definition on_connect (rc : Z) : M unit :=
  if (rc =? 0)%Z then
    modify (with_is_connected true) ;;;
    output (Printed LogConnected) ;;;
    subscribe_all topics ;;;
    output (Emit "mqtt_status" (MqttStatus true))
  else output (Printed (LogConnectFailed rc)).

Definition on_disconnect (rc : Z) : M unit :=
  modify (with_is_connected false) ;;;
  output (Printed (LogDisconnected rc)) ;;;
  output (Emit "mqtt_status" (MqttStatus false)).

Definition handle_temperature_data (data : json) : M unit :=
  value <- lift (py_getitem data "value") ;;
  unit <- lift (py_getitem data "unit") ;;
  timestamp <- lift (py_getitem data "timestamp") ;;
  sensor_id <- lift (py_get data "sensor_id" (JStr "unknown")) ;;
  l <- alloc [(JStr "value", PJ value);
              (JStr "unit", PJ unit);
              (JStr "timestamp", PJ timestamp);
              (JStr "sensor_id", PJ sensor_id)] ;;
  modify (λ s, with_sensor_data (with_temperature l (sensor_data s)) s).

Definition handle_humidity_data (data : json) : M unit :=
  value <- lift (py_getitem data "value") ;;
  unit <- lift (py_getitem data "unit") ;;
  timestamp <- lift (py_getitem data "timestamp") ;;
  sensor_id <- lift (py_get data "sensor_id" (JStr "unknown")) ;;
  l <- alloc [(JStr "value", PJ value);
              (JStr "unit", PJ unit);
              (JStr "timestamp", PJ timestamp);
              (JStr "sensor_id", PJ sensor_id)] ;;
  modify (λ s, with_sensor_data (with_humidity l (sensor_data s)) s).

Definition handle_combined_data (data : json) : M unit :=
  modify (λ s, with_sensor_data (with_combined (PJ data) (sensor_data s)) s) ;;;
  t <- lift (py_getitem data "temperature") ;;
  s <- get_state ;;
  obj_setitem (temperature (sensor_data s)) (JStr "value") (PJ t) ;;;
  h <- lift (py_getitem data "humidity") ;;
  s <- get_state ;;
  obj_setitem (humidity (sensor_data s)) (JStr "value") (PJ h) ;;;
  sensor_id <- lift (py_get data "sensor_id" (JStr "unknown")) ;;
  s <- get_state ;;
  if negb (list_mem sensor_id (connected_devices s)) then
    modify (λ s, with_connected_devices (connected_devices s ++ [sensor_id]) s) ;;;
    known <- obj_contains (sensor_states (sensor_data s)) sensor_id ;;
    if negb known then
      obj_setitem (sensor_states (sensor_data s)) sensor_id (PJ (JBool true))
    else ret tt
  else ret tt.

Definition handle_control_data (data : json) : M unit :=
  enabled <- lift (py_get data "enabled" (JBool false)) ;;
  inner <- lift (py_get data "data" (JObj [])) ;;
  device_id <- lift (py_get inner "sensor_id" (JStr "all")) ;;
  s <- get_state ;;
  obj_setitem (sensor_states (sensor_data s)) device_id (PJ enabled) ;;;
  s <- get_state ;;
  output (Emit "device_update"
            (DeviceUpdate (heap_get (heap s) (sensor_states (sensor_data s))))) ;;;
  output (Printed (LogStateUpdated device_id (truthy enabled))).

(** The [if]/[elif] chain of [on_message]. *)
Definition dispatch (topic : string) (data : json) : M unit :=
  if String.eqb topic "sensors/temperature" then
    handle_temperature_data data
  else if String.eqb topic "sensors/humidity" then
    handle_humidity_data data
  else if String.eqb topic "sensors/temp_humidity" then
    handle_combined_data data
  else if String.eqb topic "sensors/control/sub" then
    handle_control_data data
  else ret tt.

(** [self.message_count += 1] *)
Definition counted (s : display) : display :=
  with_message_count (message_count s + 1) s.

(** [self.sensor_data["last_update"] = datetime.now()] *)
Definition stamped (now : string) (s : display) : display :=
  with_sensor_data (with_last_update (PDatetime now) (sensor_data s)) s.

(** The body of the [try] block of [on_message]. *)
Definition on_message_body (now : string) (msg : message) : M unit :=
  let topic := topic msg in
  data <- decode_and_load (body msg) ;;
  modify counted ;;;
  dispatch topic data ;;;
  modify (stamped now) ;;;
  serialized_data <- serialized_view ;;
  st <- get_statistics ;;
  output (Emit "data_update" (DataUpdate topic data serialized_data st)) ;;;
  output (Printed (LogReceived topic data)).

Definition on_message (now : string) (msg : message) : M unit :=
  try_except (on_message_body now msg)
    (λ e,
       match e with
       | JSONDecodeError => output (Printed (LogJsonError (topic msg)))
       | _ => output (Printed (LogMessageError e))
       end).

(** The dictionary [self.sensor_data["sensor_states"]]. *)
Definition states_of (s : display) : pydict :=
  heap_get (heap s) (sensor_states (sensor_data s)).

(** The state after [self.sensor_data["sensor_states"][k] = v]. *)
Definition with_state_of (k : json) (v : pyval) (s : display) : display :=
  with_heap (heap_put (heap s) (sensor_states (sensor_data s))
               (dict_set k v (states_of s))) s.

(** The state after [self.sensor_data[slot]["value"] = v], for the
    dictionary at [l]. *)
Definition with_value_at (l : loc) (v : json) (s : display) : display :=
  with_heap (heap_put (heap s) l
               (dict_set (JStr "value") (PJ v) (heap_get (heap s) l))) s.

(** The contents of the store. *)
Definition store_view (s : display) : view := render (heap s) (sensor_data s).

(** The state in which [handle_combined_data] returns, for a document
    [data] with the temperature [t], the humidity [h] and the identity
    [sensor_id]. *)
Definition after_combined (data t h sensor_id : json) (s : display)
  : display :=
  let s1 := with_sensor_data (with_combined (PJ data) (sensor_data s)) s in
  let s2 := with_value_at (temperature (sensor_data s1)) t s1 in
  let s3 := with_value_at (humidity (sensor_data s2)) h s2 in
  if list_mem sensor_id (connected_devices s3) then s3
  else
    let s4 :=
      with_connected_devices (connected_devices s3 ++ [sensor_id]) s3 in
    if dict_mem sensor_id (states_of s4) then s4
    else with_state_of sensor_id (PJ (JBool true)) s4.

Definition enabled_of (device_id : json) (s : display) : option pyval :=
  dict_lookup device_id (states_of s).

(** What happens to the observer, in order: a message delivered by the
    broker, or a [control_device] request of the web client. *)
Inductive event : Type :=
| Delivered (now : string) (msg : message)
| Requested (now : string) (data : json).

Definition handle (ev : event) : M unit :=
  match ev with
  | Delivered now msg => on_message now msg
  | Requested now data => handle_control_device now data
  end.

(** The state after a sequence of events. An exception that leaves a web
    handler is reported by the socket server; the object keeps the state
    it had when the exception was raised. *)
Definition run (evs : list event) (s : display) : display :=
  fold_left (λ s ev, final_state (handle ev s)) evs s.

(** The numbers [evaluate_conditions] may be given: an [int] or a [float],
    where a float may also be an infinity or a NaN. *)
Inductive number : Type :=
| Finite (q : Q)
| PosInf
| NegInf
| NaN.

Definition of_Z (z : Z) : number := Finite (inject_Z z).

(** [x < y]: false as soon as one side is a NaN. *)
Definition num_lt (x y : number) : bool :=
  match x, y with
  | NaN, _ | _, NaN => false
  | Finite p, Finite q => negb (Qle_bool q p)
  | NegInf, NegInf => false
  | NegInf, _ => true
  | Finite _, PosInf => true
  | Finite _, NegInf => false
  | PosInf, _ => false
  end.

(** [x <= y] *)
Definition num_le (x y : number) : bool :=
  match x, y with
  | NaN, _ | _, NaN => false
  | Finite p, Finite q => Qle_bool p q
  | NegInf, _ => true
  | Finite _, PosInf => true
  | Finite _, NegInf => false
  | PosInf, PosInf => true
  | PosInf, _ => false
  end.

Record evaluation : Type := Evaluation {
  conditions : list string;
  alerts : list string;
  overall_status : string
}.

Definition too_cold : string := "🥶 Quá lạnh".
Definition too_hot : string := "🥵 Quá nóng".
Definition comfortable_temperature : string := "😊 Nhiệt độ thoải mái".
Definition too_dry : string := "🏜️ Quá khô".
Definition too_humid : string := "🌊 Quá ẩm".
Definition comfortable_humidity : string := "😊 Độ ẩm thoải mái".

(** [x in l] for a list of strings. *)
Definition str_mem (x : string) (l : list string) : bool :=
  existsb (String.eqb x) l.

Definition evaluate_conditions (temperature humidity : number) : evaluation :=
  let conditions : list string := [] in
  let alerts : list string := [] in
  let '(conditions, alerts) :=
    if num_lt temperature (of_Z 18) then
      ((conditions ++ [too_cold])%list, (alerts ++ ["warning"])%list)
    else if num_lt (of_Z 32) temperature then
      ((conditions ++ [too_hot])%list, (alerts ++ ["danger"])%list)
    else if num_le (of_Z 20) temperature && num_le temperature (of_Z 26) then
      ((conditions ++ [comfortable_temperature])%list, (alerts ++ ["success"])%list)
    else (conditions, alerts) in
  let '(conditions, alerts) :=
    if num_lt humidity (of_Z 40) then
      ((conditions ++ [too_dry])%list, (alerts ++ ["warning"])%list)
    else if num_lt (of_Z 70) humidity then
      ((conditions ++ [too_humid])%list, (alerts ++ ["warning"])%list)
    else if num_le (of_Z 50) humidity && num_le humidity (of_Z 60) then
      ((conditions ++ [comfortable_humidity])%list, (alerts ++ ["success"])%list)
    else (conditions, alerts) in
  {| conditions := conditions;
     alerts := alerts;
     overall_status :=
       if str_mem "danger" alerts then "danger"
       else if str_mem "warning" alerts then "warning"
       else "success" |}.

(** The conditions that come from the temperature. *)
Definition temperature_conditions : list string :=
  [too_cold; too_hot; comfortable_temperature].

(** The temperatures for which none of the three branches is taken. *)
Definition in_gap (t : number) : bool :=
  num_le (of_Z 18) t && num_lt t (of_Z 20)
  || num_lt (of_Z 26) t && num_le t (of_Z 32).

(** *** Invariants of the observer's state *)

(** The three nested dictionaries are three objects, allocated before
    [next_loc]. *)
Definition wf (s : display) : Prop :=
  let d := sensor_data s in
  temperature d ≠ humidity d ∧
  temperature d ≠ sensor_states d ∧
  humidity d ≠ sensor_states d ∧
  (temperature d < next_loc s)%positive ∧
  (humidity d < next_loc s)%positive ∧
  (sensor_states d < next_loc s)%positive.

Definition is_json (v : pyval) : bool :=
  match v with
  | PJ _ => true
  | PDatetime _ => false
  end.

(** No dictionary of the heap holds a datetime object: every value stored
    there was read from a JSON document or is a constant. *)
Definition json_heap (h : heap_t) : Prop :=
  ∀ l d, h !! l = Some d → Forall (λ kv, is_json kv.2 = true) d.

(** The states the observer can be in satisfy both. *)
Definition valid (s : display) : Prop := wf s ∧ json_heap (heap s).

(** The device identities the store has an entry for. *)
Definition known_ids (s : display) : list json := (states_of s).*1.

(** *** What the observer sends *)

(** The MQTT messages among the outputs. *)
Definition published (out : list effect) : list (string * json) :=
  omap (λ e, match e with Publish t d => Some (t, d) | _ => None end) out.

Definition is_publish (e : effect) : bool :=
  match e with
  | Publish _ _ => true
  | _ => false
  end.

(** The [data_update] events sent to the web clients. *)
Definition is_data_update (e : effect) : bool :=
  match e with
  | Emit _ (DataUpdate _ _ _ _) => true
  | _ => false
  end.

(** The [data_update] events among the outputs: the topic and the document
    they report. *)
Definition data_updates (out : list effect) : list (string * json) :=
  omap (λ e, match e with
             | Emit _ (DataUpdate t d _ _) => Some (t, d)
             | _ => None
             end) out.

(** Everything the observer prints, emits, subscribes to and publishes
    during a sequence of events. *)
Fixpoint trace (evs : list event) (s : display) : list effect :=
  match evs with
  | [] => []
  | ev :: evs' =>
      (outputs (handle ev s) ++ trace evs' (final_state (handle ev s)))%list
  end.

(** The events that pass [json.loads] in [on_message]. *)
Definition parsed (ev : event) : bool :=
  match ev with
  | Delivered _ (Message _ (Document _)) => true
  | _ => false
  end.

Definition on_temperature_topic (ev : event) : bool :=
  match ev with
  | Delivered _ msg => String.eqb (topic msg) "sensors/temperature"
  | Requested _ _ => false
  end.

(** The stored temperature has a "timestamp" that is true in a condition
    and is not a datetime object: [_serialize_sensor_data] calls
    [isoformat] on it. *)
Definition blocked (s : display) : Prop :=
  ∃ ts,
    dict_lookup (JStr "timestamp")
      (heap_get (heap s) (temperature (sensor_data s))) = Some (PJ ts) ∧
    truthy ts = true.

Definition on_quantity_topic (ev : event) : bool :=
  match ev with
  | Delivered _ msg =>
      String.eqb (topic msg) "sensors/temperature"
      || String.eqb (topic msg) "sensors/humidity"
  | Requested _ _ => false
  end.

(** The stored temperature and humidity have the "timestamp" [None] they
    start with. *)
Definition unstamped (s : display) : Prop :=
  dict_lookup (JStr "timestamp")
    (heap_get (heap s) (temperature (sensor_data s))) = Some (PJ JNull) ∧
  dict_lookup (JStr "timestamp")
    (heap_get (heap s) (humidity (sensor_data s))) = Some (PJ JNull).

(** The time of the last update is [None] or a datetime object. *)
Definition last_update_ok (s : display) : Prop :=
  last_update (sensor_data s) = PJ JNull ∨
  ∃ iso, last_update (sensor_data s) = PDatetime iso.

(** The snapshot [_serialize_sensor_data] returns in such a state: the
    store, with the time of the last update rendered. *)
Definition snapshot (s : display) : view :=
  {| v_temperature := heap_get (heap s) (temperature (sensor_data s));
     v_humidity := heap_get (heap s) (humidity (sensor_data s));
     v_combined := combined (sensor_data s);
     v_last_update :=
       match last_update (sensor_data s) with
       | PDatetime iso => PJ (JStr iso)
       | v => v
       end;
     v_sensor_states := heap_get (heap s) (sensor_states (sensor_data s)) |}.

(** No element of the list is equal ([==]) to an earlier one. *)
Definition no_repeat (l : list json) : Prop :=
  ∀ l1 x l2, l = (l1 ++ x :: l2)%list → list_mem x l1 = false.

(** Every listed device that can be a key has an entry in
    [sensor_states]. *)
Definition registered (s : display) : Prop :=
  ∀ device,
    device ∈ connected_devices s → hashable device = true →
    dict_mem device (states_of s) = true.

(** The dictionary [handle_temperature_data] and [handle_humidity_data]
    store. *)
Definition entry (value unit timestamp sensor_id : json) : pydict :=
  [(JStr "value", PJ value); (JStr "unit", PJ unit);
   (JStr "timestamp", PJ timestamp); (JStr "sensor_id", PJ sensor_id)].

(** What holds of the devices in every state the observer reaches. *)
Definition devices_ok (s : display) : Prop :=
  valid s ∧ no_repeat (connected_devices s) ∧ registered s.

End Display.

(** ** The documents exchanged *)

Definition command_name (enable : bool) : string :=
  if enable then "enable" else "disable".

(** What the dashboard page sends with [control_device]
    ([controlDevice(command, deviceId)]). *)
Definition request (enable : bool) (device : string) : json :=
  JObj [("command", JStr (command_name enable)); ("device_id", JStr device)].

(** The control command the observer [sender] publishes for such a
    request. *)
Definition control_command (enable : bool) (device now sender : string)
  : message :=
  Message Display.control_topic
    (Document (Display.control_data (JStr (command_name enable)) (JStr device)
                 now sender)).

(** A reading on the bus. *)
Definition reading_message (id : string) (connected : bool)
  (x : Sensor.sample) : message :=
  Message Sensor.topic_combined (Document (Sensor.reading id connected x)).

(** The state the emitter [rp_id] publishes when its flag is toggled, once it
    has generated a reading. *)
Record report : Type := Report {
  rp_id : string;
  rp_connected : bool;
  rp_running : bool;
  rp_enabled : bool;
  rp_sample : Sensor.sample
}.

(** The document of that state update. *)
Definition state_document (r : report) : json :=
  Sensor.status
    (Sensor.Build_sensor (rp_id r) (rp_connected r) (rp_running r)
       (rp_enabled r)
       (Sensor.reading (rp_id r) (rp_connected r) (rp_sample r))).

Definition state_update (r : report) : message :=
  Message (Sensor.topic_control ++ "/sub")
    (Document
       (Sensor.status
          (Sensor.Build_sensor (rp_id r) (rp_connected r) (rp_running r)
             (rp_enabled r)
             (Sensor.reading (rp_id r) (rp_connected r) (rp_sample r))))).

(** ** Notions of the specification *)

(** The two ways the observer's flag for a device is written: an edit made
    when the operator issues a command, and an acknowledgement (a state
    update) received from the bus. *)
Inductive ctl : Type :=
| Edit (now : string) (enable : bool) (device : string)
| Ack (now : string) (r : report).

Definition event_of (c : ctl) : Display.event :=
  match c with
  | Edit now enable device => Display.Requested now (request enable device)
  | Ack now r => Display.Delivered now (state_update r)
  end.

Definition ctl_device (c : ctl) : string :=
  match c with
  | Edit _ _ device => device
  | Ack _ r => rp_id r
  end.

Definition ctl_value (c : ctl) : bool :=
  match c with
  | Edit _ enable _ => enable
  | Ack _ r => rp_enabled r
  end.

Definition is_ack (c : ctl) : bool :=
  match c with
  | Ack _ _ => true
  | Edit _ _ _ => false
  end.

(** The value carried by the last acknowledgement for [device]. *)
Definition last_ack (device : string) (tr : list ctl) : option bool :=
  ctl_value <$>
    last (filter (λ c, is_ack c = true ∧ ctl_device c = device) tr).

(** The value carried by the last edit or acknowledgement for [device]. *)
Definition last_write (device : string) (tr : list ctl) : option bool :=
  ctl_value <$> last (filter (λ c, ctl_device c = device) tr).

(** A reading delivered to the observer at [dl_now]. *)
Record delivery : Type := Delivery {
  dl_now : string;
  dl_id : string;
  dl_connected : bool;
  dl_sample : Sensor.sample
}.

Definition dl_reading (d : delivery) : json :=
  Sensor.reading (dl_id d) (dl_connected d) (dl_sample d).

Definition deliver (d : delivery) : Display.event :=
  Display.Delivered (dl_now d)
    (reading_message (dl_id d) (dl_connected d) (dl_sample d)).

(** The most recent reading of [id]. *)
Definition last_reading_of (id : string) (ds : list delivery) : option json :=
  dl_reading <$> last (filter (λ d, dl_id d = id) ds).

(** The message a subscriber receives for a publication. *)
Definition on_bus (p : string * json) : message :=
  Message p.1 (Document p.2).

(** ** Proof automation *)

Create Rewrite HintDb wp.
Create Rewrite HintDb wpo.
Create HintDb valid.

(** Symbolic execution of a computation: rewrite with the rules of the database [wp] and
    split on the tests met. *)
Ltac wp_run :=
  repeat first
    [ progress autorewrite with wp
    | progress cbn beta iota
    | match goal with
      | |- context [if ?b then _ else _] =>
          let v := eval cbv in b in
          lazymatch v with
          | true => change b with true
          | false => change b with false
          end
      | |- context [if ?b then _ else _] =>
          lazymatch b with
          | context [wp] => fail
          | _ => destruct b eqn:?
          end
      | |- context [match ?x with _ => _ end] =>
          lazymatch x with
          | context [Display.heap_get] => fail
          | _ => idtac
          end;
          let v := eval cbv in x in
          lazymatch v with
          | inl _ => change x with v
          | inr _ => change x with v
          end
      | |- context [match ?x with _ => _ end] =>
          lazymatch x with
          | context [wp] => fail
          | _ => destruct x eqn:?
          end
      end ].

(** * Properties *)

(** ** Equality and dictionaries *)

Lemma py_eq_str (x : string) (k : json) :
  py_eq (JStr x) k = true ↔ k = JStr x.
Proof.
  destruct k; simpl; try (split; [discriminate | congruence]).
  rewrite String.eqb_eq. split; congruence.
Qed.

Lemma py_eq_str_str (x y : string) :
  py_eq (JStr x) (JStr y) = bool_decide (x = y).
Proof.
  simpl. case_bool_decide as H.
  - by apply String.eqb_eq.
  - by apply String.eqb_neq.
Qed.

Lemma Qc_eq_bool_refl (q : Qc) : Qc_eq_bool q q = true.
Proof. unfold Qc_eq_bool. destruct (Qcanon.Qc_eq_dec q q); congruence. Qed.

Lemma py_eq_refl_hashable (k : json) : hashable k = true → py_eq k k = true.
Proof.
  destruct k; simpl; try done; intros _.
  - by destruct b.
  - apply Qc_eq_bool_refl.
  - apply String.eqb_refl.
Qed.

Lemma dict_lookup_set_eq (k : json) (v : pyval) (d : pydict) :
  hashable k = true → dict_lookup k (dict_set k v d) = Some v.
Proof.
  intros Hk. induction d as [|[k' v'] d IH]; simpl.
  - by rewrite py_eq_refl_hashable.
  - destruct (py_eq k k') eqn:E; simpl; rewrite E; done.
Qed.

Lemma dict_set_set (k : json) (v w : pyval) (d : pydict) :
  hashable k = true → dict_set k w (dict_set k v d) = dict_set k w d.
Proof.
  intros Hk. induction d as [|[k' v'] d IH]; simpl.
  - by rewrite py_eq_refl_hashable.
  - destruct (py_eq k k') eqn:E; simpl; rewrite E; [done | by rewrite IH].
Qed.

Lemma dict_lookup_set_str (x y : string) (v : pyval) (d : pydict) :
  dict_lookup (JStr x) (dict_set (JStr y) v d) =
    if decide (x = y) then Some v else dict_lookup (JStr x) d.
Proof.
  induction d as [|[k' v'] d IH].
  - simpl. destruct (decide (x = y)) as [->|Hne].
    + by rewrite String.eqb_refl.
    + by apply String.eqb_neq in Hne as ->.
  - cbn [dict_set dict_lookup].
    destruct (py_eq (JStr y) k') eqn:Ey.
    + apply py_eq_str in Ey as ->. cbn [dict_lookup]. rewrite !py_eq_str_str.
      destruct (decide (x = y)) as [->|Hne].
      * by rewrite bool_decide_eq_true_2.
      * by rewrite bool_decide_eq_false_2.
    + cbn [dict_lookup]. destruct (py_eq (JStr x) k') eqn:Ex.
      * apply py_eq_str in Ex as ->. rewrite py_eq_str_str in Ey.
        apply bool_decide_eq_false in Ey.
        destruct (decide (x = y)); [congruence | done].
      * done.
Qed.

(** ** Computations *)

Section ExecFacts.
Context {S E : Type}.
Implicit Types (R : exn → S → Prop).

Lemma wp_ret {A} (a : A) (Q : A → S → Prop) R s :
  wp (@ret S E A a) Q R s = Q a s.
Proof. done. Qed.

Lemma wp_raise {A} (e : exn) (Q : A → S → Prop) R s :
  wp (@raise S E A e) Q R s = R e s.
Proof. done. Qed.

Lemma wp_bind {A B} (c : @exec S E A) (k : A → @exec S E B)
  (Q : B → S → Prop) R s :
  wp (bind c k) Q R s = wp c (λ a s', wp (k a) Q R s') R s.
Proof.
  unfold wp, bind. destruct (c s) as [a s1 o1|e s1 o1]; [|done].
  by destruct (k a s1).
Qed.

Lemma wp_try_except {A} (c : @exec S E A) (h : exn → @exec S E A)
  (Q : A → S → Prop) R s :
  wp (try_except c h) Q R s = wp c Q (λ e s', wp (h e) Q R s') s.
Proof.
  unfold wp, try_except. destruct (c s) as [a s1 o1|e s1 o1]; [done|].
  by destruct (h e s1).
Qed.

Lemma wp_get_state (Q : S → S → Prop) R s :
  wp (@get_state S E) Q R s = Q s s.
Proof. done. Qed.

Lemma wp_set_state (s' : S) (Q : unit → S → Prop) R s :
  wp (@set_state S E s') Q R s = Q tt s'.
Proof. done. Qed.

Lemma wp_output (e : E) (Q : unit → S → Prop) R s :
  wp (output e) Q R s = Q tt s.
Proof. done. Qed.

Lemma wp_lift {A} (r : exn + A) (Q : A → S → Prop) R s :
  wp (@lift S E A r) Q R s =
    match r with
    | inl e => R e s
    | inr a => Q a s
    end.
Proof. by destruct r. Qed.

Lemma wp_decode_and_load (p : payload) (Q : json → S → Prop) R s :
  wp (@decode_and_load S E p) Q R s =
    match p with
    | Undecodable => R UnicodeDecodeError s
    | Malformed => R JSONDecodeError s
    | Document j => Q j s
    end.
Proof. by destruct p. Qed.

(** The state in which a computation ends, returning or raising. *)
Lemma wp_final_state {A} (c : @exec S E A) (Q : S → Prop) s :
  Q (final_state (c s)) = wp c (λ _, Q) (λ _, Q) s.
Proof. unfold wp. by destruct (c s). Qed.

Lemma wp_and {A} (c : @exec S E A) (Q Q' : A → S → Prop) R R' s :
  wp c Q R s → wp c Q' R' s →
  wp c (λ a s', Q a s' ∧ Q' a s') (λ e s', R e s' ∧ R' e s') s.
Proof. unfold wp. by destruct (c s). Qed.

Lemma wp_mono {A} (c : @exec S E A) (Q Q' : A → S → Prop) R R' s :
  wp c Q R s →
  (∀ a s', Q a s' → Q' a s') → (∀ e s', R e s' → R' e s') →
  wp c Q' R' s.
Proof. unfold wp. destruct (c s); auto. Qed.


End ExecFacts.

Global Arguments wp : simpl never.

(** ** The emitter *)

(** What [on_message] does with a control command: the flag takes the
    command's value, and the new status is sent to the emitter's web
    clients. *)
Lemma sensor_on_message_command (s : Sensor.sensor) (enable : bool)
  (device now sender : string) :
  Sensor.on_message (control_command enable device now sender) s =
    Returns tt (Sensor.with_sensor_enabled enable s)
      [Sensor.Printed (if enable then Sensor.LogEnabledByControl
                       else Sensor.LogDisabledByControl);
       Sensor.Emit "status_update"
         (Sensor.status (Sensor.with_sensor_enabled enable s))].
Proof. by destruct enable. Qed.

Lemma sensor_handle_toggle (s : Sensor.sensor) :
  Sensor.handle_toggle_sensor s =
    let s' := Sensor.with_sensor_enabled (negb (Sensor.sensor_enabled s)) s in
    Returns tt s'
      [Sensor.Printed (Sensor.LogToggled (Sensor.sensor_enabled s'));
       Sensor.Emit "status_update" (Sensor.status s');
       Sensor.Publish "sensors/control/sub" (Sensor.status s')].
Proof. done. Qed.

(** The emitter's handler of bus messages never publishes. *)
Lemma sensor_on_message_publishes_nothing (msg : message) (s : Sensor.sensor) :
  Sensor.published (outputs (Sensor.on_message msg s)) = [].
Proof.
  unfold Sensor.on_message, Sensor.on_message_body, try_except.
  destruct (String.eqb (topic msg) Sensor.topic_control); [|done].
  destruct (body msg) as [| |j]; [done..|].
  destruct j; try done. cbn.
  destruct (py_eq _ (JStr "enable")); [done|].
  by destruct (py_eq _ (JStr "disable")).
Qed.




(** C2 fails on the code: the emitter "temp_humidity_sensor_001", enabled,
    receives the command "disable" that the dashboard issued for the device
    "sensor_002"; its own flag is cleared. *)
Theorem C2_command_for_another_device_is_obeyed :
  let s0 :=
    Sensor.with_is_connected true
      (Sensor.init "temp_humidity_sensor_001" "2025-01-01T00:00:00") in
  let r :=
    Sensor.on_message
      (control_command false "sensor_002" "2025-01-01T00:00:05"
         "sensor_display_001") s0 in
  Sensor.client_id s0 = "temp_humidity_sensor_001" ∧
  Sensor.sensor_enabled s0 = true ∧
  Sensor.sensor_enabled (final_state r) = false.
Proof. done. Qed.

(** The target of a command is never read. *)
Lemma sensor_on_message_ignores_target (s : Sensor.sensor) (enable : bool)
  (device device' now sender : string) :
  Sensor.on_message (control_command enable device now sender) s =
  Sensor.on_message (control_command enable device' now sender) s.
Proof. by rewrite !sensor_on_message_command. Qed.

(** One iteration of the sampling loop. *)
Lemma sensor_tick (x : Sensor.sample) (interval : Z) (s : Sensor.sensor) :
  Sensor.tick x interval s =
    let data := Sensor.reading (Sensor.client_id s) (Sensor.is_connected s) x in
    if Sensor.sensor_enabled s then
      Returns tt (Sensor.with_current_data data s)
        (if Sensor.is_connected s then
           [Sensor.Publish Sensor.topic_combined data;
            Sensor.Printed (Sensor.LogSent (JNum (Sensor.temperature x))
                                           (JNum (Sensor.humidity x)));
            Sensor.Emit "data_update" data;
            Sensor.Sleep interval]
         else [Sensor.Sleep interval])
    else Returns tt s [Sensor.Sleep interval].
Proof.
  destruct s as [cid c r e d]. by destruct e, c.
Qed.



(** ** The environmental evaluation *)

Lemma num_lt_finite (p q : Q) :
  Display.num_lt (Display.Finite p) (Display.Finite q) = true ↔ (p < q)%Q.
Proof.
  cbn. rewrite negb_true_iff, <- not_true_iff_false, Qle_bool_iff.
  split; [apply Qnot_le_lt | apply Qlt_not_le].
Qed.

Lemma num_le_finite (p q : Q) :
  Display.num_le (Display.Finite p) (Display.Finite q) = true ↔ (p <= q)%Q.
Proof. cbn. apply Qle_bool_iff. Qed.

Lemma num_lt_le_false (x y : Display.number) :
  Display.num_lt x y = true → Display.num_le y x = false.
Proof.
  destruct x as [p| | |], y as [q| | |]; try done.
  rewrite num_lt_finite. intros H.
  apply not_true_iff_false. rewrite num_le_finite. by apply Qlt_not_le.
Qed.

Lemma num_le_lt_false (x y : Display.number) :
  Display.num_le x y = true → Display.num_lt y x = false.
Proof.
  destruct x as [p| | |], y as [q| | |]; try done.
  rewrite num_le_finite. intros H.
  apply not_true_iff_false. rewrite num_lt_finite. by apply Qle_not_lt.
Qed.

Lemma num_lt_gt_const (a b : Z) (x : Display.number) :
  (a <= b)%Z →
  Display.num_lt x (Display.of_Z a) = true →
  Display.num_lt (Display.of_Z b) x = false.
Proof.
  intros Hab. rewrite Zle_Qle in Hab.
  destruct x as [p| | |]; try done. unfold Display.of_Z.
  rewrite num_lt_finite, <- not_true_iff_false, num_lt_finite. lra.
Qed.

Lemma num_gt_lt_const (a b : Z) (x : Display.number) :
  (a <= b)%Z →
  Display.num_lt (Display.of_Z b) x = true →
  Display.num_lt x (Display.of_Z a) = false.
Proof.
  intros Hab. rewrite Zle_Qle in Hab.
  destruct x as [p| | |]; try done. unfold Display.of_Z.
  rewrite num_lt_finite, <- not_true_iff_false, num_lt_finite. lra.
Qed.

(** The overall status is "danger" exactly when the temperature branch
    "too hot" is taken. *)
Lemma overall_status_danger (t h : Display.number) :
  Display.overall_status (Display.evaluate_conditions t h) = "danger" ↔
  Display.num_lt (Display.of_Z 32) t = true.
Proof.
  unfold Display.evaluate_conditions.
  destruct (Display.num_lt t (Display.of_Z 18)) eqn:E18.
  - rewrite (num_lt_gt_const 18 32 t) by done.
    destruct (Display.num_lt h (Display.of_Z 40)); [done|].
    destruct (Display.num_lt (Display.of_Z 70) h); [done|].
    by destruct (_ && _).
  - destruct (Display.num_lt (Display.of_Z 32) t) eqn:E32.
    + destruct (Display.num_lt h (Display.of_Z 40)); [done|].
      destruct (Display.num_lt (Display.of_Z 70) h); [done|].
      by destruct (_ && _).
    + destruct (_ && _);
        (destruct (Display.num_lt h (Display.of_Z 40)); [done|]);
        (destruct (Display.num_lt (Display.of_Z 70) h); [done|]);
        by destruct (_ && _).
Qed.

Lemma in_gap_branches (t : Display.number) :
  Display.in_gap t = true →
  Display.num_lt t (Display.of_Z 18) = false ∧
  Display.num_lt (Display.of_Z 32) t = false ∧
  Display.num_le (Display.of_Z 20) t && Display.num_le t (Display.of_Z 26)
    = false.
Proof.
  unfold Display.in_gap. rewrite orb_true_iff, !andb_true_iff.
  intros [[H1 H2]|[H1 H2]].
  - split_and!.
    + by apply num_le_lt_false.
    + by apply (num_lt_gt_const 20 32).
    + apply num_lt_le_false in H2. by rewrite H2.
  - split_and!.
    + by apply (num_gt_lt_const 18 26).
    + by apply num_le_lt_false.
    + apply num_lt_le_false in H1. rewrite H1. apply andb_false_r.
Qed.

(** C10: the evaluation returns the overall status "danger" exactly when the
    temperature is strictly greater than 32, whatever the humidity; and for
    a temperature in 18 <= t < 20 or in 26 < t <= 32 no temperature
    condition is reported: the conditions and the alerts are those of the
    humidity alone, at most one of each. *)
Theorem C10_danger_iff_temperature_above_32 (t h : Display.number) :
  (Display.overall_status (Display.evaluate_conditions t h) = "danger" ↔
   Display.num_lt (Display.of_Z 32) t = true) ∧
  (Display.in_gap t = true →
   Forall (λ c, c ∉ Display.temperature_conditions)
     (Display.conditions (Display.evaluate_conditions t h)) ∧
   Display.conditions (Display.evaluate_conditions t h) =
     Display.conditions (Display.evaluate_conditions Display.NaN h) ∧
   Display.alerts (Display.evaluate_conditions t h) =
     Display.alerts (Display.evaluate_conditions Display.NaN h) ∧
   (length (Display.conditions (Display.evaluate_conditions t h)) ≤ 1)%nat).
Proof.
  split; [apply overall_status_danger|].
  intros (H1 & H2 & H3)%in_gap_branches.
  unfold Display.evaluate_conditions. rewrite H1, H2, H3.
  destruct (Display.num_lt h (Display.of_Z 40));
    [|destruct (Display.num_lt (Display.of_Z 70) h);
      [|destruct (Display.num_le (Display.of_Z 50) h
                  && Display.num_le h (Display.of_Z 60))]];
    cbn; split_and!; try done; try lia;
    repeat constructor; unfold Display.temperature_conditions;
    intros Hin; repeat (apply elem_of_cons in Hin as [Hin|Hin];
                        [discriminate Hin|]); inversion Hin.
Qed.

(** The hypothesis of C10 holds, for instance, at 19 degrees. *)
Lemma C10_witness :
  Display.in_gap (Display.of_Z 19) = true ∧
  Display.conditions
    (Display.evaluate_conditions (Display.of_Z 19) (Display.of_Z 55)) =
    [Display.comfortable_humidity].
Proof.
  split; [reflexivity|].
  destruct (C10_danger_iff_temperature_above_32
              (Display.of_Z 19) (Display.of_Z 55)) as [_ H].
  destruct (H eq_refl) as (_ & -> & _). reflexivity.
Defined.

(** ** The observer *)

(** *** The heap *)

Lemma heap_get_put_eq (h : Display.heap_t) (l : Display.loc) (d : pydict) :
  Display.heap_get (Display.heap_put h l d) l = d.
Proof. unfold Display.heap_get, Display.heap_put. by rewrite lookup_insert_eq. Qed.

Lemma heap_get_put_ne (h : Display.heap_t) (l l' : Display.loc) (d : pydict) :
  l ≠ l' →
  Display.heap_get (Display.heap_put h l d) l' = Display.heap_get h l'.
Proof.
  intros. unfold Display.heap_get, Display.heap_put.
  by rewrite lookup_insert_ne.
Qed.

Lemma heap_put_put (h : Display.heap_t) (l : Display.loc) (d d' : pydict) :
  Display.heap_put (Display.heap_put h l d) l d' = Display.heap_put h l d'.
Proof. unfold Display.heap_put. by rewrite insert_insert_eq. Qed.

Lemma json_heap_get (h : Display.heap_t) (l : Display.loc) :
  Display.json_heap h →
  Forall (λ kv, Display.is_json kv.2 = true) (Display.heap_get h l).
Proof.
  intros Hh. unfold Display.heap_get.
  destruct (h !! l) as [d|] eqn:E; cbn; [by eapply Hh | constructor].
Qed.

Lemma json_heap_put (h : Display.heap_t) (l : Display.loc) (d : pydict) :
  Display.json_heap h →
  Forall (λ kv, Display.is_json kv.2 = true) d →
  Display.json_heap (Display.heap_put h l d).
Proof.
  intros Hh Hd l' d'. unfold Display.heap_put.
  rewrite lookup_insert. case_decide; [congruence | apply Hh].
Qed.

Lemma json_dict_set (k : json) (j : json) (d : pydict) :
  Forall (λ kv, Display.is_json kv.2 = true) d →
  Forall (λ kv, Display.is_json kv.2 = true) (dict_set k (PJ j) d).
Proof.
  induction 1 as [|[k' v'] d Hv Hd IH]; cbn [dict_set].
  - by repeat constructor.
  - destruct (py_eq k k'); by constructor.
Qed.

Lemma json_dict_lookup (k : json) (d : pydict) (v : pyval) :
  Forall (λ kv, Display.is_json kv.2 = true) d →
  dict_lookup k d = Some v → ∃ j, v = PJ j.
Proof.
  induction 1 as [|[k' v'] d Hv Hd IH]; cbn [dict_lookup]; [done|].
  destruct (py_eq k k'); [|done].
  intros [= <-]. destruct v'; [eauto | done].
Qed.

Global Arguments Display.heap_get : simpl never.
Global Arguments Display.heap_put : simpl never.

(** *** Weakest preconditions of the primitives *)

Lemma wp_modify (f : Display.display → Display.display)
  (Q : unit → Display.display → Prop) R s :
  wp (Display.modify f) Q R s = Q tt (f s).
Proof. done. Qed.

Lemma wp_obj_setitem (l : Display.loc) (k : json) (v : pyval)
  (Q : unit → Display.display → Prop) R s :
  wp (Display.obj_setitem l k v) Q R s =
    if hashable k then
      Q tt (Display.with_heap
              (Display.heap_put (Display.heap s) l
                 (dict_set k v (Display.heap_get (Display.heap s) l))) s)
    else R TypeError s.
Proof. unfold Display.obj_setitem. by destruct (hashable k). Qed.

Lemma wp_obj_contains (l : Display.loc) (k : json)
  (Q : bool → Display.display → Prop) R s :
  wp (Display.obj_contains l k) Q R s =
    if hashable k then
      Q (dict_mem k (Display.heap_get (Display.heap s) l)) s
    else R TypeError s.
Proof. unfold Display.obj_contains. by destruct (hashable k). Qed.

Lemma wp_obj_getitem (l : Display.loc) (k : string)
  (Q : pyval → Display.display → Prop) R s :
  wp (Display.obj_getitem l k) Q R s =
    match dict_lookup (JStr k) (Display.heap_get (Display.heap s) l) with
    | Some v => Q v s
    | None => R KeyError s
    end.
Proof.
  unfold Display.obj_getitem, wp, bind, get_state.
  by destruct (dict_lookup _ _).
Qed.

Lemma wp_isoformat (v : pyval) (Q : pyval → Display.display → Prop) R s :
  wp (Display.isoformat v) Q R s =
    match v with
    | PDatetime iso => Q (PJ (JStr iso)) s
    | PJ _ => R AttributeError s
    end.
Proof. by destruct v. Qed.

Lemma wp_alloc (d : pydict) (Q : Display.loc → Display.display → Prop) R s :
  wp (Display.alloc d) Q R s =
    Q (Display.next_loc s)
      (Display.Build_display (Display.client_id s) (Display.is_connected s)
         (Display.heap_put (Display.heap s) (Display.next_loc s) d)
         (Pos.succ (Display.next_loc s)) (Display.sensor_data s)
         (Display.message_count s) (Display.connected_devices s)).
Proof. done. Qed.

Lemma wp_get_statistics (Q : Display.stats → Display.display → Prop) R s :
  wp Display.get_statistics Q R s =
    Q (Display.Stats (Display.message_count s)
         (length (Display.connected_devices s)) (Display.connected_devices s))
      s.
Proof. done. Qed.

Hint Rewrite @wp_bind @wp_ret @wp_raise @wp_try_except @wp_get_state
  @wp_set_state @wp_output @wp_lift @wp_decode_and_load : wp.
Hint Rewrite wp_modify wp_obj_setitem wp_obj_contains wp_obj_getitem
  wp_isoformat wp_alloc wp_get_statistics : wp.

(** *** Snapshots *)

(** With no datetime object in the heap, neither nested timestamp is
    rewritten: the state in which the snapshot is produced, or in which
    [isoformat] fails, is the state before. *)
Lemma serialize_unchanged (s : Display.display) :
  Display.json_heap (Display.heap s) →
  final_state (Display._serialize_sensor_data s) = s.
Proof.
  intros Hh.
  assert (∀ l k v,
    dict_lookup k (Display.heap_get (Display.heap s) l) = Some v →
    ∃ j, v = PJ j) as Hjson.
  { intros l k v. apply json_dict_lookup, json_heap_get, Hh. }
  change (final_state (Display._serialize_sensor_data s) = s)
    with ((λ s', s' = s) (final_state (Display._serialize_sensor_data s))).
  rewrite wp_final_state. unfold Display._serialize_sensor_data.
  wp_run; try done;
    repeat match goal with
    | H : dict_lookup _ _ = Some (PDatetime _) |- _ =>
        apply Hjson in H as [? [=]]
    end.
Qed.

(** *** The invariants *)

Lemma json_heap_empty : Display.json_heap ∅.
Proof. intros l d. by rewrite lookup_empty. Qed.

Lemma valid_init (c : string) : Display.valid (Display.init c).
Proof.
  split.
  - unfold Display.wf. cbn. repeat split; done.
  - unfold Display.init. cbn [Display.heap].
    repeat apply json_heap_put; try apply json_heap_empty;
      by repeat constructor.
Qed.

Lemma valid_with_heap_set (s : Display.display) (l : Display.loc)
  (k j : json) :
  Display.valid s →
  Display.valid
    (Display.with_heap
       (Display.heap_put (Display.heap s) l
          (dict_set k (PJ j) (Display.heap_get (Display.heap s) l))) s).
Proof.
  intros [Hwf Hh]. split; [done|]. cbn [Display.heap Display.with_heap].
  by apply json_heap_put, json_dict_set, json_heap_get.
Qed.

Lemma valid_counted (s : Display.display) :
  Display.valid s → Display.valid (Display.counted s).
Proof. by intros [Hwf Hh]. Qed.

Lemma valid_stamped (now : string) (s : Display.display) :
  Display.valid s → Display.valid (Display.stamped now s).
Proof. by intros [Hwf Hh]. Qed.

Lemma valid_with_state_of (k j : json) (s : Display.display) :
  Display.valid s → Display.valid (Display.with_state_of k (PJ j) s).
Proof. apply valid_with_heap_set. Qed.

Lemma valid_json_heap (s : Display.display) :
  Display.valid s → Display.json_heap (Display.heap s).
Proof. by intros [_ H]. Qed.

(** A computation that leaves the state as it is satisfies every
    postcondition that holds of the state. *)
Lemma wp_unchanged {A} (c : Display.M A) (Q : A → Display.display → Prop)
  (R : exn → Display.display → Prop) (s : Display.display) :
  final_state (c s) = s → (∀ a, Q a s) → (∀ e, R e s) → wp c Q R s.
Proof.
  unfold wp. destruct (c s) as [a s' o|e s' o]; cbn; intros ->; auto.
Qed.

Lemma serialized_view_unchanged (s : Display.display) :
  Display.json_heap (Display.heap s) →
  final_state (Display.serialized_view s) = s.
Proof.
  intros Hh. pose proof (serialize_unchanged s Hh) as Hs.
  unfold Display.serialized_view, bind.
  destruct (Display._serialize_sensor_data s); cbn in *; by subst.
Qed.

(** The invariant after a sequence of writes of JSON values. *)
Ltac valid_solve :=
  match goal with
  | Hs : Display.valid _ |- Display.valid _ =>
      let Hwf := fresh "Hwf" in
      let Hh := fresh "Hh" in
      destruct Hs as [Hwf Hh]; split;
      [ unfold Display.wf in *; cbn in *;
        repeat split; first [apply Hwf | lia]
      | cbn;
        repeat first
          [ assumption
          | apply json_heap_put
          | apply json_dict_set
          | apply json_heap_get
          | by repeat constructor ] ]
  end.

Lemma valid_handle_temperature_data (data : json) (s : Display.display) :
  Display.valid s →
  wp (Display.handle_temperature_data data)
     (λ _, Display.valid) (λ _, Display.valid) s.
Proof.
  intros Hs. unfold Display.handle_temperature_data.
  wp_run; try done; valid_solve.
Qed.

Lemma valid_handle_humidity_data (data : json) (s : Display.display) :
  Display.valid s →
  wp (Display.handle_humidity_data data)
     (λ _, Display.valid) (λ _, Display.valid) s.
Proof.
  intros Hs. unfold Display.handle_humidity_data.
  wp_run; try done; valid_solve.
Qed.

Lemma valid_handle_combined_data (data : json) (s : Display.display) :
  Display.valid s →
  wp (Display.handle_combined_data data)
     (λ _, Display.valid) (λ _, Display.valid) s.
Proof.
  intros Hs. unfold Display.handle_combined_data.
  wp_run; try done; valid_solve.
Qed.

Lemma valid_handle_control_data (data : json) (s : Display.display) :
  Display.valid s →
  wp (Display.handle_control_data data)
     (λ _, Display.valid) (λ _, Display.valid) s.
Proof.
  intros Hs. unfold Display.handle_control_data.
  wp_run; try done; valid_solve.
Qed.

Lemma valid_dispatch (t : string) (data : json) (s : Display.display) :
  Display.valid s →
  wp (Display.dispatch t data) (λ _, Display.valid) (λ _, Display.valid) s.
Proof.
  intros Hs. unfold Display.dispatch.
  repeat match goal with
         | |- context [if ?b then _ else _] => destruct b
         end;
    auto using valid_handle_temperature_data, valid_handle_humidity_data,
      valid_handle_combined_data, valid_handle_control_data.
Qed.

(** *** Messages from the bus *)

(** What [on_message] does with a document: the handler of the topic runs
    on the state with the message counted; when it returns, the time of the
    update is stored; the snapshot sent afterwards changes nothing. *)
Lemma on_message_document (now t : string) (data : json)
  (s : Display.display) (Q : Display.display → Prop) :
  wp (Display.dispatch t data)
     (λ _ s', Display.valid s' ∧ Q (Display.stamped now s'))
     (λ _ s', Q s') (Display.counted s) →
  Q (final_state (Display.on_message now (Message t (Document data)) s)).
Proof.
  intros H. rewrite wp_final_state.
  unfold Display.on_message, Display.on_message_body. cbn [topic body].
  rewrite wp_try_except, wp_bind, wp_decode_and_load, wp_bind, wp_modify,
    wp_bind.
  eapply wp_mono; [exact H| |].
  - intros _ s' [[Hwf Hh] HQ]. cbn beta.
    rewrite wp_bind, wp_modify, wp_bind.
    apply wp_unchanged; [by apply serialized_view_unchanged| |].
    + intros v. by autorewrite with wp.
    + intros e. cbn beta. destruct e; by rewrite wp_output.
  - intros e s' HQ. cbn beta. destruct e; by rewrite wp_output.
Qed.

Lemma valid_on_message (now : string) (msg : message) (s : Display.display) :
  Display.valid s → Display.valid (final_state (Display.on_message now msg s)).
Proof.
  intros Hs. destruct msg as [t [| |data]]; [done..|].
  apply on_message_document.
  eapply wp_mono; [apply valid_dispatch, valid_counted, Hs| |]; cbn beta.
  - intros _ s' Hs'. split; [done | by apply valid_stamped].
  - done.
Qed.

(** *** Requests of the web client *)

Lemma wp_send_control_command (now : string) (command device_id : json)
  (Q : bool → Display.display → Prop) R s :
  wp (Display.send_control_command now command device_id) Q R s =
    Q (Display.is_connected s) s.
Proof.
  unfold Display.send_control_command.
  rewrite wp_bind, wp_get_state. by destruct (Display.is_connected s).
Qed.

Hint Rewrite wp_send_control_command : wp.

Lemma valid_set_each (devices : list json) (v : bool) (s : Display.display) :
  Display.valid s →
  wp (Display.set_each devices v)
     (λ _, Display.valid) (λ _, Display.valid) s.
Proof.
  revert s. induction devices as [|d devices IH]; intros s Hs; [done|].
  cbn [Display.set_each]. wp_run; [|done].
  apply IH. valid_solve.
Qed.

Lemma valid_handle_control_device (now : string) (data : json)
  (s : Display.display) :
  Display.valid s →
  Display.valid (final_state (Display.handle_control_device now data s)).
Proof.
  intros Hs. rewrite wp_final_state. unfold Display.handle_control_device.
  wp_run; try done;
    try (eapply wp_mono; [by apply valid_set_each| |done];
         intros ? s' Hs'; cbn beta in *; rewrite wp_bind, wp_output, wp_bind);
    (apply wp_unchanged;
     [ apply serialized_view_unchanged, valid_json_heap
     | intros v; autorewrite with wp
     | intros e ]);
    first [assumption | valid_solve].
Qed.

Lemma valid_handle (ev : Display.event) (s : Display.display) :
  Display.valid s → Display.valid (final_state (Display.handle ev s)).
Proof.
  destruct ev; [apply valid_on_message | apply valid_handle_control_device].
Qed.

(** Every state the observer reaches satisfies the invariants. *)
Lemma valid_run (evs : list Display.event) (s : Display.display) :
  Display.valid s → Display.valid (Display.run evs s).
Proof.
  revert s. induction evs as [|ev evs IH]; intros s Hs; [done|].
  cbn. by apply IH, valid_handle.
Qed.

(** *** The device states *)

Lemma states_of_with_state_of (k : json) (v : pyval) (s : Display.display) :
  Display.states_of (Display.with_state_of k v s) =
  dict_set k v (Display.states_of s).
Proof. unfold Display.states_of, Display.with_state_of. cbn. apply heap_get_put_eq. Qed.

Lemma with_state_of_twice (k : json) (v w : pyval) (s : Display.display) :
  hashable k = true →
  Display.with_state_of k w (Display.with_state_of k v s) =
  Display.with_state_of k w s.
Proof.
  intros Hk. unfold Display.with_state_of at 1.
  rewrite states_of_with_state_of, dict_set_set by done.
  unfold Display.with_state_of, Display.with_heap. cbn.
  by rewrite heap_put_put.
Qed.

Lemma enabled_of_with_state_of (x y : string) (v : pyval)
  (s : Display.display) :
  Display.enabled_of (JStr x) (Display.with_state_of (JStr y) v s) =
    if decide (x = y) then Some v else Display.enabled_of (JStr x) s.
Proof.
  unfold Display.enabled_of. rewrite states_of_with_state_of.
  apply dict_lookup_set_str.
Qed.

(** Executing a computation to its last state. *)
Ltac final_state_eq :=
  match goal with
  | |- final_state (?c ?s) = ?t =>
      change ((λ z, z = t) (final_state (c s)));
      rewrite wp_final_state
  end.

(** The state in which the handler of acknowledgements ends: the entry of
    the device carried by the message is set to the value carried; nothing
    changes when the message has not the expected shape. *)
Lemma handle_control_data_final (data : json) (s : Display.display) :
  final_state (Display.handle_control_data data s) =
    match py_get data "enabled" (JBool false),
          py_get data "data" (JObj []) with
    | inr enabled, inr inner =>
        match py_get inner "sensor_id" (JStr "all") with
        | inr device_id =>
            if hashable device_id
            then Display.with_state_of device_id (PJ enabled) s
            else s
        | inl _ => s
        end
    | _, _ => s
    end.
Proof.
  final_state_eq. unfold Display.handle_control_data.
  wp_run; done.
Qed.

(** The state after a message on the acknowledgement topic. *)
Lemma on_message_control_sub (now : string) (data : json)
  (s : Display.display) :
  Display.valid s →
  final_state
    (Display.on_message now
       (Message "sensors/control/sub" (Document data)) s) =
    match Display.handle_control_data data (Display.counted s) with
    | Returns _ s' _ => Display.stamped now s'
    | Raises _ s' _ => s'
    end.
Proof.
  intros Hs.
  apply (on_message_document now "sensors/control/sub" data s
           (λ z, z = match Display.handle_control_data data
                             (Display.counted s) with
                     | Returns _ s' _ => Display.stamped now s'
                     | Raises _ s' _ => s'
                     end)).
  change (Display.dispatch "sensors/control/sub" data)
    with (Display.handle_control_data data).
  pose proof (valid_handle_control_data data _ (valid_counted s Hs)) as Hv.
  unfold wp in *.
  by destruct (Display.handle_control_data data (Display.counted s)).
Qed.

Lemma states_of_on_message_control_sub (now : string) (data : json)
  (s : Display.display) :
  Display.valid s →
  Display.states_of
    (final_state
       (Display.on_message now
          (Message "sensors/control/sub" (Document data)) s)) =
  Display.states_of (final_state (Display.handle_control_data data s)).
Proof.
  intros Hs. rewrite on_message_control_sub by done.
  pose proof (handle_control_data_final data (Display.counted s)) as H1.
  rewrite handle_control_data_final.
  destruct (Display.handle_control_data data (Display.counted s))
    as [a s' o|e s' o]; cbn [final_state] in H1; subst s';
    repeat case_match; done.
Qed.

(** The acknowledgement an emitter publishes. *)
Lemma on_message_state_update (now : string) (r : report)
  (s : Display.display) :
  Display.valid s →
  final_state (Display.on_message now (state_update r) s) =
    Display.stamped now
      (Display.with_state_of (JStr (rp_id r)) (PJ (JBool (rp_enabled r)))
         (Display.counted s)).
Proof.
  intros Hs. unfold state_update.
  change (Sensor.topic_control ++ "/sub") with "sensors/control/sub".
  rewrite on_message_control_sub by done.
  match goal with
  | |- context [Display.handle_control_data ?d ?s0] =>
      pose proof (handle_control_data_final d s0) as H1;
      assert (returned (Display.handle_control_data d s0) = true) as Hret
        by done;
      destruct (Display.handle_control_data d s0) as [a s' o|e s' o]
  end; [|done].
  cbn in H1. by rewrite H1.
Qed.

(** The edit made when the operator issues a command for one device. *)
Lemma handle_control_device_one (now : string) (enable : bool)
  (device : string) (s : Display.display) :
  Display.valid s → device ≠ "all" →
  final_state (Display.handle_control_device now (request enable device) s) =
    Display.with_state_of (JStr device) (PJ (JBool enable)) s.
Proof.
  intros Hs Hdev. final_state_eq. unfold Display.handle_control_device.
  assert (py_eq (JStr device) (JStr "all") = false) as Hall.
  { rewrite py_eq_str_str. by apply bool_decide_eq_false. }
  destruct enable; cbn [request command_name];
    wp_run;
    try (match goal with
         | H : negb _ = false |- _ => rewrite Hall in H; discriminate H
         end);
    (apply wp_unchanged;
     [ apply serialized_view_unchanged, valid_json_heap; valid_solve
     | intros v; by autorewrite with wp
     | done ]).
Qed.

Lemma enabled_of_acknowledged (x y now : string) (v : pyval)
  (s : Display.display) :
  Display.enabled_of (JStr x)
    (Display.stamped now
       (Display.with_state_of (JStr y) v (Display.counted s))) =
    if decide (x = y) then Some v else Display.enabled_of (JStr x) s.
Proof.
  unfold Display.enabled_of, Display.states_of. cbn.
  rewrite heap_get_put_eq. apply dict_lookup_set_str.
Qed.

(** The handler of acknowledgements acts on the dictionary of the device
    states by a function that is idempotent. *)
Lemma handle_control_data_states (data : json) :
  ∃ f : pydict → pydict,
    (∀ s, Display.states_of (final_state (Display.handle_control_data data s))
          = f (Display.states_of s)) ∧
    (∀ d, f (f d) = f d).
Proof.
  destruct (py_get data "enabled" (JBool false)) as [e1|enabled] eqn:E1.
  { exists id. split; [|done]. intros s.
    by rewrite handle_control_data_final, E1. }
  destruct (py_get data "data" (JObj [])) as [e2|inner] eqn:E2.
  { exists id. split; [|done]. intros s.
    by rewrite handle_control_data_final, E1, E2. }
  destruct (py_get inner "sensor_id" (JStr "all")) as [e3|device_id] eqn:E3.
  { exists id. split; [|done]. intros s.
    by rewrite handle_control_data_final, E1, E2, E3. }
  destruct (hashable device_id) eqn:Hk.
  - exists (dict_set device_id (PJ enabled)). split.
    + intros s. rewrite handle_control_data_final, E1, E2, E3, Hk.
      apply states_of_with_state_of.
    + intros d. by apply dict_set_set.
  - exists id. split; [|done]. intros s.
    by rewrite handle_control_data_final, E1, E2, E3, Hk.
Qed.

Lemma handle_control_data_twice (data : json) (s : Display.display) :
  final_state
    (Display.handle_control_data data
       (final_state (Display.handle_control_data data s))) =
  final_state (Display.handle_control_data data s).
Proof.
  rewrite (handle_control_data_final data (final_state _)).
  rewrite handle_control_data_final.
  destruct (py_get data "enabled" (JBool false)) as [e1|enabled]; [done|].
  destruct (py_get data "data" (JObj [])) as [e2|inner]; [done|].
  destruct (py_get inner "sensor_id" (JStr "all")) as [e3|device_id]; [done|].
  destruct (hashable device_id) eqn:Hk; [|done].
  by apply with_state_of_twice.
Qed.

(** An acknowledgement of the expected shape is applied. *)
Lemma handle_control_data_returns (data enabled inner device : json)
  (s : Display.display) :
  py_get data "enabled" (JBool false) = inr enabled →
  py_get data "data" (JObj []) = inr inner →
  py_get inner "sensor_id" (JStr "all") = inr device →
  hashable device = true →
  wp (Display.handle_control_data data)
     (λ _ s', s' = Display.with_state_of device (PJ enabled) s)
     (λ _ _, False) s.
Proof.
  intros H1 H2 H3 Hk. unfold Display.handle_control_data.
  rewrite wp_bind, wp_lift, H1, wp_bind, wp_lift, H2, wp_bind, wp_lift, H3.
  rewrite wp_bind, wp_get_state, wp_bind, wp_obj_setitem, Hk.
  by autorewrite with wp.
Qed.

(** C5: applying the same acknowledgement twice in a row yields the same
    state of the store as applying it once, for the handler itself (the
    whole state of the observer) and for the messages delivered to
    [on_message] in any state the observer reaches (the dictionary of the
    device states). The handler sets the flag to the value carried and never
    toggles it: for every document that is an object whose "data" is an
    object (or is absent) and whose device identity can be a key, the handler
    returns, and after one application as after two the state is the state
    before with the entry of that device set to the value carried; in
    particular for the state update an emitter publishes, applied to the
    handler and delivered once or twice in any state the observer reaches.
    A document of another shape changes nothing. *)
Theorem C5_acknowledgement_twice_is_once (data : json) (c now1 now2 : string)
  (evs : list Display.event) (s : Display.display) (r : report) :
  final_state
    (Display.handle_control_data data
       (final_state (Display.handle_control_data data s))) =
  final_state (Display.handle_control_data data s) ∧
  wp (Display.handle_control_data data)
     (λ _ s', ∃ enabled inner device_id,
        py_get data "enabled" (JBool false) = inr enabled ∧
        py_get data "data" (JObj []) = inr inner ∧
        py_get inner "sensor_id" (JStr "all") = inr device_id ∧
        Display.enabled_of device_id s' = Some (PJ enabled))
     (λ _ s', s' = s) s ∧
  Display.states_of
    (Display.run
       [Display.Delivered now1 (Message "sensors/control/sub" (Document data));
        Display.Delivered now2 (Message "sensors/control/sub" (Document data))]
       (Display.run evs (Display.init c))) =
  Display.states_of
    (Display.run
       [Display.Delivered now1 (Message "sensors/control/sub" (Document data))]
       (Display.run evs (Display.init c))) ∧
  (∀ enabled inner device_id,
     py_get data "enabled" (JBool false) = inr enabled →
     py_get data "data" (JObj []) = inr inner →
     py_get inner "sensor_id" (JStr "all") = inr device_id →
     hashable device_id = true →
     returned (Display.handle_control_data data s) = true ∧
     final_state (Display.handle_control_data data s) =
       Display.with_state_of device_id (PJ enabled) s ∧
     returned
       (Display.handle_control_data data
          (final_state (Display.handle_control_data data s))) = true ∧
     final_state
       (Display.handle_control_data data
          (final_state (Display.handle_control_data data s))) =
       Display.with_state_of device_id (PJ enabled) s ∧
     Display.enabled_of device_id
       (final_state (Display.handle_control_data data s)) =
       Some (PJ enabled)) ∧
  returned (Display.handle_control_data (state_document r) s) = true ∧
  final_state (Display.handle_control_data (state_document r) s) =
    Display.with_state_of (JStr (rp_id r)) (PJ (JBool (rp_enabled r))) s ∧
  Display.enabled_of (JStr (rp_id r))
    (Display.run [Display.Delivered now1 (state_update r)]
       (Display.run evs (Display.init c))) =
    Some (PJ (JBool (rp_enabled r))) ∧
  Display.enabled_of (JStr (rp_id r))
    (Display.run
       [Display.Delivered now1 (state_update r);
        Display.Delivered now2 (state_update r)]
       (Display.run evs (Display.init c))) =
    Some (PJ (JBool (rp_enabled r))).
Proof.
  assert (∀ d enabled inner device_id s0,
            py_get d "enabled" (JBool false) = inr enabled →
            py_get d "data" (JObj []) = inr inner →
            py_get inner "sensor_id" (JStr "all") = inr device_id →
            hashable device_id = true →
            returned (Display.handle_control_data d s0) = true ∧
            final_state (Display.handle_control_data d s0) =
              Display.with_state_of device_id (PJ enabled) s0) as Hret.
  { intros d enabled inner device_id s0 H1 H2 H3 Hk.
    pose proof (handle_control_data_returns d enabled inner device_id s0
                  H1 H2 H3 Hk) as Hwp.
    unfold wp in Hwp.
    by destruct (Display.handle_control_data d s0). }
  split_and!.
  - apply handle_control_data_twice.
  - unfold Display.handle_control_data. wp_run; try done.
    eexists _, _, _. split_and!; try done.
    unfold Display.enabled_of, Display.states_of. cbn.
    rewrite heap_get_put_eq. by apply dict_lookup_set_eq.
  - pose proof (valid_run evs _ (valid_init c)) as Hs.
    set (s0 := Display.run evs (Display.init c)) in *.
    cbn [Display.run fold_left Display.handle].
    pose proof (valid_on_message now1
                  (Message "sensors/control/sub" (Document data)) s0 Hs)
      as Hs1.
    rewrite (states_of_on_message_control_sub now2) by done.
    destruct (handle_control_data_states data) as (f & Hf & Hff).
    rewrite Hf, states_of_on_message_control_sub by done.
    by rewrite Hf, Hff.
  - intros enabled inner device_id H1 H2 H3 Hk.
    destruct (Hret data enabled inner device_id s H1 H2 H3 Hk) as [Hr1 Hf1].
    destruct (Hret data enabled inner device_id
                (Display.with_state_of device_id (PJ enabled) s)
                H1 H2 H3 Hk) as [Hr2 Hf2].
    rewrite Hf1, Hf2, with_state_of_twice by done.
    split_and!; try done.
    unfold Display.enabled_of. rewrite states_of_with_state_of.
    by apply dict_lookup_set_eq.
  - by apply (Hret (state_document r) (JBool (rp_enabled r))
                (Sensor.reading (rp_id r) (rp_connected r) (rp_sample r))
                (JStr (rp_id r)) s).
  - by apply (Hret (state_document r) (JBool (rp_enabled r))
                (Sensor.reading (rp_id r) (rp_connected r) (rp_sample r))
                (JStr (rp_id r)) s).
  - pose proof (valid_run evs _ (valid_init c)) as Hs.
    cbn [Display.run fold_left Display.handle].
    rewrite on_message_state_update by done.
    rewrite enabled_of_acknowledged. by rewrite decide_True.
  - pose proof (valid_run evs _ (valid_init c)) as Hs.
    set (s0 := Display.run evs (Display.init c)) in *.
    cbn [Display.run fold_left Display.handle].
    pose proof (valid_on_message now1 (state_update r) s0 Hs) as Hs1.
    rewrite (on_message_state_update now2) by done.
    rewrite enabled_of_acknowledged. by rewrite decide_True.
Qed.

(** *** Optimistic edits and acknowledgements *)

Lemma enabled_of_event_of (A : string) (c : ctl) (s : Display.display) :
  Display.valid s →
  is_ack c = true ∨ ctl_device c ≠ "all" →
  Display.enabled_of (JStr A) (final_state (Display.handle (event_of c) s)) =
    if decide (A = ctl_device c) then Some (PJ (JBool (ctl_value c)))
    else Display.enabled_of (JStr A) s.
Proof.
  intros Hs Hc. destruct c as [now enable device|now r];
    cbn [event_of Display.handle ctl_device ctl_value].
  - destruct Hc as [[=]|Hc].
    rewrite handle_control_device_one by done.
    apply enabled_of_with_state_of.
  - rewrite on_message_state_update by done.
    apply enabled_of_acknowledged.
Qed.

Lemma run_app (evs evs' : list Display.event) (s : Display.display) :
  Display.run (evs ++ evs') s = Display.run evs' (Display.run evs s).
Proof. apply fold_left_app. Qed.

Lemma last_filter_snoc {A} (P : A → Prop) `{∀ x, Decision (P x)}
  (l : list A) (x : A) :
  last (filter P (l ++ [x])%list) =
    if decide (P x) then Some x else last (filter P l).
Proof.
  rewrite filter_app, filter_cons, filter_nil.
  destruct (decide (P x)); [apply last_snoc | by rewrite app_nil_r].
Qed.

(** The flag stored for a device is the value of the last edit or
    acknowledgement that names it. *)
Lemma enabled_of_run_ctl (A : string) (tr : list ctl) (s : Display.display) :
  Display.valid s →
  Forall (λ c, is_ack c = true ∨ ctl_device c ≠ "all") tr →
  Display.enabled_of (JStr A) (Display.run (event_of <$> tr) s) =
    match last_write A tr with
    | Some v => Some (PJ (JBool v))
    | None => Display.enabled_of (JStr A) s
    end.
Proof.
  intros Hs. induction tr as [|c tr IH] using rev_ind; intros Htr; [done|].
  apply Forall_app in Htr as [Htr Hc]. apply Forall_inv in Hc.
  rewrite fmap_app, run_app. cbn [fmap list_fmap Display.run fold_left].
  rewrite enabled_of_event_of by (try apply valid_run; done).
  unfold last_write. rewrite last_filter_snoc.
  destruct (decide (A = ctl_device c)) as [->|Hne].
  - by rewrite decide_True.
  - rewrite decide_False by done. by apply IH.
Qed.

(** C4, as the code has it: a command issued for the device A sets A's
    flag at once, before any acknowledgement; an acknowledgement for A that
    arrives later overwrites it; and for every interleaving of edits and
    acknowledgements the stored flag is the value of the last of them that
    names the device, be it an edit or an acknowledgement. *)
Theorem C4_last_edit_or_acknowledgement_wins (A : string) (tr : list ctl)
  (now : string) (enable : bool) (r : report) (s : Display.display) :
  Display.valid s →
  Forall (λ c, is_ack c = true ∨ ctl_device c ≠ "all") tr →
  A ≠ "all" →
  Display.enabled_of (JStr A)
    (final_state (Display.handle_control_device now (request enable A) s)) =
    Some (PJ (JBool enable)) ∧
  Display.enabled_of (JStr (rp_id r))
    (Display.run (event_of <$> (tr ++ [Ack now r])%list) s) =
    Some (PJ (JBool (rp_enabled r))) ∧
  Display.enabled_of (JStr A) (Display.run (event_of <$> tr) s) =
    match last_write A tr with
    | Some v => Some (PJ (JBool v))
    | None => Display.enabled_of (JStr A) s
    end.
Proof.
  intros Hs Htr HA. split_and!.
  - rewrite handle_control_device_one by done.
    rewrite enabled_of_with_state_of. by rewrite decide_True.
  - rewrite enabled_of_run_ctl; [|done|].
    + unfold last_write. rewrite last_filter_snoc.
      by rewrite decide_True.
    + apply Forall_app. split; [done|]. apply Forall_singleton. by left.
  - by apply enabled_of_run_ctl.
Qed.

(** The hypotheses of C4 hold for the observer as it starts, the device
    "A", and the trace "disable A is issued, then A acknowledges enabled". *)
Lemma C4_witness :
  Display.enabled_of (JStr "A")
    (Display.run
       (event_of <$>
          [Edit "2025-01-01T00:00:01" false "A";
           Ack "2025-01-01T00:00:02"
             (Report "A" true true true
                (Sensor.Sample (Q2Qc 21) (Q2Qc 55) "2025-01-01T00:00:00"))])
       (Display.init "display_001")) =
  Some (PJ (JBool true)).
Proof.
  refine (proj2 (proj2
    (C4_last_edit_or_acknowledgement_wins "A"
       [Edit "2025-01-01T00:00:01" false "A";
        Ack "2025-01-01T00:00:02"
          (Report "A" true true true
             (Sensor.Sample (Q2Qc 21) (Q2Qc 55) "2025-01-01T00:00:00"))]
       "2025-01-01T00:00:03" true
       (Report "A" true true true
          (Sensor.Sample (Q2Qc 21) (Q2Qc 55) "2025-01-01T00:00:00"))
       (Display.init "display_001") (valid_init _) _ _))).
  - constructor; [by right|]. constructor; [by left|]. constructor.
  - done.
Defined.

(** C4, as stated, fails: the device A acknowledges enabled, then the
    operator issues "disable" for A; the stored flag is false, and the last
    acknowledgement received carried true. *)
Lemma C4_counterexample :
  let tr :=
    [Ack "2025-01-01T00:00:01"
       (Report "A" true true true
          (Sensor.Sample (Q2Qc 21) (Q2Qc 55) "2025-01-01T00:00:00"));
     Edit "2025-01-01T00:00:02" false "A"] in
  last_ack "A" tr = Some true ∧
  Display.enabled_of (JStr "A")
    (Display.run (event_of <$> tr) (Display.init "display_001")) =
  Some (PJ (JBool false)).
Proof. split; vm_compute; reflexivity. Qed.

(** *** Snapshots of the store *)

(** With no datetime object in the heap, [_serialize_sensor_data] leaves the
    state as it is, and the dictionary it returns holds the nested
    dictionaries of the store. *)
Lemma serialize_shares (s : Display.display) :
  Display.json_heap (Display.heap s) →
  wp Display._serialize_sensor_data
     (λ d s',
        s' = s ∧
        Display.temperature d = Display.temperature (Display.sensor_data s) ∧
        Display.humidity d = Display.humidity (Display.sensor_data s) ∧
        Display.sensor_states d =
          Display.sensor_states (Display.sensor_data s) ∧
        Display.combined d = Display.combined (Display.sensor_data s) ∧
        Display.last_update d =
          match Display.last_update (Display.sensor_data s) with
          | PDatetime iso => PJ (JStr iso)
          | v => v
          end)
     (λ _ s', s' = s) s.
Proof.
  intros Hh.
  assert (∀ l k v,
    dict_lookup k (Display.heap_get (Display.heap s) l) = Some v →
    ∃ j, v = PJ j) as Hjson.
  { intros l k v. apply json_dict_lookup, json_heap_get, Hh. }
  unfold Display._serialize_sensor_data.
  wp_run; try done;
    repeat match goal with
    | H : dict_lookup _ _ = Some (PDatetime _) |- _ =>
        apply Hjson in H as [? [=]]
    end;
    repeat match goal with
    | H : Display.last_update _ = _ |- _ => rewrite H in *
    end; try done.
Qed.

Lemma serialized_view_shares (s : Display.display) :
  Display.json_heap (Display.heap s) →
  wp Display.serialized_view
     (λ v s',
        s' = s ∧
        Display.v_temperature v = Display.v_temperature (Display.store_view s) ∧
        Display.v_humidity v = Display.v_humidity (Display.store_view s) ∧
        Display.v_sensor_states v =
          Display.v_sensor_states (Display.store_view s) ∧
        Display.v_combined v = Display.v_combined (Display.store_view s))
     (λ _ s', s' = s) s.
Proof.
  intros Hh. unfold Display.serialized_view. rewrite wp_bind.
  eapply wp_mono; [by apply serialize_shares| |done].
  intros d s' (-> & H1 & H2 & H3 & H4 & H5).
  rewrite wp_bind, wp_get_state, wp_ret.
  unfold Display.store_view, Display.render. cbn.
  by rewrite H1, H2, H3, H4.
Qed.

(** C7, as the code has it: in every state the observer reaches, producing
    a snapshot leaves the store unchanged, whether the snapshot is returned
    or [isoformat] fails on a timestamp; the snapshot returned is a copy of
    the top-level mapping only: its [last_update] entry is rewritten in the
    copy, and its [temperature], [humidity] and [sensor_states] entries are
    the store's own nested dictionaries. *)
Theorem C7_snapshot_is_a_shallow_copy (c : string) (evs : list Display.event) :
  final_state
    (Display._serialize_sensor_data (Display.run evs (Display.init c))) =
  Display.run evs (Display.init c) ∧
  wp Display._serialize_sensor_data
     (λ d _,
        let store := Display.sensor_data (Display.run evs (Display.init c)) in
        Display.temperature d = Display.temperature store ∧
        Display.humidity d = Display.humidity store ∧
        Display.sensor_states d = Display.sensor_states store ∧
        Display.combined d = Display.combined store ∧
        Display.last_update d =
          match Display.last_update store with
          | PDatetime iso => PJ (JStr iso)
          | v => v
          end)
     (λ _ _, True)
     (Display.run evs (Display.init c)).
Proof.
  pose proof (valid_run evs _ (valid_init c)) as [_ Hh].
  split; [by apply serialize_unchanged|].
  eapply wp_mono; [by apply serialize_shares| |done].
  cbv zeta. by intros d s' (_ & H).
Qed.

(** C7, as stated, fails: after a reading of the device A the store holds
    A enabled; a snapshot is produced, and setting A's flag to false in the
    [sensor_states] entry of the snapshot changes the flag the store holds. *)
Lemma C7_counterexample :
  let s :=
    Display.run
      [deliver (Delivery "2025-01-01T00:00:03" "A" true
                  (Sensor.Sample (Q2Qc 21) (Q2Qc 55) "2025-01-01T00:00:03"))]
      (Display.init "display_001") in
  wp Display._serialize_sensor_data
     (λ d s1,
        Display.enabled_of (JStr "A") s1 = Some (PJ (JBool true)) ∧
        Display.enabled_of (JStr "A")
          (final_state
             (Display.obj_setitem (Display.sensor_states d) (JStr "A")
                (PJ (JBool false)) s1)) =
        Some (PJ (JBool false)))
     (λ _ _, False) s.
Proof. vm_compute. split; reflexivity. Qed.

(** *** Payloads that cannot be parsed *)

(** C8: a message whose payload is not UTF-8 or not a JSON document is
    logged and dropped by the observer on every topic, and by the emitter on
    its control topic (on another topic the emitter reads no payload):
    the handler returns, no exception leaves it, and the state of the process
    is the state before. *)
Theorem C8_unparsable_payload_is_dropped (now t : string)
  (o : Display.display) (e : Sensor.sensor) :
  Display.on_message now (Message t Undecodable) o =
    Returns tt o [Display.Printed (Display.LogMessageError UnicodeDecodeError)] ∧
  Display.on_message now (Message t Malformed) o =
    Returns tt o [Display.Printed (Display.LogJsonError t)] ∧
  Sensor.on_message (Message t Undecodable) e =
    Returns tt e
      (if String.eqb t Sensor.topic_control
       then [Sensor.Printed (Sensor.LogControlError UnicodeDecodeError)]
       else []) ∧
  Sensor.on_message (Message t Malformed) e =
    Returns tt e
      (if String.eqb t Sensor.topic_control
       then [Sensor.Printed (Sensor.LogControlError JSONDecodeError)]
       else []).
Proof.
  split_and!; try done;
    unfold Sensor.on_message, Sensor.on_message_body, try_except;
    cbn [topic body]; by destruct (String.eqb t Sensor.topic_control).
Qed.

(** *** Commands for all devices *)

(** The edit of every device of a list of identities. *)
Lemma wp_set_each_strings (ids : list string) (v : bool)
  (Q : unit → Display.display → Prop) R (s : Display.display) :
  wp (Display.set_each (JStr <$> ids) v) Q R s =
    Q tt (foldl (λ s x, Display.with_state_of (JStr x) (PJ (JBool v)) s)
            s ids).
Proof.
  revert s. induction ids as [|x ids IH]; intros s; [done|].
  cbn [fmap list_fmap Display.set_each foldl].
  rewrite wp_bind, wp_get_state, wp_bind, wp_obj_setitem.
  cbn [hashable]. by rewrite IH.
Qed.

Lemma valid_foldl_with_state_of (ids : list string) (v : bool)
  (s : Display.display) :
  Display.valid s →
  Display.valid
    (foldl (λ s x, Display.with_state_of (JStr x) (PJ (JBool v)) s) s ids).
Proof.
  revert s. induction ids as [|x ids IH]; intros s Hs; [done|].
  cbn [foldl]. by apply IH, valid_with_state_of.
Qed.

Lemma connected_devices_foldl_with_state_of (ids : list string) (v : bool)
  (s : Display.display) :
  Display.connected_devices
    (foldl (λ s x, Display.with_state_of (JStr x) (PJ (JBool v)) s) s ids) =
  Display.connected_devices s.
Proof.
  revert s. induction ids as [|x ids IH]; intros s; [done|].
  cbn [foldl]. by rewrite IH.
Qed.

Lemma enabled_of_foldl_with_state_of (x : string) (ids : list string)
  (v : bool) (s : Display.display) :
  Display.enabled_of (JStr x)
    (foldl (λ s y, Display.with_state_of (JStr y) (PJ (JBool v)) s) s ids) =
    if decide (x ∈ ids) then Some (PJ (JBool v))
    else Display.enabled_of (JStr x) s.
Proof.
  revert s. induction ids as [|y ids IH]; intros s.
  - cbn [foldl]. rewrite decide_False; [done | apply not_elem_of_nil].
  - cbn [foldl]. rewrite IH, enabled_of_with_state_of.
    destruct (decide (x ∈ ids)) as [Hin|Hin].
    + rewrite decide_True; [done | by right].
    + destruct (decide (x = y)) as [->|Hne].
      * rewrite decide_True; [done | by left].
      * rewrite decide_False; [done|].
        intros [?|?]%elem_of_cons; done.
Qed.

(** The edit made when the operator issues a command for "all": every
    device of [connected_devices], and no other, is set. *)
Lemma handle_control_device_all (now : string) (enable : bool)
  (ids : list string) (s : Display.display) :
  Display.valid s →
  Display.connected_devices s = JStr <$> ids →
  final_state (Display.handle_control_device now (request enable "all") s) =
    foldl (λ s x, Display.with_state_of (JStr x) (PJ (JBool enable)) s) s ids.
Proof.
  intros Hs Hids. final_state_eq. unfold Display.handle_control_device.
  destruct enable; cbn [request command_name];
    wp_run; rewrite Hids, wp_set_each_strings;
    rewrite wp_bind, wp_output, wp_bind;
    (apply wp_unchanged;
     [ by apply serialized_view_unchanged, valid_json_heap,
         valid_foldl_with_state_of
     | intros v; by autorewrite with wp
     | done ]).
Qed.

(** *** Readings *)

Local Arguments list_mem : simpl never.
Local Arguments dict_mem : simpl never.

Lemma handle_combined_data_final (data t h sensor_id : json)
  (s : Display.display) :
  py_getitem data "temperature" = inr t →
  py_getitem data "humidity" = inr h →
  py_get data "sensor_id" (JStr "unknown") = inr sensor_id →
  hashable sensor_id = true →
  wp (Display.handle_combined_data data)
     (λ _ s', s' = Display.after_combined data t h sensor_id s)
     (λ _ _, False) s.
Proof.
  intros Ht Hh Hid Hk. unfold Display.handle_combined_data.
  rewrite wp_bind, wp_modify, wp_bind, wp_lift, Ht, wp_bind, wp_get_state,
    wp_bind, wp_obj_setitem. cbn [hashable].
  rewrite wp_bind, wp_lift, Hh, wp_bind, wp_get_state, wp_bind,
    wp_obj_setitem. cbn [hashable].
  rewrite wp_bind, wp_lift, Hid, wp_bind, wp_get_state.
  unfold Display.after_combined, Display.with_value_at,
    Display.with_state_of, Display.states_of. cbv zeta. cbn.
  destruct (list_mem sensor_id (Display.connected_devices s));
    cbn [negb]; [by rewrite wp_ret|].
  rewrite wp_bind, wp_modify, wp_bind, wp_obj_contains, Hk. cbn.
  match goal with
  | |- context [negb (dict_mem sensor_id ?d)] => destruct (dict_mem sensor_id d)
  end; cbn [negb].
  - by rewrite wp_ret.
  - by rewrite wp_obj_setitem, Hk.
Qed.

Lemma on_message_reading (now id : string) (c : bool) (x : Sensor.sample)
  (s : Display.display) :
  Display.valid s →
  final_state (Display.on_message now (reading_message id c x) s) =
    Display.stamped now
      (Display.after_combined (Sensor.reading id c x)
         (JNum (Sensor.temperature x)) (JNum (Sensor.humidity x)) (JStr id)
         (Display.counted s)).
Proof.
  intros Hs. unfold reading_message.
  apply (on_message_document now Sensor.topic_combined _ s
           (λ z, z = Display.stamped now _)).
  change (Display.dispatch Sensor.topic_combined)
    with Display.handle_combined_data.
  eapply wp_mono.
  - apply wp_and.
    + apply valid_handle_combined_data, valid_counted, Hs.
    + by apply (handle_combined_data_final _
                  (JNum (Sensor.temperature x)) (JNum (Sensor.humidity x))
                  (JStr id)).
  - intros ? s' [Hv ->]. by split.
  - by intros ? s' [_ []].
Qed.

Lemma list_mem_strings (x : string) (ids : list string) :
  list_mem (JStr x) (JStr <$> ids) = bool_decide (x ∈ ids).
Proof.
  unfold list_mem. induction ids as [|y ids IH].
  - cbn. symmetry. apply bool_decide_eq_false, not_elem_of_nil.
  - cbn [fmap list_fmap existsb]. fold (list_fmap _ _ JStr ids).
    rewrite py_eq_str_str. change (list_fmap _ _ JStr ids) with (JStr <$> ids).
    rewrite IH. destruct (decide (x = y)) as [->|Hne].
    + rewrite bool_decide_eq_true_2 by done. cbn.
      symmetry. apply bool_decide_eq_true. by left.
    + rewrite (bool_decide_eq_false_2 (x = y)) by done. cbn.
      apply bool_decide_ext. rewrite elem_of_cons.
      split; [by right | by intros [?|?]].
Qed.

(** What a reading changes in the store. *)
Lemma after_combined_store (data t h sensor_id : json) (s : Display.display) :
  Display.wf s →
  let s' := Display.after_combined data t h sensor_id s in
  Display.combined (Display.sensor_data s') = PJ data ∧
  dict_lookup (JStr "value") (Display.v_temperature (Display.store_view s'))
    = Some (PJ t) ∧
  dict_lookup (JStr "value") (Display.v_humidity (Display.store_view s'))
    = Some (PJ h) ∧
  Display.connected_devices s' =
    (if list_mem sensor_id (Display.connected_devices s)
     then Display.connected_devices s
     else (Display.connected_devices s ++ [sensor_id])%list) ∧
  Display.states_of s' =
    (if list_mem sensor_id (Display.connected_devices s)
     then Display.states_of s
     else if dict_mem sensor_id (Display.states_of s)
          then Display.states_of s
          else dict_set sensor_id (PJ (JBool true)) (Display.states_of s)).
Proof.
  intros (H1 & H2 & H3 & _).
  unfold Display.after_combined, Display.with_value_at,
    Display.with_state_of, Display.states_of, Display.store_view,
    Display.render. cbv zeta. cbn.
  repeat first [ rewrite heap_get_put_eq
               | rewrite heap_get_put_ne by congruence ].
  destruct (list_mem sensor_id (Display.connected_devices s)); cbn;
    [|destruct (dict_mem sensor_id _); cbn];
    repeat first [ rewrite heap_get_put_eq
                 | rewrite heap_get_put_ne by congruence ];
    split_and!; try done; by apply dict_lookup_set_eq.
Qed.

Lemma enabled_of_on_message_reading (now x y : string) (c : bool)
  (smp : Sensor.sample) (s : Display.display) :
  Display.valid s →
  list_mem (JStr x) (Display.connected_devices s) = false →
  Display.enabled_of (JStr x) s = None →
  Display.enabled_of (JStr y)
    (final_state (Display.on_message now (reading_message x c smp) s)) =
    if decide (y = x) then Some (PJ (JBool true))
    else Display.enabled_of (JStr y) s.
Proof.
  intros Hs Hmem Hnone. rewrite on_message_reading by done.
  pose proof (after_combined_store (Sensor.reading x c smp)
                (JNum (Sensor.temperature smp)) (JNum (Sensor.humidity smp))
                (JStr x) (Display.counted s) (proj1 (valid_counted s Hs)))
    as (_ & _ & _ & _ & Hst).
  cbv zeta in Hst.
  change (Display.connected_devices (Display.counted s))
    with (Display.connected_devices s) in Hst.
  change (Display.states_of (Display.counted s))
    with (Display.states_of s) in Hst.
  rewrite Hmem in Hst. unfold dict_mem in Hst.
  unfold Display.enabled_of in Hnone. rewrite Hnone in Hst.
  unfold Display.enabled_of.
  change (Display.states_of (Display.stamped now ?z))
    with (Display.states_of z).
  rewrite Hst. apply dict_lookup_set_str.
Qed.

Lemma connected_devices_on_message_reading (now x : string) (c : bool)
  (smp : Sensor.sample) (s : Display.display) :
  Display.valid s →
  Display.connected_devices
    (final_state (Display.on_message now (reading_message x c smp) s)) =
    if list_mem (JStr x) (Display.connected_devices s)
    then Display.connected_devices s
    else (Display.connected_devices s ++ [JStr x])%list.
Proof.
  intros Hs. rewrite on_message_reading by done.
  pose proof (after_combined_store (Sensor.reading x c smp)
                (JNum (Sensor.temperature smp)) (JNum (Sensor.humidity smp))
                (JStr x) (Display.counted s) (proj1 (valid_counted s Hs)))
    as (_ & _ & _ & Hc & _).
  exact Hc.
Qed.

(** What the loop of [handle_control_device] does for "all": it sets the
    flag of the devices a reading was received from (the list
    [connected_devices]) to the command's value and leaves the entry of any
    other device as it is, whether the store has the device or not; a device
    whose first reading arrives afterwards, and which has no entry yet, is
    created with enabled = true, the devices set by the command keeping the
    command's value. *)
Lemma handle_control_device_all_entries (now : string) (enable : bool)
  (ids : list string) (s : Display.display) :
  Display.valid s →
  Display.connected_devices s = JStr <$> ids →
  let s' :=
    final_state (Display.handle_control_device now (request enable "all") s)
  in
  (∀ x, x ∈ ids →
     Display.enabled_of (JStr x) s' = Some (PJ (JBool enable))) ∧
  (∀ x, x ∉ ids →
     Display.enabled_of (JStr x) s' = Display.enabled_of (JStr x) s) ∧
  Display.connected_devices s' = Display.connected_devices s ∧
  (∀ now' x c smp,
     x ∉ ids → Display.enabled_of (JStr x) s = None →
     let s'' :=
       final_state (Display.on_message now' (reading_message x c smp) s') in
     Display.enabled_of (JStr x) s'' = Some (PJ (JBool true)) ∧
     (∀ y, y ∈ ids →
        Display.enabled_of (JStr y) s'' = Some (PJ (JBool enable))) ∧
     Display.connected_devices s'' = JStr <$> (ids ++ [x])%list).
Proof.
  intros Hs Hids. cbv zeta.
  rewrite (handle_control_device_all now enable ids) by done.
  pose proof (valid_foldl_with_state_of ids enable s Hs) as Hs'.
  pose proof (connected_devices_foldl_with_state_of ids enable s) as Hc'.
  set (s' := foldl _ s ids) in *.
  assert (∀ x, Display.enabled_of (JStr x) s' =
               if decide (x ∈ ids) then Some (PJ (JBool enable))
               else Display.enabled_of (JStr x) s) as Hen.
  { intros x. apply enabled_of_foldl_with_state_of. }
  split_and!.
  - intros x Hx. by rewrite Hen, decide_True.
  - intros x Hx. by rewrite Hen, decide_False.
  - done.
  - intros now' x c smp Hx Hnone.
    assert (list_mem (JStr x) (Display.connected_devices s') = false) as Hm.
    { rewrite Hc', Hids, list_mem_strings. by apply bool_decide_eq_false. }
    assert (Display.enabled_of (JStr x) s' = None) as Hn.
    { by rewrite Hen, decide_False. }
    split_and!.
    + rewrite enabled_of_on_message_reading by done. by rewrite decide_True.
    + intros y Hy. rewrite enabled_of_on_message_reading by done.
      rewrite decide_False by (intros ->; done).
      by rewrite Hen, decide_True.
    + rewrite connected_devices_on_message_reading, Hm, Hc', Hids by done.
      by rewrite fmap_app.
Qed.

(** C3 fails on the code. The emitter "X" has generated a reading and is
    switched off on its own page: the state it publishes gives the observer
    an entry for X, disabled, which the dashboard lists; X, disabled, sends
    no reading, so it is not in [connected_devices]. The operator then
    issues "enable" for "all": the command is published and X obeys it, but
    the loop of the observer runs over [connected_devices] and leaves the
    entry of X disabled. The reading X then sends lists X and, since X has
    an entry, does not touch it: the observer goes on showing the enabled
    emitter as disabled. *)
Theorem C3_all_skips_a_device_the_store_knows :
  let x0 := Sensor.Sample (Q2Qc 21) (Q2Qc 55) "2025-01-01T00:00:01" in
  let x1 := Sensor.Sample (Q2Qc 22) (Q2Qc 56) "2025-01-01T00:00:12" in
  let e1 :=
    Sensor.run [Sensor.Ticked x0 3; Sensor.Connected 0]
      (Sensor.init "X" "2025-01-01T00:00:00") in
  let toggle := Sensor.handle_toggle_sensor e1 in
  let e2 := final_state toggle in
  let o0 :=
    final_state (Display.on_connect 0 (Display.init "display_001")) in
  let o1 :=
    Display.run
      ((λ p, Display.Delivered "2025-01-01T00:00:05" (on_bus p)) <$>
         Sensor.published (outputs toggle)) o0 in
  let all :=
    Display.handle_control_device "2025-01-01T00:00:09" (request true "all")
      o1 in
  let o2 := final_state all in
  let e3 :=
    Sensor.run
      ((λ p, Sensor.Received (on_bus p)) <$> Display.published (outputs all))
      e2 in
  let tick := Sensor.tick x1 3 e3 in
  let o3 :=
    Display.run
      ((λ p, Display.Delivered "2025-01-01T00:00:13" (on_bus p)) <$>
         Sensor.published (outputs tick)) o2 in
  Sensor.sensor_enabled e2 = false ∧
  Display.known_ids o1 = [JStr "X"] ∧
  Display.connected_devices o1 = [] ∧
  Display.enabled_of (JStr "X") o1 = Some (PJ (JBool false)) ∧
  Display.published (outputs all) =
    [(Display.control_topic,
      Display.control_data (JStr "enable") (JStr "all") "2025-01-01T00:00:09"
        "display_001")] ∧
  Sensor.sensor_enabled e3 = true ∧
  Display.enabled_of (JStr "X") o2 = Some (PJ (JBool false)) ∧
  Sensor.published (outputs tick) =
    [(Sensor.topic_combined, Sensor.reading "X" true x1)] ∧
  Display.connected_devices o3 = [JStr "X"] ∧
  Display.enabled_of (JStr "X") o3 = Some (PJ (JBool false)).
Proof. vm_compute. split_and!; reflexivity. Qed.

(** The [combined] entry holds the document handed to
    [handle_combined_data], whether the handler returns or raises on a
    document that is not a reading. *)
Lemma combined_handle_combined_data (data : json) (s : Display.display) :
  wp (Display.handle_combined_data data)
     (λ _ s', Display.combined (Display.sensor_data s') = PJ data)
     (λ _ s', Display.combined (Display.sensor_data s') = PJ data) s.
Proof. unfold Display.handle_combined_data. wp_run; done. Qed.

Lemma combined_on_message (now : string) (data : json) (s : Display.display) :
  Display.valid s →
  Display.combined
    (Display.sensor_data
       (final_state
          (Display.on_message now
             (Message "sensors/temp_humidity" (Document data)) s))) =
  PJ data.
Proof.
  intros Hs.
  apply (on_message_document now "sensors/temp_humidity" data s
           (λ z, Display.combined (Display.sensor_data z) = PJ data)).
  change (Display.dispatch "sensors/temp_humidity")
    with Display.handle_combined_data.
  eapply wp_mono.
  - apply wp_and.
    + apply valid_handle_combined_data, valid_counted, Hs.
    + apply combined_handle_combined_data.
  - by intros ? s' [Hv Hc].
  - by intros ? s' [_ Hc].
Qed.

(** C6, as the code has it: the store keeps one reading, the last one
    delivered, whichever device sent it. After any sequence of readings the
    [combined] entry is the last reading as it was delivered, the
    [temperature] and [humidity] entries hold its two values, and a snapshot
    then produced shows the same; a document delivered on the topic of the
    readings replaces the [combined] entry whole, whatever it holds. *)
Theorem C6_store_holds_the_last_reading_delivered (ds : list delivery)
  (d : delivery) (now : string) (data : json) (s : Display.display) :
  Display.valid s →
  let s' := Display.run (deliver <$> (ds ++ [d])%list) s in
  Display.v_combined (Display.store_view s') = PJ (dl_reading d) ∧
  dict_lookup (JStr "value") (Display.v_temperature (Display.store_view s'))
    = Some (PJ (JNum (Sensor.temperature (dl_sample d)))) ∧
  dict_lookup (JStr "value") (Display.v_humidity (Display.store_view s'))
    = Some (PJ (JNum (Sensor.humidity (dl_sample d)))) ∧
  wp Display.serialized_view
     (λ v _,
        Display.v_combined v = PJ (dl_reading d) ∧
        dict_lookup (JStr "value") (Display.v_temperature v)
          = Some (PJ (JNum (Sensor.temperature (dl_sample d)))) ∧
        dict_lookup (JStr "value") (Display.v_humidity v)
          = Some (PJ (JNum (Sensor.humidity (dl_sample d)))))
     (λ _ _, True) s' ∧
  Display.v_combined
    (Display.store_view
       (final_state
          (Display.on_message now
             (Message "sensors/temp_humidity" (Document data)) s))) =
  PJ data.
Proof.
  intros Hs. cbv zeta.
  rewrite fmap_app, run_app. cbn [fmap list_fmap Display.run fold_left].
  pose proof (valid_run (deliver <$> ds) s Hs) as Hs0.
  set (s0 := Display.run (deliver <$> ds) s) in *.
  cbn [Display.handle deliver].
  pose proof (valid_on_message (dl_now d)
                (reading_message (dl_id d) (dl_connected d) (dl_sample d))
                s0 Hs0) as Hs1.
  assert (let s' :=
            final_state
              (Display.on_message (dl_now d)
                 (reading_message (dl_id d) (dl_connected d) (dl_sample d))
                 s0) in
          Display.v_combined (Display.store_view s') = PJ (dl_reading d) ∧
          dict_lookup (JStr "value")
            (Display.v_temperature (Display.store_view s'))
            = Some (PJ (JNum (Sensor.temperature (dl_sample d)))) ∧
          dict_lookup (JStr "value")
            (Display.v_humidity (Display.store_view s'))
            = Some (PJ (JNum (Sensor.humidity (dl_sample d)))))
    as (H1 & H2 & H3).
  { cbv zeta. rewrite on_message_reading by done.
    pose proof (after_combined_store
                  (Sensor.reading (dl_id d) (dl_connected d) (dl_sample d))
                  (JNum (Sensor.temperature (dl_sample d)))
                  (JNum (Sensor.humidity (dl_sample d)))
                  (JStr (dl_id d)) (Display.counted s0)
                  (proj1 (valid_counted s0 Hs0)))
      as (A1 & A2 & A3 & _).
    cbv zeta in A1, A2, A3. split_and!; [exact A1 | exact A2 | exact A3]. }
  split_and!; try done.
  - eapply wp_mono;
      [apply serialized_view_shares, valid_json_heap, Hs1| |done].
    intros v s' (_ & E1 & E2 & _ & E4). by rewrite E1, E2, E4.
  - by apply combined_on_message.
Qed.

(** The hypothesis of C6 holds for the observer as it starts: after the
    readings of A and then of B, the store holds the reading of B. *)
Lemma C6_witness :
  Display.v_combined
    (Display.store_view
       (Display.run
          (deliver <$>
             ([Delivery "2025-01-01T00:00:03" "A" true
                 (Sensor.Sample (Q2Qc 21) (Q2Qc 55) "2025-01-01T00:00:03")] ++
              [Delivery "2025-01-01T00:00:06" "B" true
                 (Sensor.Sample (Q2Qc 30) (Q2Qc 45) "2025-01-01T00:00:06")])%list)
          (Display.init "display_001"))) =
  PJ (Sensor.reading "B" true
        (Sensor.Sample (Q2Qc 30) (Q2Qc 45) "2025-01-01T00:00:06")).
Proof.
  exact (proj1
    (C6_store_holds_the_last_reading_delivered
       [Delivery "2025-01-01T00:00:03" "A" true
          (Sensor.Sample (Q2Qc 21) (Q2Qc 55) "2025-01-01T00:00:03")]
       (Delivery "2025-01-01T00:00:06" "B" true
          (Sensor.Sample (Q2Qc 30) (Q2Qc 45) "2025-01-01T00:00:06"))
       "2025-01-01T00:00:07" JNull
       (Display.init "display_001") (valid_init _))).
Defined.

(** C6, as stated, fails: A reports 21 degrees, then B reports 30 degrees.
    The most recent reading of A is the first one; the snapshot then
    produced holds the reading of B in every entry, and nothing of A's. *)
Lemma C6_counterexample :
  let dA :=
    Delivery "2025-01-01T00:00:03" "A" true
      (Sensor.Sample (Q2Qc 21) (Q2Qc 55) "2025-01-01T00:00:03") in
  let dB :=
    Delivery "2025-01-01T00:00:06" "B" true
      (Sensor.Sample (Q2Qc 30) (Q2Qc 45) "2025-01-01T00:00:06") in
  last_reading_of "A" [dA; dB] = Some (dl_reading dA) ∧
  py_eq (dl_reading dA) (dl_reading dB) = false ∧
  wp Display.serialized_view
     (λ v _,
        Display.v_combined v = PJ (dl_reading dB) ∧
        dict_lookup (JStr "value") (Display.v_temperature v)
          = Some (PJ (JNum (Q2Qc 30))) ∧
        dict_lookup (JStr "value") (Display.v_humidity v)
          = Some (PJ (JNum (Q2Qc 45))))
     (λ _ _, False)
     (Display.run (deliver <$> [dA; dB]) (Display.init "display_001")).
Proof. vm_compute. split_and!; reflexivity. Qed.

(** * Further properties of the emitter *)

Lemma assoc_assoc_set {A} (k : string) (v : A) (d : list (string * A)) :
  assoc k (assoc_set k v d) = Some v.
Proof.
  induction d as [|[k' v'] d IH]; cbn [assoc_set assoc].
  - by rewrite String.eqb_refl.
  - destruct (String.eqb k k') eqn:E; cbn [assoc]; by rewrite E.
Qed.

(** The outcome of [on_message] of the emitter, for every message. *)
Lemma sensor_on_message_outcome (msg : message) (s : Sensor.sensor) :
  ∃ b out,
    Sensor.on_message msg s = Returns tt (Sensor.with_sensor_enabled b s) out ∧
    Sensor.published out = [] ∧
    (b ≠ Sensor.sensor_enabled s →
     topic msg = Sensor.topic_control ∧
     ∃ d, body msg = Document (JObj d) ∧
          (assoc "command" d = Some (JStr "enable") ∧ b = true
           ∨ assoc "command" d = Some (JStr "disable") ∧ b = false)).
Proof.
  destruct s as [cid c r e cd], msg as [t p].
  unfold Sensor.on_message, Sensor.on_message_body, try_except.
  cbn [topic body].
  destruct (String.eqb t Sensor.topic_control) eqn:Et.
  2:{ exists e. eexists. by split_and!. }
  apply String.eqb_eq in Et as ->.
  destruct p as [| |j]; try (exists e; eexists; by split_and!).
  destruct j as [| | | | |d]; try (exists e; eexists; by split_and!).
  cbn. destruct (assoc "command" d) as [cmd|] eqn:Ec; cbn.
  2:{ exists e. eexists. by split_and!. }
  destruct (py_eq cmd (JStr "enable")) eqn:E1.
  { exists true. eexists. split_and!; try done.
    intros _. split; [done|]. exists d. split; [done|]. left.
    destruct cmd; try done. cbn in E1. by apply String.eqb_eq in E1 as ->. }
  destruct (py_eq cmd (JStr "disable")) eqn:E2.
  { exists false. eexists. split_and!; try done.
    intros _. split; [done|]. exists d. split; [done|]. right.
    destruct cmd; try done. cbn in E2. by apply String.eqb_eq in E2 as ->. }
  exists e. eexists. by split_and!.
Qed.

(** X1: whatever the message, [on_message] of the emitter returns, publishes
    nothing and leaves the identity, the connection flag, the running flag
    and the current data as they are; the Enabled flag changes only for a JSON
    object received on the control topic whose "command" is "enable" or
    "disable", and then takes that value. *)
Theorem X1_emitter_on_message_changes_only_the_flag (msg : message)
  (s : Sensor.sensor) :
  returned (Sensor.on_message msg s) = true ∧
  Sensor.published (outputs (Sensor.on_message msg s)) = [] ∧
  (∃ b, final_state (Sensor.on_message msg s) =
        Sensor.with_sensor_enabled b s) ∧
  (Sensor.sensor_enabled (final_state (Sensor.on_message msg s)) ≠
   Sensor.sensor_enabled s →
   topic msg = Sensor.topic_control ∧
   ∃ d, body msg = Document (JObj d) ∧
        (assoc "command" d = Some (JStr "enable") ∧
         Sensor.sensor_enabled (final_state (Sensor.on_message msg s)) = true
         ∨ assoc "command" d = Some (JStr "disable") ∧
           Sensor.sensor_enabled (final_state (Sensor.on_message msg s))
           = false)).
Proof.
  destruct (sensor_on_message_outcome msg s) as (b & out & -> & Hp & Hb).
  cbn [returned outputs final_state Sensor.sensor_enabled
         Sensor.with_sensor_enabled].
  split_and!; [done | done | by exists b | exact Hb].
Qed.

(** X2: toggling the sensor from the web page twice restores the state, and
    each toggle publishes on sensors/control/sub the state with the flag it
    has just set. *)
Theorem X2_toggle_twice_restores (s : Sensor.sensor) :
  final_state
    (Sensor.handle_toggle_sensor
       (final_state (Sensor.handle_toggle_sensor s))) = s ∧
  Sensor.published (outputs (Sensor.handle_toggle_sensor s)) =
    [("sensors/control/sub",
      Sensor.status
        (Sensor.with_sensor_enabled (negb (Sensor.sensor_enabled s)) s))] ∧
  Sensor.published
    (outputs
       (Sensor.handle_toggle_sensor
          (final_state (Sensor.handle_toggle_sensor s)))) =
    [("sensors/control/sub", Sensor.status s)].
Proof. destruct s as [cid c r e cd]. by destruct e. Qed.

(** Every callback returns in a state whose data tell the connection state,
    when it starts in one. *)
Lemma status_consistent_handle (ev : Sensor.event) (s : Sensor.sensor) :
  Sensor.status_consistent s →
  returned (Sensor.handle ev s) = true ∧
  Sensor.status_consistent (final_state (Sensor.handle ev s)).
Proof.
  unfold Sensor.status_consistent. intros Hs.
  destruct ev as [rc|rc|msg| | |x interval]; cbn [Sensor.handle].
  - destruct s as [cid c r e cd]. cbn in Hs.
    destruct cd as [| | | | |d]; try done.
    unfold Sensor.on_connect. destruct (rc =? 0)%Z; [|done].
    cbn. by rewrite assoc_assoc_set.
  - destruct s as [cid c r e cd]. cbn in Hs.
    destruct cd as [| | | | |d]; try done.
    cbn. by rewrite assoc_assoc_set.
  - destruct (sensor_on_message_outcome msg s) as (b & out & -> & _).
    by destruct s.
  - by destruct s.
  - by destruct s.
  - rewrite sensor_tick. cbv zeta.
    destruct s as [cid c r e cd]. cbn in *. by destruct e, c.
Qed.

(** X3: the "status" entry of the emitter's current data follows the
    connection state: it is "online" when the broker is connected and
    "offline" when it is not, after any sequence of connections,
    disconnections, messages, web requests and sampling ticks, none of which
    raises. *)
Theorem X3_status_follows_the_connection (evs : list Sensor.event)
  (s : Sensor.sensor) :
  Sensor.status_consistent s →
  Sensor.status_consistent (Sensor.run evs s) ∧
  ∀ ev, returned (Sensor.handle ev (Sensor.run evs s)) = true.
Proof.
  revert s. induction evs as [|ev evs IH]; intros s Hs.
  - split; [done|]. intros ev. by apply status_consistent_handle.
  - cbn. apply IH. by apply status_consistent_handle.
Qed.

(** The hypothesis of X3 holds for the emitter as it starts. *)
Lemma X3_witness :
  Sensor.status_consistent
    (Sensor.run
       [Sensor.Connected 0;
        Sensor.Ticked (Sensor.Sample (Q2Qc 21) (Q2Qc 55) "2025-01-01T00:00:03") 3;
        Sensor.Disconnected 1]
       (Sensor.init "sensor_001" "2025-01-01T00:00:00")).
Proof.
  exact (proj1
    (X3_status_follows_the_connection
       [Sensor.Connected 0;
        Sensor.Ticked (Sensor.Sample (Q2Qc 21) (Q2Qc 55) "2025-01-01T00:00:03") 3;
        Sensor.Disconnected 1]
       (Sensor.init "sensor_001" "2025-01-01T00:00:00") eq_refl)).
Defined.

(** The outcome of [publish_data], for every value handed to it. *)
Lemma sensor_publish_data (data : json) (s : Sensor.sensor) :
  ∃ out,
    Sensor.publish_data data s =
      Returns (Sensor.is_connected s && Sensor.complete data) s out ∧
    Sensor.published out =
      (if Sensor.is_connected s && Sensor.complete data
       then [(Sensor.topic_combined, data)] else []) ∧
    (Sensor.is_connected s = true → truthy data = true →
     Sensor.complete data = false →
     ∃ e, out = [Sensor.Printed (Sensor.LogPublishError e)]) ∧
    (Sensor.is_connected s && truthy data = false → out = []).
Proof.
  unfold Sensor.publish_data, bind at 1. cbn [get_state].
  destruct (Sensor.is_connected s) eqn:Hc; cbn [negb orb andb].
  2:{ eexists. by split_and!. }
  destruct (truthy data) eqn:Ht; cbn [negb].
  2:{ assert (Sensor.complete data = false) as ->.
      { by destruct data as [| | | |[]|[]]. }
      eexists. by split_and!. }
  destruct data as [| | | | |d]; try (eexists; split_and!; by eauto).
  unfold Sensor.complete, Sensor.has_key, Sensor.publish_data_body,
    try_except, py_getitem. cbn [forallb].
  destruct (assoc "temperature" d) eqn:E1; cbn;
    [|eexists; split_and!; by eauto].
  destruct (assoc "unit_temp" d) eqn:E2; cbn;
    [|eexists; split_and!; by eauto].
  destruct (assoc "timestamp" d) eqn:E3; cbn;
    [|eexists; split_and!; by eauto].
  destruct (assoc "sensor_id" d) eqn:E4; cbn;
    [|eexists; split_and!; by eauto].
  destruct (assoc "humidity" d) eqn:E5; cbn;
    [|eexists; split_and!; by eauto].
  destruct (assoc "unit_humidity" d) eqn:E6; cbn;
    [|eexists; split_and!; by eauto].
  eexists. split_and!; by eauto.
Qed.

(** X4: [publish_data] never raises and never changes the emitter; it
    returns true, and publishes the data on sensors/temp_humidity, exactly
    when the broker is connected and the data are a dictionary with the six
    keys read; connected, with data that lack a key or are no dictionary, it
    prints the error and publishes nothing; disconnected, or with empty
    data, it does nothing at all. *)
Theorem X4_publish_data_needs_connection_and_keys (data : json)
  (s : Sensor.sensor) :
  Sensor.publish_data data s =
    Returns (Sensor.is_connected s && Sensor.complete data) s
      (outputs (Sensor.publish_data data s)) ∧
  Sensor.published (outputs (Sensor.publish_data data s)) =
    (if Sensor.is_connected s && Sensor.complete data
     then [(Sensor.topic_combined, data)] else []) ∧
  (Sensor.is_connected s = true → truthy data = true →
   Sensor.complete data = false →
   ∃ e, outputs (Sensor.publish_data data s) =
        [Sensor.Printed (Sensor.LogPublishError e)]) ∧
  (Sensor.is_connected s && truthy data = false →
   outputs (Sensor.publish_data data s) = []).
Proof.
  destruct (sensor_publish_data data s) as (out & -> & H1 & H2 & H3).
  by split_and!.
Qed.

(** X5: a tick taken after the connection is lost publishes nothing; after
    the broker accepts a new connection the next tick publishes the reading,
    marked "online", if the sensor is enabled; a refused connection (a
    non-zero code) changes nothing. *)
Theorem X5_ticks_across_a_reconnection (rc rc' : Z) (x : Sensor.sample)
  (interval : Z) (s : Sensor.sensor) :
  let down := final_state (Sensor.on_disconnect rc s) in
  let up := final_state (Sensor.on_connect 0 down) in
  Sensor.published (outputs (Sensor.tick x interval down)) = [] ∧
  Sensor.published (outputs (Sensor.tick x interval up)) =
    (if Sensor.sensor_enabled s
     then [(Sensor.topic_combined, Sensor.reading (Sensor.client_id s) true x)]
     else []) ∧
  (rc' ≠ 0%Z →
   Sensor.on_connect rc' down =
     Returns tt down [Sensor.Printed (Sensor.LogConnectFailed rc')]).
Proof.
  cbv zeta. rewrite !sensor_tick. cbv zeta.
  destruct s as [cid c r e cd]. split_and!.
  - destruct cd; cbn; by destruct e.
  - destruct cd; cbn; by destruct e.
  - intros Hrc. unfold Sensor.on_connect.
    by apply Z.eqb_neq in Hrc as ->.
Qed.

(** * Further properties of the observer *)

(** ** Outputs *)

Section OutputFacts.
Context {S E : Type}.
Implicit Types (P : E → Prop).

Lemma outputs_bind {A B} (c : @exec S E A) (k : A → @exec S E B) s :
  outputs (bind c k s) =
    match c s with
    | Returns a s1 o1 => (o1 ++ outputs (k a s1))%list
    | Raises _ _ o1 => o1
    end.
Proof.
  unfold bind. destruct (c s) as [a s1 o1|e s1 o1]; [|done].
  by destruct (k a s1).
Qed.

Lemma only_ret {A} P (a : A) : only_outputs P (@ret S E A a).
Proof. intros s. constructor. Qed.

Lemma only_raise {A} P (e : exn) : only_outputs P (@raise S E A e).
Proof. intros s. constructor. Qed.

Lemma only_get_state P : only_outputs P (@get_state S E).
Proof. intros s. constructor. Qed.

Lemma only_set_state P (s' : S) : only_outputs P (@set_state S E s').
Proof. intros s. constructor. Qed.

Lemma only_output P (e : E) : P e → only_outputs P (@output S E e).
Proof. intros He s. by repeat constructor. Qed.

Lemma only_lift {A} P (r : exn + A) : only_outputs P (@lift S E A r).
Proof. destruct r; intros s; constructor. Qed.

Lemma only_decode_and_load P (p : payload) :
  only_outputs P (@decode_and_load S E p).
Proof. destruct p; intros s; constructor. Qed.

Lemma only_bind {A B} P (c : @exec S E A) (k : A → @exec S E B) :
  only_outputs P c → (∀ a, only_outputs P (k a)) → only_outputs P (bind c k).
Proof.
  intros Hc Hk s. rewrite outputs_bind. specialize (Hc s).
  destruct (c s) as [a s1 o1|e s1 o1]; cbn in Hc; [|done].
  apply Forall_app. split; [done | apply Hk].
Qed.

Lemma only_try_except {A} P (c : @exec S E A) (h : exn → @exec S E A) :
  only_outputs P c → (∀ e, only_outputs P (h e)) →
  only_outputs P (try_except c h).
Proof.
  intros Hc Hh s. unfold try_except. specialize (Hc s).
  destruct (c s) as [a s1 o1|e s1 o1]; cbn in Hc; [done|].
  specialize (Hh e s1).
  destruct (h e s1); cbn in *; apply Forall_app; by split.
Qed.

(** The rules of [wpo]. *)
Lemma wpo_ret {A} (a : A) (Q : A → S → list E → Prop) R s :
  wpo (@ret S E A a) Q R s = Q a s [].
Proof. done. Qed.

Lemma wpo_raise {A} (e : exn) (Q : A → S → list E → Prop) R s :
  wpo (@raise S E A e) Q R s = R e s [].
Proof. done. Qed.

Lemma wpo_bind {A B} (c : @exec S E A) (k : A → @exec S E B)
  (Q : B → S → list E → Prop) R s :
  wpo (bind c k) Q R s =
    wpo c (λ a s' o,
             wpo (k a) (λ b s'' o', Q b s'' (o ++ o')%list)
                       (λ e s'' o', R e s'' (o ++ o')%list) s')
          R s.
Proof.
  unfold wpo, bind. destruct (c s) as [a s1 o1|e s1 o1]; [|done].
  by destruct (k a s1).
Qed.

Lemma wpo_try_except {A} (c : @exec S E A) (h : exn → @exec S E A)
  (Q : A → S → list E → Prop) R s :
  wpo (try_except c h) Q R s =
    wpo c Q
        (λ e s' o,
           wpo (h e) (λ a s'' o', Q a s'' (o ++ o')%list)
                     (λ e' s'' o', R e' s'' (o ++ o')%list) s')
        s.
Proof.
  unfold wpo, try_except. destruct (c s) as [a s1 o1|e s1 o1]; [done|].
  by destruct (h e s1).
Qed.

Lemma wpo_get_state (Q : S → S → list E → Prop) R s :
  wpo (@get_state S E) Q R s = Q s s [].
Proof. done. Qed.

Lemma wpo_set_state (s' : S) (Q : unit → S → list E → Prop) R s :
  wpo (@set_state S E s') Q R s = Q tt s' [].
Proof. done. Qed.

Lemma wpo_output (e : E) (Q : unit → S → list E → Prop) R s :
  wpo (output e) Q R s = Q tt s [e].
Proof. done. Qed.

Lemma wpo_lift {A} (r : exn + A) (Q : A → S → list E → Prop) R s :
  wpo (@lift S E A r) Q R s =
    match r with
    | inl e => R e s []
    | inr a => Q a s []
    end.
Proof. by destruct r. Qed.

Lemma wpo_decode_and_load (p : payload) (Q : json → S → list E → Prop) R s :
  wpo (@decode_and_load S E p) Q R s =
    match p with
    | Undecodable => R UnicodeDecodeError s []
    | Malformed => R JSONDecodeError s []
    | Document j => Q j s []
    end.
Proof. by destruct p. Qed.

(** A property of the outcome, read through [wpo]. *)
Lemma wpo_outcome {A} (c : @exec S E A) (P : outcome A → Prop) s :
  P (c s) =
    wpo c (λ a s' o, P (Returns a s' o)) (λ e s' o, P (Raises e s' o)) s.
Proof. unfold wpo. by destruct (c s). Qed.

Lemma wpo_mono {A} (c : @exec S E A) (Q Q' : A → S → list E → Prop)
  (R R' : exn → S → list E → Prop) s :
  wpo c Q R s →
  (∀ a s' o, Q a s' o → Q' a s' o) → (∀ e s' o, R e s' o → R' e s' o) →
  wpo c Q' R' s.
Proof. unfold wpo. destruct (c s); auto. Qed.

(** What is known of the state and what is known of the outputs. *)
Lemma wpo_wp_only {A} (c : @exec S E A) (Q : A → S → Prop)
  (R : exn → S → Prop) P s :
  wp c Q R s → only_outputs P c →
  wpo c (λ a s' o, Q a s' ∧ Forall P o) (λ e s' o, R e s' ∧ Forall P o) s.
Proof.
  unfold wp, wpo. intros H1 H2. specialize (H2 s).
  by destruct (c s).
Qed.

Lemma wp_wpo {A} (c : @exec S E A) (Q : A → S → Prop) (R : exn → S → Prop) s :
  wp c Q R s = wpo c (λ a s' _, Q a s') (λ e s' _, R e s') s.
Proof. unfold wp, wpo. by destruct (c s). Qed.

End OutputFacts.

Global Arguments wpo : simpl never.

Hint Rewrite @wpo_bind @wpo_ret @wpo_raise @wpo_try_except @wpo_get_state
  @wpo_set_state @wpo_output @wpo_lift @wpo_decode_and_load : wpo.

(** One step of a proof that a computation has only outputs of a kind. *)
Ltac only_step :=
  first
    [ apply only_ret
    | apply only_raise
    | apply only_get_state
    | apply only_set_state
    | apply only_lift
    | apply only_decode_and_load
    | apply only_output; done
    | apply only_bind; [|intros ?]
    | apply only_try_except; [|intros ?]
    | match goal with
      | |- only_outputs _ (if ?b then _ else _) => destruct b
      | |- only_outputs _ (match ?x with _ => _ end) => destruct x
      end ].

Ltac only_solve := repeat only_step.

(** ** What the observer publishes *)

Lemma only_serialize (P : Display.effect → Prop) :
  only_outputs P Display._serialize_sensor_data.
Proof.
  unfold Display._serialize_sensor_data, Display.obj_getitem,
    Display.obj_setitem, Display.isoformat, Display.modify.
  only_solve.
Qed.

Lemma only_serialized_view (P : Display.effect → Prop) :
  only_outputs P Display.serialized_view.
Proof.
  unfold Display.serialized_view.
  apply only_bind; [apply only_serialize|]. intros ?. only_solve.
Qed.

Lemma only_set_each (P : Display.effect → Prop) (devices : list json)
  (v : bool) :
  only_outputs P (Display.set_each devices v).
Proof.
  induction devices as [|d devices IH]; cbn [Display.set_each].
  - apply only_ret.
  - unfold Display.obj_setitem, Display.modify.
    apply only_bind; [only_solve|]. intros s.
    apply only_bind; [only_solve|]. intros _. apply IH.
Qed.

Lemma only_dispatch (P : Display.effect → Prop) (t : string) (data : json) :
  (∀ e, Display.is_publish e = false → Display.is_data_update e = false → P e) →
  only_outputs P (Display.dispatch t data).
Proof.
  intros HP.
  unfold Display.dispatch, Display.handle_temperature_data,
    Display.handle_humidity_data, Display.handle_combined_data,
    Display.handle_control_data, Display.alloc, Display.obj_setitem,
    Display.obj_contains, Display.modify.
  repeat first [ only_step | apply only_output; by apply HP ].
Qed.

Lemma published_nil (out : list Display.effect) :
  Forall (λ e, Display.is_publish e = false) out →
  Display.published out = [].
Proof.
  induction 1 as [|e out He _ IH]; [done|].
  cbn. rewrite <- IH. by destruct e.
Qed.

Lemma published_app (o1 o2 : list Display.effect) :
  Display.published (o1 ++ o2) =
  (Display.published o1 ++ Display.published o2)%list.
Proof. apply omap_app. Qed.

Lemma only_on_message (now : string) (msg : message) :
  only_outputs (λ e, Display.is_publish e = false)
    (Display.on_message now msg).
Proof.
  unfold Display.on_message, Display.on_message_body,
    Display.get_statistics, Display.modify.
  apply only_try_except.
  - apply only_bind; [only_solve|]. intros data.
    apply only_bind; [only_solve|]. intros _.
    apply only_bind; [by apply only_dispatch|]. intros _.
    apply only_bind; [only_solve|]. intros _.
    apply only_bind; [apply only_serialized_view|]. intros v.
    only_solve.
  - intros e. destruct e; only_solve.
Qed.

Lemma only_subscribe_all (P : Display.effect → Prop) (ts : list string) :
  (∀ e, Display.is_publish e = false → P e) →
  only_outputs P (Display.subscribe_all ts).
Proof.
  intros HP. induction ts as [|t ts IH]; cbn [Display.subscribe_all].
  - apply only_ret.
  - repeat (apply only_bind; [apply only_output; by apply HP|]; intros _).
    apply IH.
Qed.

(** X6: the observer publishes on the bus only when the operator issues a
    command: no message delivered by the broker, no connection or
    disconnection of the broker or of a web client and no status request makes
    it publish. *)
Theorem X6_observer_publishes_only_commands (now : string) (msg : message)
  (rc : Z) (s : Display.display) :
  Display.published (outputs (Display.on_message now msg s)) = [] ∧
  Display.published (outputs (Display.on_connect rc s)) = [] ∧
  Display.published (outputs (Display.on_disconnect rc s)) = [] ∧
  Display.published (outputs (Display.handle_connect s)) = [] ∧
  Display.published (outputs (Display.handle_disconnect s)) = [] ∧
  Display.published (outputs (Display.handle_get_status s)) = [].
Proof.
  split_and!; apply published_nil;
    match goal with
    | |- Forall _ (outputs (?c s)) =>
        revert s; change (only_outputs (λ e, Display.is_publish e = false) c)
    end.
  - apply only_on_message.
  - unfold Display.on_connect, Display.modify.
    destruct (rc =? 0)%Z; [|only_solve].
    apply only_bind; [only_solve|]. intros _.
    apply only_bind; [only_solve|]. intros _.
    apply only_bind; [by apply only_subscribe_all|]. intros _.
    only_solve.
  - unfold Display.on_disconnect, Display.modify. only_solve.
  - unfold Display.handle_connect, Display.get_statistics.
    apply only_bind; [only_solve|]. intros _.
    apply only_bind; [apply only_serialized_view|]. intros v.
    only_solve.
  - unfold Display.handle_disconnect. only_solve.
  - unfold Display.handle_get_status, Display.get_statistics.
    apply only_bind; [apply only_serialized_view|]. intros v.
    only_solve.
Qed.

(** ** Requests of the operator *)

Lemma send_control_command_outcome (now : string) (command device_id : json)
  (s : Display.display) :
  Display.send_control_command now command device_id s =
    Returns (Display.is_connected s) s
      (if Display.is_connected s then
         [Display.Publish Display.control_topic
            (Display.control_data command device_id now (Display.client_id s));
          Display.Printed (Display.LogCommandSent command device_id)]
       else [Display.Printed Display.LogNotConnected]).
Proof.
  unfold Display.send_control_command, bind at 1. cbn [get_state].
  by destruct (Display.is_connected s).
Qed.

(** The part of [handle_control_device] that follows the publication. *)
Lemma only_after_publication (P : Display.effect → Prop)
  (command device_id : json) :
  (∀ e, Display.is_publish e = false → P e) →
  only_outputs P
    (s <- get_state ;;
     (if negb (py_eq device_id (JStr "all")) then
        Display.obj_setitem (Display.sensor_states (Display.sensor_data s))
          device_id (PJ (JBool (py_eq command (JStr "enable"))))
      else if py_eq command (JStr "enable") then
        Display.set_each (Display.connected_devices s) true
      else if py_eq command (JStr "disable") then
        Display.set_each (Display.connected_devices s) false
      else ret tt) ;;;
     output (Display.Printed (Display.LogCommandIssued command device_id)) ;;;
     serialized_data <- Display.serialized_view ;;
     st <- Display.get_statistics ;;
     output (Display.Emit "data_update"
               (Display.DataUpdate Display.control_topic
                  (JObj [("command", command); ("device_id", device_id)])
                  serialized_data st))).
Proof.
  intros HP. unfold Display.obj_setitem, Display.modify,
    Display.get_statistics.
  repeat first
    [ apply only_set_each
    | apply only_serialized_view
    | apply only_output; by apply HP
    | only_step ].
Qed.

Lemma handle_control_device_published (now : string)
  (data command device_id : json) (s : Display.display) :
  py_get data "command" (JStr "") = inr command →
  py_get data "device_id" (JStr "all") = inr device_id →
  list_mem command [JStr "enable"; JStr "disable"] = true →
  Display.published (outputs (Display.handle_control_device now data s)) =
    if Display.is_connected s
    then [(Display.control_topic,
           Display.control_data command device_id now (Display.client_id s))]
    else [].
Proof.
  intros Hc Hd Hmem. unfold Display.handle_control_device.
  rewrite Hc, Hd. cbn [lift].
  rewrite outputs_bind. cbn [ret app]. rewrite outputs_bind. cbn [ret app].
  rewrite Hmem, outputs_bind, send_control_command_outcome.
  rewrite published_app.
  rewrite (published_nil (outputs _)).
  - by destruct (Display.is_connected s).
  - by apply only_after_publication.
Qed.

(** The edit of one device, for any request that names it. *)
Lemma handle_control_device_edit (now : string)
  (data command device_id : json) (s : Display.display) :
  Display.valid s →
  py_get data "command" (JStr "") = inr command →
  py_get data "device_id" (JStr "all") = inr device_id →
  list_mem command [JStr "enable"; JStr "disable"] = true →
  py_eq device_id (JStr "all") = false →
  final_state (Display.handle_control_device now data s) =
    if hashable device_id then
      Display.with_state_of device_id
        (PJ (JBool (py_eq command (JStr "enable")))) s
    else s.
Proof.
  intros Hs Hc Hd Hmem Hall. final_state_eq.
  unfold Display.handle_control_device. rewrite Hc, Hd. cbn [lift].
  rewrite !wp_bind, !wp_ret. cbn beta. rewrite !wp_bind, !wp_ret. cbn beta.
  rewrite Hmem, wp_bind, wp_send_control_command, wp_bind, wp_get_state,
    wp_bind, Hall. cbn [negb].
  rewrite wp_obj_setitem. destruct (hashable device_id) eqn:Hk; [|done].
  rewrite wp_bind, wp_output, wp_bind.
  apply wp_unchanged;
    [ apply serialized_view_unchanged, valid_json_heap; valid_solve
    | intros v; by autorewrite with wp
    | done ].
Qed.

(** X7: a [control_device] request whose command is "enable" or "disable"
    is published on sensors/control, as the envelope (command, device_id,
    timestamp, sender), exactly when the observer is connected to the broker;
    the entry of the device named is set to the command's value whether or
    not the command was published. A device_id that cannot be a key (a list
    or an object) leaves the store as it is. *)
Theorem X7_command_is_published_iff_connected (now : string)
  (data command device_id : json) (s : Display.display) :
  Display.valid s →
  py_get data "command" (JStr "") = inr command →
  py_get data "device_id" (JStr "all") = inr device_id →
  list_mem command [JStr "enable"; JStr "disable"] = true →
  py_eq device_id (JStr "all") = false →
  let r := Display.handle_control_device now data s in
  Display.published (outputs r) =
    (if Display.is_connected s
     then [(Display.control_topic,
            Display.control_data command device_id now (Display.client_id s))]
     else []) ∧
  final_state r =
    (if hashable device_id then
       Display.with_state_of device_id
         (PJ (JBool (py_eq command (JStr "enable")))) s
     else s) ∧
  (hashable device_id = true →
   Display.enabled_of device_id (final_state r) =
     Some (PJ (JBool (py_eq command (JStr "enable"))))).
Proof.
  intros Hs Hc Hd Hmem Hall. cbv zeta.
  rewrite (handle_control_device_published now data command device_id)
    by done.
  rewrite (handle_control_device_edit now data command device_id) by done.
  split_and!; try done. intros Hk. rewrite Hk.
  unfold Display.enabled_of. rewrite states_of_with_state_of.
  by apply dict_lookup_set_eq.
Qed.

(** The hypotheses of X7 hold for the request the dashboard sends for one
    device, here while the observer is not connected. *)
Lemma X7_witness :
  let s := Display.init "display_001" in
  let r :=
    Display.handle_control_device "2025-01-01T00:00:05"
      (request false "sensor_001") s in
  Display.published (outputs r) = [] ∧
  Display.enabled_of (JStr "sensor_001") (final_state r) =
    Some (PJ (JBool false)).
Proof.
  cbv zeta.
  pose proof (X7_command_is_published_iff_connected "2025-01-01T00:00:05"
                (request false "sensor_001") (JStr "disable")
                (JStr "sensor_001") (Display.init "display_001")
                (valid_init _) eq_refl eq_refl eq_refl eq_refl)
    as (H1 & _ & H3).
  split; [exact H1 | exact (H3 eq_refl)].
Defined.

(** X8: a [control_device] request whose command is neither "enable" nor
    "disable" (or is missing) is ignored: nothing is published, printed or
    emitted and the state is unchanged; a request that is not a dictionary
    raises AttributeError, in the state unchanged. *)
Theorem X8_other_requests_are_ignored (now : string) (data : json)
  (s : Display.display) :
  (∀ d, data = JObj d →
        list_mem (default (JStr "") (assoc "command" d))
          [JStr "enable"; JStr "disable"] = false →
        Display.handle_control_device now data s = Returns tt s []) ∧
  ((∀ d, data ≠ JObj d) →
   Display.handle_control_device now data s = Raises AttributeError s []).
Proof.
  split.
  - intros d -> Hmem. unfold Display.handle_control_device.
    cbn [py_get lift]. unfold bind at 1. cbn [ret]. unfold bind at 1.
    cbn [ret]. by rewrite Hmem.
  - intros Hd. destruct data; try done. by destruct (Hd d).
Qed.

(** The hypothesis of the second part of X8 holds for a request that is a
    string. *)
Lemma X8_witness :
  Display.handle_control_device "2025-01-01T00:00:05" (JStr "enable")
    (Display.init "display_001") =
  Raises AttributeError (Display.init "display_001") [].
Proof.
  apply (X8_other_requests_are_ignored "2025-01-01T00:00:05" (JStr "enable")
           (Display.init "display_001")).
  intros d. discriminate.
Defined.

(** ** The message counter *)

Lemma count_set_each (devices : list json) (v : bool) (n : nat)
  (s : Display.display) :
  Display.message_count s = n →
  wp (Display.set_each devices v)
     (λ _ s', Display.message_count s' = n)
     (λ _ s', Display.message_count s' = n) s.
Proof.
  revert s. induction devices as [|d devices IH]; intros s Hs; [done|].
  cbn [Display.set_each]. wp_run; [|done]. by apply IH.
Qed.

Lemma count_serialized_view (n : nat) (s : Display.display) :
  Display.message_count s = n →
  wp Display.serialized_view
     (λ _ s', Display.message_count s' = n)
     (λ _ s', Display.message_count s' = n) s.
Proof.
  intros Hs. unfold Display.serialized_view, Display._serialize_sensor_data.
  wp_run; done.
Qed.

Lemma count_dispatch (t : string) (data : json) (n : nat)
  (s : Display.display) :
  Display.message_count s = n →
  wp (Display.dispatch t data)
     (λ _ s', Display.message_count s' = n)
     (λ _ s', Display.message_count s' = n) s.
Proof.
  intros Hs.
  unfold Display.dispatch, Display.handle_temperature_data,
    Display.handle_humidity_data, Display.handle_combined_data,
    Display.handle_control_data.
  wp_run; done.
Qed.

Lemma count_handle (ev : Display.event) (s : Display.display) :
  Display.message_count (final_state (Display.handle ev s)) =
    if Display.parsed ev then Display.message_count s + 1
    else Display.message_count s.
Proof.
  rewrite (wp_final_state (Display.handle ev)
             (λ s', Display.message_count s' = _)).
  destruct ev as [now [t p]|now data]; cbn [Display.handle Display.parsed].
  - unfold Display.on_message, Display.on_message_body. cbn [topic body].
    rewrite wp_try_except, wp_bind, wp_decode_and_load.
    destruct p as [| |data]; [by rewrite wp_output..|].
    rewrite wp_bind, wp_modify, wp_bind.
    eapply wp_mono; [by apply count_dispatch| |]; cbn beta.
    + intros _ s' Hs'. rewrite wp_bind, wp_modify, wp_bind.
      eapply wp_mono; [by apply (count_serialized_view (Display.message_count s + 1))| |];
        cbn beta.
      * intros v s2 Hs2. by wp_run.
      * intros e s2 Hs2. destruct e; by rewrite wp_output.
    + intros e s' Hs'. destruct e; by rewrite wp_output.
  - unfold Display.handle_control_device.
    wp_run; try done;
      try (eapply wp_mono; [by apply count_set_each| |done];
           intros ? s' Hs'; cbn beta in *; rewrite wp_bind, wp_output, wp_bind);
      (eapply wp_mono; [by apply count_serialized_view| |done];
       intros v s2 Hs2; cbn beta; by wp_run).
Qed.

Lemma message_count_run (evs : list Display.event) (s : Display.display) :
  Display.message_count (Display.run evs s) =
    Display.message_count s + length (List.filter Display.parsed evs).
Proof.
  revert s. induction evs as [|ev evs IH]; intros s; cbn.
  - lia.
  - change (fold_left _ evs ?z) with (Display.run evs z).
    rewrite IH, count_handle. destruct (Display.parsed ev); cbn; lia.
Qed.

(** X9: the message counter counts the messages whose payload was parsed as
    JSON, whatever their topic and whether or not their handler failed
    afterwards; payloads that cannot be parsed and the requests of the web
    client are not counted. [get_statistics] reports this number, with the
    list of the devices and its length, and changes nothing. *)
Theorem X9_statistics_count_the_parsed_messages (c : string)
  (evs : list Display.event) :
  let s := Display.run evs (Display.init c) in
  Display.get_statistics s =
    Returns
      (Display.Stats (length (List.filter Display.parsed evs))
         (length (Display.connected_devices s))
         (Display.connected_devices s))
      s [] ∧
  ∀ evs' s0,
    Display.message_count (Display.run evs' s0) =
      Display.message_count s0 + length (List.filter Display.parsed evs').
Proof.
  cbv zeta. split; [|apply message_count_run].
  unfold Display.get_statistics, bind. cbn [get_state ret app].
  by rewrite message_count_run.
Qed.

(** ** The list of devices *)

Lemma no_repeat_nil : Display.no_repeat [].
Proof. intros l1 x l2 H. by destruct l1. Qed.

Lemma no_repeat_snoc (l : list json) (x : json) :
  Display.no_repeat l → list_mem x l = false → Display.no_repeat (l ++ [x]).
Proof.
  intros Hl Hx l1 y l2 Heq.
  destruct l2 as [|z l2 _] using rev_ind.
  - apply app_inj_tail in Heq as [-> ->]. done.
  - rewrite app_comm_cons, app_assoc in Heq.
    apply app_inj_tail in Heq as [-> _]. by eapply Hl.
Qed.

Lemma dict_lookup_set_mono (k k' : json) (v : pyval) (d : pydict) :
  is_Some (dict_lookup k d) → is_Some (dict_lookup k (dict_set k' v d)).
Proof.
  induction d as [|[k0 v0] d IH]; cbn [dict_lookup dict_set].
  - by intros [? [=]].
  - destruct (py_eq k' k0); cbn [dict_lookup]; destruct (py_eq k k0); eauto.
Qed.

Lemma dict_mem_set_mono (k k' : json) (v : pyval) (d : pydict) :
  dict_mem k d = true → dict_mem k (dict_set k' v d) = true.
Proof.
  unfold dict_mem. intros H.
  destruct (dict_lookup_set_mono k k' v d) as [w ->]; [|done].
  by destruct (dict_lookup k d).
Qed.

Lemma dict_mem_set_eq (k : json) (v : pyval) (d : pydict) :
  hashable k = true → dict_mem k (dict_set k v d) = true.
Proof. intros Hk. unfold dict_mem. by rewrite dict_lookup_set_eq. Qed.

Lemma list_mem_elem_of (x : json) (l : list json) :
  hashable x = true → x ∈ l → list_mem x l = true.
Proof.
  intros Hk Hin. unfold list_mem.
  induction Hin as [x l|x y l Hin IH]; cbn [existsb].
  - by rewrite py_eq_refl_hashable.
  - rewrite IH by done. apply orb_true_r.
Qed.

(** The invariants after writes that leave the list of devices as it is. *)
Ltac devices_solve :=
  match goal with
  | Hs : Display.devices_ok _ |- Display.devices_ok _ =>
      let Hv := fresh "Hv" in
      let Hn := fresh "Hn" in
      let Hr := fresh "Hr" in
      destruct Hs as (Hv & Hn & Hr); split_and!;
      [ valid_solve
      | exact Hn
      | destruct Hv as [Hwf _];
        unfold Display.wf in Hwf;
        unfold Display.registered, Display.states_of in *; cbn in *;
        repeat first
          [ rewrite heap_get_put_eq
          | rewrite heap_get_put_ne by first [congruence | lia] ];
        intros device Hin Hk; repeat apply dict_mem_set_mono; by apply Hr ]
  end.

Lemma devices_ok_init (c : string) : Display.devices_ok (Display.init c).
Proof.
  split_and!.
  - apply valid_init.
  - apply no_repeat_nil.
  - intros device Hin. by apply elem_of_nil in Hin.
Qed.

Lemma devices_ok_valid (s : Display.display) :
  Display.devices_ok s → Display.valid s.
Proof. by intros [H _]. Qed.

Lemma devices_ok_handle_temperature_data (data : json) (s : Display.display) :
  Display.devices_ok s →
  wp (Display.handle_temperature_data data)
     (λ _, Display.devices_ok) (λ _, Display.devices_ok) s.
Proof.
  intros Hs. unfold Display.handle_temperature_data.
  wp_run; try done; devices_solve.
Qed.

Lemma devices_ok_handle_humidity_data (data : json) (s : Display.display) :
  Display.devices_ok s →
  wp (Display.handle_humidity_data data)
     (λ _, Display.devices_ok) (λ _, Display.devices_ok) s.
Proof.
  intros Hs. unfold Display.handle_humidity_data.
  wp_run; try done; devices_solve.
Qed.

Lemma devices_ok_handle_control_data (data : json) (s : Display.display) :
  Display.devices_ok s →
  wp (Display.handle_control_data data)
     (λ _, Display.devices_ok) (λ _, Display.devices_ok) s.
Proof.
  intros Hs. unfold Display.handle_control_data.
  wp_run; try done; devices_solve.
Qed.

Lemma elem_of_snoc (x y : json) (l : list json) :
  x ∈ (l ++ [y])%list → x ∈ l ∨ x = y.
Proof.
  rewrite elem_of_app. intros [H|H]; [by left|].
  apply list_elem_of_singleton in H. by right.
Qed.

(** A device listed for the first time, known to the store or not a
    possible key. *)
Lemma devices_ok_append (x : json) (s : Display.display) :
  Display.devices_ok s →
  list_mem x (Display.connected_devices s) = false →
  (hashable x = true → dict_mem x (Display.states_of s) = true) →
  Display.devices_ok
    (Display.with_connected_devices (Display.connected_devices s ++ [x]) s).
Proof.
  intros (Hv & Hn & Hr) Hx Hknown. split_and!.
  - done.
  - by apply no_repeat_snoc.
  - intros device [Hin| ->]%elem_of_snoc Hk; [by apply Hr | by apply Hknown].
Qed.

(** A device listed for the first time, and entered in the store. *)
Lemma devices_ok_append_new (x : json) (s : Display.display) :
  Display.devices_ok s →
  list_mem x (Display.connected_devices s) = false →
  hashable x = true →
  Display.devices_ok
    (Display.with_state_of x (PJ (JBool true))
       (Display.with_connected_devices (Display.connected_devices s ++ [x])
          s)).
Proof.
  intros (Hv & Hn & Hr) Hx Hk. split_and!.
  - by apply valid_with_state_of.
  - by apply no_repeat_snoc.
  - intros device Hin Hd. rewrite states_of_with_state_of.
    apply elem_of_snoc in Hin as [Hin| ->].
    + apply dict_mem_set_mono. by apply Hr.
    + by apply dict_mem_set_eq.
Qed.

Lemma devices_ok_handle_combined_data (data : json) (s : Display.display) :
  Display.devices_ok s →
  wp (Display.handle_combined_data data)
     (λ _, Display.devices_ok) (λ _, Display.devices_ok) s.
Proof.
  intros Hs. unfold Display.handle_combined_data.
  wp_run; try done; try devices_solve;
    match goal with
    | H : negb (list_mem ?x _) = true |- _ => apply negb_true_iff in H
    end;
    lazymatch goal with
    | |- Display.devices_ok
           (Display.with_heap _
              (Display.with_connected_devices (_ ++ [?x]) ?s3)) =>
        change (Display.devices_ok
                  (Display.with_state_of x (PJ (JBool true))
                     (Display.with_connected_devices
                        (Display.connected_devices s3 ++ [x]) s3)));
        apply devices_ok_append_new; [devices_solve | done | done]
    | |- Display.devices_ok
           (Display.with_connected_devices (_ ++ [?x]) ?s3) =>
        change (Display.devices_ok
                  (Display.with_connected_devices
                     (Display.connected_devices s3 ++ [x]) s3));
        apply devices_ok_append; [devices_solve | done |]
    end.
  all: intros Hk;
    first
      [ congruence
      | match goal with
        | H : negb (dict_mem _ _) = false |- _ =>
            apply negb_false_iff in H; exact H
        end ].
Qed.

Lemma devices_ok_dispatch (t : string) (data : json) (s : Display.display) :
  Display.devices_ok s →
  wp (Display.dispatch t data)
     (λ _, Display.devices_ok) (λ _, Display.devices_ok) s.
Proof.
  intros Hs. unfold Display.dispatch.
  repeat match goal with
         | |- context [if ?b then _ else _] => destruct b
         end;
    auto using devices_ok_handle_temperature_data,
      devices_ok_handle_humidity_data, devices_ok_handle_combined_data,
      devices_ok_handle_control_data.
Qed.

Lemma devices_ok_counted (s : Display.display) :
  Display.devices_ok s → Display.devices_ok (Display.counted s).
Proof. by intros (Hv & Hn & Hr). Qed.

Lemma devices_ok_stamped (now : string) (s : Display.display) :
  Display.devices_ok s → Display.devices_ok (Display.stamped now s).
Proof. by intros (Hv & Hn & Hr). Qed.

Lemma devices_ok_on_message (now : string) (msg : message)
  (s : Display.display) :
  Display.devices_ok s →
  Display.devices_ok (final_state (Display.on_message now msg s)).
Proof.
  intros Hs. destruct msg as [t [| |data]]; [done..|].
  apply on_message_document.
  eapply wp_mono; [apply devices_ok_dispatch, devices_ok_counted, Hs| |];
    cbn beta.
  - intros _ s' Hs'.
    split; [by apply devices_ok_valid | by apply devices_ok_stamped].
  - done.
Qed.

Lemma devices_ok_set_each (devices : list json) (v : bool)
  (s : Display.display) :
  Display.devices_ok s →
  wp (Display.set_each devices v)
     (λ _, Display.devices_ok) (λ _, Display.devices_ok) s.
Proof.
  revert s. induction devices as [|d devices IH]; intros s Hs; [done|].
  cbn [Display.set_each]. wp_run; [|done].
  apply IH. devices_solve.
Qed.

Lemma devices_ok_handle_control_device (now : string) (data : json)
  (s : Display.display) :
  Display.devices_ok s →
  Display.devices_ok (final_state (Display.handle_control_device now data s)).
Proof.
  intros Hs. rewrite wp_final_state. unfold Display.handle_control_device.
  wp_run; try done;
    try (eapply wp_mono; [by apply devices_ok_set_each| |done];
         intros ? s' Hs'; cbn beta in *; rewrite wp_bind, wp_output, wp_bind);
    (apply wp_unchanged;
     [ apply serialized_view_unchanged, valid_json_heap, devices_ok_valid
     | intros v; autorewrite with wp
     | intros e ]);
    first [assumption | devices_solve].
Qed.

Lemma devices_ok_run (evs : list Display.event) (s : Display.display) :
  Display.devices_ok s → Display.devices_ok (Display.run evs s).
Proof.
  revert s. induction evs as [|ev evs IH]; intros s Hs; [done|].
  cbn. apply IH. destruct ev;
    [by apply devices_ok_on_message
    | by apply devices_ok_handle_control_device].
Qed.

(** X10: in every state the observer reaches, no device is listed twice in
    [connected_devices] (so the number of devices shown in the statistics
    counts distinct devices), and every listed device that can be a
    dictionary key has an entry in [sensor_states]. *)
Theorem X10_devices_listed_once_and_registered (c : string)
  (evs : list Display.event) :
  let s := Display.run evs (Display.init c) in
  Display.no_repeat (Display.connected_devices s) ∧
  Display.registered s ∧
  (∀ ids, Display.connected_devices s = JStr <$> ids → NoDup ids).
Proof.
  cbv zeta.
  destruct (devices_ok_run evs _ (devices_ok_init c)) as (Hv & Hn & Hr).
  split_and!; [done..|].
  intros ids Hids. rewrite Hids in Hn. clear -Hn.
  induction ids as [|x ids IH] using rev_ind; [constructor|].
  apply NoDup_app. split_and!.
  - apply IH. intros l1 y l2 Heq. apply (Hn l1 y (l2 ++ [JStr x])%list).
    rewrite fmap_app, Heq. cbn. by rewrite <- app_assoc.
  - intros y Hy ->%list_elem_of_singleton.
    specialize (Hn (JStr <$> ids) (JStr x) []).
    rewrite fmap_app in Hn. specialize (Hn eq_refl).
    rewrite list_mem_strings in Hn. by apply bool_decide_eq_false in Hn.
  - apply NoDup_singleton.
Qed.

(** ** Readings that lack a key *)

Lemma on_message_without_humidity (now : string) (d : list (string * json))
  (t : json) (s : Display.display) :
  assoc "temperature" d = Some t → assoc "humidity" d = None →
  Display.on_message now
    (Message "sensors/temp_humidity" (Document (JObj d))) s =
    Returns tt
      (Display.with_value_at (Display.temperature (Display.sensor_data s)) t
         (Display.with_sensor_data
            (Display.with_combined (PJ (JObj d)) (Display.sensor_data s))
            (Display.counted s)))
      [Display.Printed (Display.LogMessageError KeyError)].
Proof.
  intros Ht Hh.
  unfold Display.on_message, try_except, Display.on_message_body.
  cbn [topic body decode_and_load].
  unfold bind at 1. cbn [ret]. unfold bind at 1.
  unfold Display.modify at 1. unfold bind at 1. cbn [get_state set_state].
  unfold bind at 1.
  change (Display.dispatch "sensors/temp_humidity")
    with Display.handle_combined_data.
  unfold Display.handle_combined_data.
  unfold bind at 1. unfold Display.modify at 1. unfold bind at 1.
  cbn [get_state set_state].
  unfold bind at 1. cbn [py_getitem]. rewrite Ht. cbn [lift ret].
  unfold bind at 1. cbn [get_state]. unfold bind at 1.
  unfold Display.obj_setitem at 1. cbn [hashable].
  unfold Display.modify at 1. unfold bind at 1. cbn [get_state set_state].
  unfold bind at 1. rewrite Hh. cbn [lift raise].
  done.
Qed.

(** X11: a reading that has a "temperature" and no "humidity" is applied in
    part: the combined slot holds the document and the temperature value is
    the new one, while the humidity, the time of the last update, the devices
    and their states are as before; the message is counted, the error is
    printed and no update is sent to the web clients. *)
Theorem X11_reading_without_humidity_is_applied_in_part (now : string)
  (d : list (string * json)) (t : json) (s : Display.display) :
  Display.valid s →
  assoc "temperature" d = Some t → assoc "humidity" d = None →
  let r :=
    Display.on_message now
      (Message "sensors/temp_humidity" (Document (JObj d))) s in
  let s' := final_state r in
  outputs r = [Display.Printed (Display.LogMessageError KeyError)] ∧
  Display.combined (Display.sensor_data s') = PJ (JObj d) ∧
  dict_lookup (JStr "value") (Display.v_temperature (Display.store_view s'))
    = Some (PJ t) ∧
  Display.v_humidity (Display.store_view s') =
    Display.v_humidity (Display.store_view s) ∧
  Display.last_update (Display.sensor_data s') =
    Display.last_update (Display.sensor_data s) ∧
  Display.connected_devices s' = Display.connected_devices s ∧
  Display.states_of s' = Display.states_of s ∧
  Display.message_count s' = Display.message_count s + 1.
Proof.
  intros [(H1 & H2 & H3 & _) _] Ht Hh. cbv zeta.
  rewrite (on_message_without_humidity now d t) by done.
  unfold Display.store_view, Display.render, Display.states_of,
    Display.with_value_at. cbn.
  rewrite heap_get_put_eq, !heap_get_put_ne by congruence.
  split_and!; try done. by apply dict_lookup_set_eq.
Qed.

(** The hypotheses of X11 hold for a document that has only a
    temperature. *)
Lemma X11_witness :
  outputs
    (Display.on_message "2025-01-01T00:00:03"
       (Message "sensors/temp_humidity"
          (Document (JObj [("temperature", JNum (Q2Qc 31))])))
       (Display.init "display_001")) =
  [Display.Printed (Display.LogMessageError KeyError)].
Proof.
  exact (proj1
    (X11_reading_without_humidity_is_applied_in_part "2025-01-01T00:00:03"
       [("temperature", JNum (Q2Qc 31))] (JNum (Q2Qc 31))
       (Display.init "display_001") (valid_init _) eq_refl eq_refl)).
Defined.

(** ** Messages on the topics of one quantity *)

Lemma wpo_modify (f : Display.display → Display.display)
  (Q : unit → Display.display → list Display.effect → Prop) R s :
  wpo (Display.modify f) Q R s = Q tt (f s) [].
Proof. done. Qed.

Lemma wpo_get_statistics
  (Q : Display.stats → Display.display → list Display.effect → Prop) R s :
  wpo Display.get_statistics Q R s =
    Q (Display.Stats (Display.message_count s)
         (length (Display.connected_devices s)) (Display.connected_devices s))
      s [].
Proof. done. Qed.

Hint Rewrite wpo_modify wpo_get_statistics : wpo.

(** The state in which the handler of a temperature message returns. *)
Lemma handle_temperature_data_final (data value unit ts : json)
  (s : Display.display) :
  py_getitem data "value" = inr value →
  py_getitem data "unit" = inr unit →
  py_getitem data "timestamp" = inr ts →
  ∃ sensor_id,
    py_get data "sensor_id" (JStr "unknown") = inr sensor_id ∧
    Display.handle_temperature_data data s =
      Returns tt
        (Display.Build_display (Display.client_id s) (Display.is_connected s)
           (Display.heap_put (Display.heap s) (Display.next_loc s)
              (Display.entry value unit ts sensor_id))
           (Pos.succ (Display.next_loc s))
           (Display.with_temperature (Display.next_loc s)
              (Display.sensor_data s))
           (Display.message_count s) (Display.connected_devices s))
        [].
Proof.
  intros Hv Hu Ht. destruct data as [| | | | |d]; try done.
  eexists. split; [reflexivity|].
  unfold Display.handle_temperature_data. rewrite Hv, Hu, Ht. done.
Qed.

Lemma handle_humidity_data_final (data value unit ts : json)
  (s : Display.display) :
  py_getitem data "value" = inr value →
  py_getitem data "unit" = inr unit →
  py_getitem data "timestamp" = inr ts →
  ∃ sensor_id,
    py_get data "sensor_id" (JStr "unknown") = inr sensor_id ∧
    Display.handle_humidity_data data s =
      Returns tt
        (Display.Build_display (Display.client_id s) (Display.is_connected s)
           (Display.heap_put (Display.heap s) (Display.next_loc s)
              (Display.entry value unit ts sensor_id))
           (Pos.succ (Display.next_loc s))
           (Display.with_humidity (Display.next_loc s)
              (Display.sensor_data s))
           (Display.message_count s) (Display.connected_devices s))
        [].
Proof.
  intros Hv Hu Ht. destruct data as [| | | | |d]; try done.
  eexists. split; [reflexivity|].
  unfold Display.handle_humidity_data. rewrite Hv, Hu, Ht. done.
Qed.

(** The state after a message whose handler returns. *)
Lemma on_message_returns (now t : string) (data : json)
  (s s' : Display.display) (o : list Display.effect) :
  Display.valid s →
  Display.dispatch t data (Display.counted s) = Returns tt s' o →
  final_state (Display.on_message now (Message t (Document data)) s) =
    Display.stamped now s'.
Proof.
  intros Hs Hd.
  apply (on_message_document now t data s (λ z, z = Display.stamped now s')).
  pose proof (valid_dispatch t data _ (valid_counted s Hs)) as Hv.
  unfold wp in *. rewrite Hd in *. done.
Qed.

(** The outcome of a message whose handler raises. *)
Lemma on_message_raises (now t : string) (data : json)
  (s s' : Display.display) (e : exn) (o : list Display.effect) :
  Display.dispatch t data (Display.counted s) = Raises e s' o →
  Display.on_message now (Message t (Document data)) s =
    Returns tt s'
      (o ++ [Display.Printed
               (match e with
                | JSONDecodeError => Display.LogJsonError t
                | _ => Display.LogMessageError e
                end)]).
Proof.
  intros Hd.
  unfold Display.on_message, try_except, Display.on_message_body.
  cbn [topic body decode_and_load].
  unfold bind at 1. cbn [ret]. unfold bind at 1.
  unfold Display.modify at 1. unfold bind at 1. cbn [get_state set_state].
  unfold bind at 1. fold (Display.counted s). rewrite Hd. by destruct e.
Qed.

(** X12: a message on sensors/temperature, or on sensors/humidity, that has a
    "value", a "unit" and a "timestamp" replaces the entry of that quantity
    by a dictionary of these three and of the "sensor_id" ("unknown" when the
    message has none); the other quantity, the combined slot, the devices and
    their states are as before, and the time of the update is stored. *)
Theorem X12_quantity_message_replaces_the_entry (now : string)
  (data value unit ts : json) (s : Display.display) :
  Display.valid s →
  py_getitem data "value" = inr value →
  py_getitem data "unit" = inr unit →
  py_getitem data "timestamp" = inr ts →
  let t' :=
    final_state
      (Display.on_message now
         (Message "sensors/temperature" (Document data)) s) in
  let h' :=
    final_state
      (Display.on_message now
         (Message "sensors/humidity" (Document data)) s) in
  ∃ sensor_id,
    py_get data "sensor_id" (JStr "unknown") = inr sensor_id ∧
    Display.store_view t' =
      Display.View (Display.entry value unit ts sensor_id)
        (Display.v_humidity (Display.store_view s))
        (Display.v_combined (Display.store_view s))
        (PDatetime now)
        (Display.v_sensor_states (Display.store_view s)) ∧
    Display.store_view h' =
      Display.View (Display.v_temperature (Display.store_view s))
        (Display.entry value unit ts sensor_id)
        (Display.v_combined (Display.store_view s))
        (PDatetime now)
        (Display.v_sensor_states (Display.store_view s)) ∧
    Display.connected_devices t' = Display.connected_devices s ∧
    Display.connected_devices h' = Display.connected_devices s.
Proof.
  intros Hs Hv Hu Ht. cbv zeta.
  destruct (handle_temperature_data_final data value unit ts
              (Display.counted s) Hv Hu Ht) as (sid & Hsid & Htemp).
  destruct (handle_humidity_data_final data value unit ts
              (Display.counted s) Hv Hu Ht) as (sid' & Hsid' & Hhum).
  rewrite Hsid in Hsid'. injection Hsid' as <-.
  exists sid. split; [done|].
  rewrite (on_message_returns now "sensors/temperature" data s _ [] Hs Htemp).
  rewrite (on_message_returns now "sensors/humidity" data s _ [] Hs Hhum).
  destruct Hs as [(H1 & H2 & H3 & H4 & H5 & H6) _].
  unfold Display.store_view, Display.render. cbn.
  rewrite heap_get_put_eq, !heap_get_put_ne by lia.
  done.
Qed.

(** The hypotheses of X12 hold for a payload of the shape the emitter
    builds for one quantity. *)
Lemma X12_witness :
  ∃ sensor_id,
    py_get
      (JObj [("value", JNum (Q2Qc 21)); ("unit", JStr "°C");
             ("timestamp", JStr "2025-01-01T00:00:03");
             ("sensor_id", JStr "sensor_001")])
      "sensor_id" (JStr "unknown") = inr sensor_id ∧
    Display.v_temperature
      (Display.store_view
         (final_state
            (Display.on_message "2025-01-01T00:00:04"
               (Message "sensors/temperature"
                  (Document
                     (JObj [("value", JNum (Q2Qc 21)); ("unit", JStr "°C");
                            ("timestamp", JStr "2025-01-01T00:00:03");
                            ("sensor_id", JStr "sensor_001")])))
               (Display.init "display_001")))) =
      Display.entry (JNum (Q2Qc 21)) (JStr "°C")
        (JStr "2025-01-01T00:00:03") sensor_id.
Proof.
  destruct (X12_quantity_message_replaces_the_entry "2025-01-01T00:00:04"
              (JObj [("value", JNum (Q2Qc 21)); ("unit", JStr "°C");
                     ("timestamp", JStr "2025-01-01T00:00:03");
                     ("sensor_id", JStr "sensor_001")])
              (JNum (Q2Qc 21)) (JStr "°C") (JStr "2025-01-01T00:00:03")
              (Display.init "display_001") (valid_init _)
              eq_refl eq_refl eq_refl)
    as (sid & Hsid & Ht & _).
  exists sid. split; [exact Hsid|]. by rewrite Ht.
Defined.

Lemma py_getitem_error (data : json) (k : string) (e : exn) :
  py_getitem data k = inl e → e = KeyError ∨ e = TypeError.
Proof.
  destruct data as [| | | | |d]; cbn; try (intros [= <-]; by right).
  destruct (assoc k d); [done|]. intros [= <-]. by left.
Qed.

(** X13: a message on sensors/temperature or sensors/humidity that lacks
    one of "value", "unit" and "timestamp", or is not a JSON object, changes
    nothing but the message counter: the entry keeps all its fields, the
    time of the last update is not stored and no update is sent to the web
    clients; the error is printed. *)
Theorem X13_quantity_message_lacking_a_key_is_dropped (now t k : string)
  (data : json) (e : exn) (s : Display.display) :
  t = "sensors/temperature" ∨ t = "sensors/humidity" →
  k ∈ ["value"; "unit"; "timestamp"] →
  py_getitem data k = inl e →
  ∃ e',
    (e' = KeyError ∨ e' = TypeError) ∧
    Display.on_message now (Message t (Document data)) s =
      Returns tt (Display.counted s)
        [Display.Printed (Display.LogMessageError e')].
Proof.
  intros Ht Hk He.
  assert (∃ e', (e' = KeyError ∨ e' = TypeError) ∧
                Display.dispatch t data (Display.counted s) =
                  Raises e' (Display.counted s) []) as (e' & He' & Hd).
  { assert (Display.dispatch t data = Display.handle_temperature_data data ∨
            Display.dispatch t data = Display.handle_humidity_data data)
      as [-> | ->] by (destruct Ht as [-> | ->]; auto).
    all: unfold Display.handle_temperature_data, Display.handle_humidity_data.
    all: destruct (py_getitem data "value") as [e1|v1] eqn:E1;
      [ exists e1; split; [by eapply py_getitem_error | done] |].
    all: destruct (py_getitem data "unit") as [e2|v2] eqn:E2;
      [ exists e2; split; [by eapply py_getitem_error | done] |].
    all: destruct (py_getitem data "timestamp") as [e3|v3] eqn:E3;
      [ exists e3; split; [by eapply py_getitem_error | done] |].
    all: repeat (apply elem_of_cons in Hk as [-> | Hk]; [congruence|]).
    all: by apply elem_of_nil in Hk. }
  exists e'. split; [done|].
  rewrite (on_message_raises now t data s _ e' [] Hd).
  by destruct He' as [-> | ->].
Qed.

(** The hypotheses of X13 hold for a temperature without a unit. *)
Lemma X13_witness :
  ∃ e',
    (e' = KeyError ∨ e' = TypeError) ∧
    Display.on_message "2025-01-01T00:00:04"
      (Message "sensors/temperature"
         (Document (JObj [("value", JNum (Q2Qc 21))])))
      (Display.init "display_001") =
    Returns tt (Display.counted (Display.init "display_001"))
      [Display.Printed (Display.LogMessageError e')].
Proof.
  apply (X13_quantity_message_lacking_a_key_is_dropped
           "2025-01-01T00:00:04" "sensors/temperature" "unit"
           (JObj [("value", JNum (Q2Qc 21))]) KeyError
           (Display.init "display_001")).
  - by left.
  - apply elem_of_cons. right. apply elem_of_cons. by left.
  - reflexivity.
Defined.

(** ** Timestamps that are not datetime objects *)

Lemma wpo_obj_getitem (l : Display.loc) (k : string)
  (Q : pyval → Display.display → list Display.effect → Prop) R s :
  wpo (Display.obj_getitem l k) Q R s =
    match dict_lookup (JStr k) (Display.heap_get (Display.heap s) l) with
    | Some v => Q v s []
    | None => R KeyError s []
    end.
Proof.
  unfold Display.obj_getitem, wpo, bind, get_state.
  by destruct (dict_lookup _ _).
Qed.

Lemma wpo_isoformat (v : pyval)
  (Q : pyval → Display.display → list Display.effect → Prop) R s :
  wpo (Display.isoformat v) Q R s =
    match v with
    | PDatetime iso => Q (PJ (JStr iso)) s []
    | PJ _ => R AttributeError s []
    end.
Proof. by destruct v. Qed.

(** In a blocked state no snapshot is produced. *)
Lemma serialize_blocked (s : Display.display) :
  Display.blocked s →
  Display._serialize_sensor_data s = Raises AttributeError s [].
Proof.
  intros (ts & Hl & Ht).
  rewrite (wpo_outcome _ (λ r, r = Raises AttributeError s [])).
  unfold Display._serialize_sensor_data.
  rewrite wpo_bind, wpo_get_state. cbv zeta. rewrite wpo_bind.
  assert (∀ d o,
    Display.temperature d = Display.temperature (Display.sensor_data s) →
    o = [] →
    wpo
      (ts0 <- Display.obj_getitem (Display.temperature d) "timestamp" ;;
       (if truthy_val ts0 then
          v <- Display.isoformat ts0 ;;
          Display.obj_setitem (Display.temperature d) (JStr "timestamp") v
        else ret tt) ;;;
       ts1 <- Display.obj_getitem (Display.humidity d) "timestamp" ;;
       (if truthy_val ts1 then
          v <- Display.isoformat ts1 ;;
          Display.obj_setitem (Display.humidity d) (JStr "timestamp") v
        else ret tt) ;;;
       ret d)
      (λ b s'' o', Returns b s'' (o ++ o') = Raises AttributeError s [])
      (λ e s'' o',
         @Raises _ _ Display.sensor_data_t e s'' (o ++ o') =
         Raises AttributeError s []) s)
    as Hrest.
  { intros d o Hd ->. rewrite wpo_bind, wpo_obj_getitem, Hd, Hl.
    rewrite wpo_bind. cbn [truthy_val]. rewrite Ht.
    by rewrite wpo_bind, wpo_isoformat. }
  destruct (Display.last_update (Display.sensor_data s)) as [j|iso] eqn:Hu;
    cbn [truthy_val].
  - destruct (truthy j).
    + by rewrite wpo_bind, wpo_isoformat.
    + rewrite wpo_ret. by apply Hrest.
  - rewrite wpo_bind, wpo_isoformat, wpo_ret. by apply Hrest.
Qed.

Lemma serialized_view_blocked (s : Display.display) :
  Display.blocked s →
  Display.serialized_view s = Raises AttributeError s [].
Proof.
  intros Hb. unfold Display.serialized_view, bind.
  by rewrite serialize_blocked.
Qed.

(** The two invariants and the blocking, after writes that leave the
    "timestamp" of the temperature as it is. *)
Ltac blocked_solve :=
  match goal with
  | Hs : Display.valid _, Hb : Display.blocked _
    |- Display.valid _ ∧ Display.blocked _ =>
      let Hs' := fresh "Hs" in
      pose proof Hs as Hs';
      split;
      [ valid_solve
      | let Hwf := fresh "Hwf" in
        let ts := fresh "ts" in
        let Hl := fresh "Hl" in
        let Ht := fresh "Ht" in
        destruct Hs' as [Hwf _]; unfold Display.wf in Hwf;
        destruct Hb as (ts & Hl & Ht); exists ts; split; [|exact Ht];
        cbn in *;
        repeat first
          [ rewrite heap_get_put_eq
          | rewrite heap_get_put_ne by first [congruence | lia]
          | rewrite dict_lookup_set_str, decide_False by done ];
        exact Hl ]
  end.

Lemma blocked_dispatch (t : string) (data : json) (s : Display.display) :
  Display.valid s → Display.blocked s →
  String.eqb t "sensors/temperature" = false →
  wp (Display.dispatch t data)
     (λ _ s', Display.valid s' ∧ Display.blocked s')
     (λ _ s', Display.valid s' ∧ Display.blocked s') s.
Proof.
  intros Hs Hb Ht. unfold Display.dispatch. rewrite Ht.
  unfold Display.handle_humidity_data, Display.handle_combined_data,
    Display.handle_control_data.
  wp_run; try done; blocked_solve.
Qed.

Lemma blocked_set_each (devices : list json) (v : bool)
  (s : Display.display) :
  Display.valid s → Display.blocked s →
  wp (Display.set_each devices v)
     (λ _ s', Display.valid s' ∧ Display.blocked s')
     (λ _ s', Display.valid s' ∧ Display.blocked s') s.
Proof.
  revert s. induction devices as [|d devices IH]; intros s Hs Hb; [done|].
  cbn [Display.set_each]. wp_run; [|done].
  match goal with
  | |- wp _ _ _ ?s' =>
      assert (Display.valid s' ∧ Display.blocked s') as [? ?]
        by blocked_solve
  end.
  by apply IH.
Qed.

Lemma blocked_stamped (now : string) (s : Display.display) :
  Display.blocked s → Display.blocked (Display.stamped now s).
Proof. done. Qed.

Lemma blocked_counted (s : Display.display) :
  Display.blocked s → Display.blocked (Display.counted s).
Proof. done. Qed.

Lemma data_updates_nil (out : list Display.effect) :
  Forall (λ e, Display.is_data_update e = false) out →
  Display.data_updates out = [].
Proof.
  induction 1 as [|e out He _ IH]; [done|].
  cbn. rewrite <- IH. destruct e as [| ? []| |]; done.
Qed.

Lemma data_updates_app (o1 o2 : list Display.effect) :
  Display.data_updates (o1 ++ o2) =
  (Display.data_updates o1 ++ Display.data_updates o2)%list.
Proof. apply omap_app. Qed.

(** A message on another topic than sensors/temperature, received in a
    blocked state. *)
Lemma blocked_on_message (now : string) (msg : message)
  (s : Display.display) :
  Display.valid s → Display.blocked s →
  String.eqb (topic msg) "sensors/temperature" = false →
  wpo (Display.on_message now msg)
      (λ _ s' o,
         (Display.valid s' ∧ Display.blocked s') ∧
         Forall (λ e, Display.is_data_update e = false) o)
      (λ _ _ _, False) s.
Proof.
  intros Hs Hb Ht. destruct msg as [t p]. cbn [topic] in Ht.
  unfold Display.on_message, Display.on_message_body. cbn [topic body].
  rewrite wpo_try_except, wpo_bind, wpo_decode_and_load.
  destruct p as [| |data].
  - cbn beta iota. rewrite wpo_output. split; [by split|].
    cbn. by repeat constructor.
  - cbn beta iota. rewrite wpo_output. split; [by split|].
    cbn. by repeat constructor.
  - rewrite wpo_bind, wpo_modify, wpo_bind.
    eapply wpo_mono.
    + apply (wpo_wp_only _ (λ _ s', Display.valid s' ∧ Display.blocked s')
               (λ _ s', Display.valid s' ∧ Display.blocked s')
               (λ e, Display.is_data_update e = false)).
      * apply (blocked_dispatch t data); [by apply valid_counted | done..].
      * by apply only_dispatch.
    + intros _ s1 o1 [[Hs1 Hb1] Ho1]. cbn beta.
      rewrite wpo_bind, wpo_modify, wpo_bind. unfold wpo at 1.
      rewrite serialized_view_blocked by done.
      rewrite wpo_output. split; [by split|].
      cbn. rewrite app_nil_r. apply Forall_app. by repeat constructor.
    + intros e s1 o1 [[Hs1 Hb1] Ho1]. cbn beta.
      destruct e; rewrite wpo_output; (split; [by split|]);
        cbn; apply Forall_app; by repeat constructor.
Qed.

(** The edit made by a request, in a blocked state. *)
Lemma blocked_edit (command device_id : json) (s : Display.display) :
  Display.valid s → Display.blocked s →
  wp (if negb (py_eq device_id (JStr "all")) then
        Display.obj_setitem (Display.sensor_states (Display.sensor_data s))
          device_id (PJ (JBool (py_eq command (JStr "enable"))))
      else if py_eq command (JStr "enable") then
        Display.set_each (Display.connected_devices s) true
      else if py_eq command (JStr "disable") then
        Display.set_each (Display.connected_devices s) false
      else ret tt)
     (λ _ s', Display.valid s' ∧ Display.blocked s')
     (λ _ s', Display.valid s' ∧ Display.blocked s') s.
Proof.
  intros Hs Hb.
  destruct (negb (py_eq device_id (JStr "all")));
    [|destruct (py_eq command (JStr "enable"));
      [|destruct (py_eq command (JStr "disable"))]].
  - wp_run; [blocked_solve | done].
  - by apply blocked_set_each.
  - by apply blocked_set_each.
  - done.
Qed.

Lemma only_edit (P : Display.effect → Prop) (command device_id : json)
  (s : Display.display) :
  only_outputs P
    (if negb (py_eq device_id (JStr "all")) then
       Display.obj_setitem (Display.sensor_states (Display.sensor_data s))
         device_id (PJ (JBool (py_eq command (JStr "enable"))))
     else if py_eq command (JStr "enable") then
       Display.set_each (Display.connected_devices s) true
     else if py_eq command (JStr "disable") then
       Display.set_each (Display.connected_devices s) false
     else ret tt).
Proof.
  unfold Display.obj_setitem, Display.modify.
  repeat first [ apply only_set_each | only_step ].
Qed.

(** The end of [handle_control_device], in a blocked state: the snapshot
    fails and no update is sent. *)
Lemma blocked_tail (command device_id : json) (s1 : Display.display)
  (o0 : list Display.effect) :
  Display.valid s1 → Display.blocked s1 →
  Forall (λ e, Display.is_data_update e = false) o0 →
  wpo (output (Display.Printed (Display.LogCommandIssued command device_id)) ;;;
       serialized_data <- Display.serialized_view ;;
       st <- Display.get_statistics ;;
       output (Display.Emit "data_update"
                 (Display.DataUpdate Display.control_topic
                    (JObj [("command", command); ("device_id", device_id)])
                    serialized_data st)))
      (λ _ s' o,
         (Display.valid s' ∧ Display.blocked s') ∧
         Forall (λ e, Display.is_data_update e = false) (o0 ++ o))
      (λ _ s' o,
         (Display.valid s' ∧ Display.blocked s') ∧
         Forall (λ e, Display.is_data_update e = false) (o0 ++ o)) s1.
Proof.
  intros Hs1 Hb1 Ho0.
  rewrite wpo_bind, wpo_output, wpo_bind. unfold wpo at 1.
  rewrite serialized_view_blocked by done.
  split; [by split|]. apply Forall_app. split; [done|].
  cbn. by repeat constructor.
Qed.

Lemma wpo_send_control_command (now : string) (command device_id : json)
  (Q : bool → Display.display → list Display.effect → Prop) R s :
  wpo (Display.send_control_command now command device_id) Q R s =
    Q (Display.is_connected s) s
      (if Display.is_connected s then
         [Display.Publish Display.control_topic
            (Display.control_data command device_id now (Display.client_id s));
          Display.Printed (Display.LogCommandSent command device_id)]
       else [Display.Printed Display.LogNotConnected]).
Proof. unfold wpo. by rewrite send_control_command_outcome. Qed.

(** A request of the operator, received in a blocked state. *)
Lemma blocked_handle_control_device (now : string) (data : json)
  (s : Display.display) :
  Display.valid s → Display.blocked s →
  wpo (Display.handle_control_device now data)
      (λ _ s' o,
         (Display.valid s' ∧ Display.blocked s') ∧
         Forall (λ e, Display.is_data_update e = false) o)
      (λ _ s' o,
         (Display.valid s' ∧ Display.blocked s') ∧
         Forall (λ e, Display.is_data_update e = false) o) s.
Proof.
  intros Hs Hb. unfold Display.handle_control_device.
  rewrite wpo_bind, wpo_lift.
  destruct (py_get data "command" (JStr "")) as [e|command];
    [split; [by split | constructor]|].
  rewrite wpo_bind, wpo_lift.
  destruct (py_get data "device_id" (JStr "all")) as [e|device_id];
    [split; [by split | constructor]|].
  destruct (list_mem command [JStr "enable"; JStr "disable"]);
    [|rewrite wpo_ret; split; [by split | constructor]].
  rewrite wpo_bind, wpo_send_control_command.
  rewrite wpo_bind, wpo_get_state, wpo_bind.
  eapply wpo_mono.
  - apply (wpo_wp_only _ (λ _ s', Display.valid s' ∧ Display.blocked s')
             (λ _ s', Display.valid s' ∧ Display.blocked s')
             (λ e, Display.is_data_update e = false)).
    + by apply blocked_edit.
    + apply only_edit.
  - intros _ s1 o1 [[Hs1 Hb1] Ho1]. cbn beta.
    eapply wpo_mono; [apply (blocked_tail command device_id s1 o1); done| |];
      cbn beta; intros ? s2 o2 [H1 H2]; (split; [done|]);
      destruct (Display.is_connected s); cbn;
      repeat (constructor; [done|]); exact H2.
  - intros e s1 o1 [[Hs1 Hb1] Ho1]. split; [by split|].
    destruct (Display.is_connected s); cbn;
      repeat (constructor; [done|]); exact Ho1.
Qed.

Lemma blocked_handle (ev : Display.event) (s : Display.display) :
  Display.valid s → Display.blocked s →
  Display.on_temperature_topic ev = false →
  (Display.valid (final_state (Display.handle ev s)) ∧
   Display.blocked (final_state (Display.handle ev s))) ∧
  Display.data_updates (outputs (Display.handle ev s)) = [].
Proof.
  intros Hs Hb Hev. destruct ev as [now msg|now data]; cbn [Display.handle].
  - pose proof (blocked_on_message now msg s Hs Hb Hev) as H.
    unfold wpo in H. destruct (Display.on_message now msg s); [|done].
    destruct H as [H1 H2]. split; [done | by apply data_updates_nil].
  - pose proof (blocked_handle_control_device now data s Hs Hb) as H.
    unfold wpo in H.
    destruct (Display.handle_control_device now data s);
      destruct H as [H1 H2]; (split; [done | by apply data_updates_nil]).
Qed.

(** The outcome of a message whose handler returns in a blocked state. *)
Lemma on_message_blocked (now t : string) (data : json)
  (s s1 : Display.display) (o : list Display.effect) :
  Display.dispatch t data (Display.counted s) = Returns tt s1 o →
  Display.blocked s1 →
  Display.on_message now (Message t (Document data)) s =
    Returns tt (Display.stamped now s1)
      (o ++ [Display.Printed (Display.LogMessageError AttributeError)]).
Proof.
  intros Hd Hb.
  rewrite (wpo_outcome _ (λ r, r = Returns tt (Display.stamped now s1) _)).
  unfold Display.on_message, Display.on_message_body. cbn [topic body].
  rewrite wpo_try_except, wpo_bind, wpo_decode_and_load, wpo_bind, wpo_modify,
    wpo_bind.
  unfold wpo at 1. fold (Display.counted s). rewrite Hd.
  rewrite wpo_bind, wpo_modify, wpo_bind. unfold wpo at 1.
  fold (Display.stamped now s1).
  rewrite serialized_view_blocked by done.
  rewrite wpo_output. cbn. by rewrite app_nil_r.
Qed.

(** X14: a message on sensors/temperature whose "timestamp" is not empty,
    as in the payload the emitter builds for the temperature, is stored, and
    the snapshot that follows fails on it: the message is answered by the
    error AttributeError alone, no update is sent, and the observer is left
    in a state where no snapshot can be produced. *)
Theorem X14_temperature_with_a_timestamp_blocks_the_observer (now : string)
  (data value unit ts : json) (s : Display.display) :
  Display.valid s →
  py_getitem data "value" = inr value →
  py_getitem data "unit" = inr unit →
  py_getitem data "timestamp" = inr ts →
  truthy ts = true →
  let r :=
    Display.on_message now
      (Message "sensors/temperature" (Document data)) s in
  returned r = true ∧
  outputs r = [Display.Printed (Display.LogMessageError AttributeError)] ∧
  Display.valid (final_state r) ∧
  Display.blocked (final_state r) ∧
  Display._serialize_sensor_data (final_state r) =
    Raises AttributeError (final_state r) [].
Proof.
  intros Hs Hv Hu Ht Hts. cbv zeta.
  pose proof (valid_on_message now
                (Message "sensors/temperature" (Document data)) s Hs) as Hs'.
  destruct (handle_temperature_data_final data value unit ts
              (Display.counted s) Hv Hu Ht) as (sid & Hsid & Htemp).
  assert (Display.blocked
            (Display.Build_display (Display.client_id (Display.counted s))
               (Display.is_connected (Display.counted s))
               (Display.heap_put (Display.heap (Display.counted s))
                  (Display.next_loc (Display.counted s))
                  (Display.entry value unit ts sid))
               (Pos.succ (Display.next_loc (Display.counted s)))
               (Display.with_temperature
                  (Display.next_loc (Display.counted s))
                  (Display.sensor_data (Display.counted s)))
               (Display.message_count (Display.counted s))
               (Display.connected_devices (Display.counted s)))) as Hb.
  { exists ts. split; [|done]. cbn. by rewrite heap_get_put_eq. }
  rewrite (on_message_blocked now "sensors/temperature" data s _ []
             Htemp Hb) in *.
  cbn [returned outputs final_state app] in *.
  split_and!; try done. by apply serialize_blocked.
Qed.

(** The hypotheses of X14 hold for a payload of the shape the emitter
    builds for the temperature. *)
Lemma X14_witness :
  outputs
    (Display.on_message "2025-01-01T00:00:04"
       (Message "sensors/temperature"
          (Document
             (JObj [("value", JNum (Q2Qc 21)); ("unit", JStr "°C");
                    ("timestamp", JStr "2025-01-01T00:00:03");
                    ("sensor_id", JStr "sensor_001")])))
       (Display.init "display_001")) =
  [Display.Printed (Display.LogMessageError AttributeError)].
Proof.
  exact (proj1 (proj2
    (X14_temperature_with_a_timestamp_blocks_the_observer
       "2025-01-01T00:00:04"
       (JObj [("value", JNum (Q2Qc 21)); ("unit", JStr "°C");
              ("timestamp", JStr "2025-01-01T00:00:03");
              ("sensor_id", JStr "sensor_001")])
       (JNum (Q2Qc 21)) (JStr "°C") (JStr "2025-01-01T00:00:03")
       (Display.init "display_001") (valid_init _)
       eq_refl eq_refl eq_refl eq_refl))).
Defined.

(** X15: once the stored temperature carries a timestamp that is not
    empty (a string, as the emitter formats it, not a datetime object), no
    snapshot can be produced: until a message on sensors/temperature replaces
    the entry, whatever is delivered or requested, no [data_update] reaches
    the web clients, a status request fails with AttributeError and so does
    the connection of a web client. *)
Theorem X15_string_timestamp_stops_the_updates (evs : list Display.event)
  (s : Display.display) :
  Display.valid s → Display.blocked s →
  forallb (λ ev, negb (Display.on_temperature_topic ev)) evs = true →
  let s' := Display.run evs s in
  Display.blocked s' ∧
  Display.data_updates (Display.trace evs s) = [] ∧
  Display.handle_get_status s' = Raises AttributeError s' [] ∧
  Display.handle_connect s' =
    Raises AttributeError s' [Display.Printed Display.LogWebConnected].
Proof.
  intros Hs Hb Hevs. cbv zeta.
  assert (Display.blocked (Display.run evs s) ∧
          Display.data_updates (Display.trace evs s) = []) as [Hb' Ht].
  { revert s Hs Hb. induction evs as [|ev evs IH]; intros s Hs Hb; [done|].
    cbn [forallb] in Hevs. apply andb_true_iff in Hevs as [Hev Hevs].
    apply negb_true_iff in Hev.
    destruct (blocked_handle ev s Hs Hb Hev) as [[Hs1 Hb1] Ho].
    destruct (IH Hevs _ Hs1 Hb1) as [IH1 IH2].
    split; [exact IH1|].
    cbn [Display.trace]. by rewrite data_updates_app, Ho, IH2. }
  split_and!; try done.
  - unfold Display.handle_get_status, bind.
    by rewrite serialized_view_blocked.
  - unfold Display.handle_connect, bind. cbn [output].
    by rewrite serialized_view_blocked.
Qed.

(** A blocked state the observer reaches. *)
Lemma blocked_example :
  let s :=
    final_state
      (Display.on_message "2025-01-01T00:00:04"
         (Message "sensors/temperature"
            (Document
               (JObj [("value", JNum (Q2Qc 21)); ("unit", JStr "°C");
                      ("timestamp", JStr "2025-01-01T00:00:03")])))
         (Display.init "display_001")) in
  Display.valid s ∧ Display.blocked s.
Proof.
  cbv zeta. split.
  - apply valid_on_message, valid_init.
  - exists (JStr "2025-01-01T00:00:03"). split; [|done].
    vm_compute. reflexivity.
Qed.

(** The hypotheses of X15 hold after such a message; a reading delivered
    next is stored and not shown. *)
Lemma X15_witness :
  Display.data_updates
    (Display.trace
       [deliver (Delivery "2025-01-01T00:00:06" "sensor_001" true
                   (Sensor.Sample (Q2Qc 30) (Q2Qc 45) "2025-01-01T00:00:06"))]
       (final_state
          (Display.on_message "2025-01-01T00:00:04"
             (Message "sensors/temperature"
                (Document
                   (JObj [("value", JNum (Q2Qc 21)); ("unit", JStr "°C");
                          ("timestamp", JStr "2025-01-01T00:00:03")])))
             (Display.init "display_001")))) = [].
Proof.
  exact (proj1 (proj2
    (X15_string_timestamp_stops_the_updates
       [deliver (Delivery "2025-01-01T00:00:06" "sensor_001" true
                   (Sensor.Sample (Q2Qc 30) (Q2Qc 45) "2025-01-01T00:00:06"))]
       _ (proj1 blocked_example) (proj2 blocked_example) eq_refl))).
Defined.

(** ** Snapshots that succeed *)

(** With the two timestamps [None], the snapshot is produced and nothing is
    written. *)
Lemma serialized_view_unstamped (s : Display.display) :
  Display.unstamped s → Display.last_update_ok s →
  Display.serialized_view s = Returns (Display.snapshot s) s [].
Proof.
  intros [Ht Hh] Hu.
  unfold Display.serialized_view, Display._serialize_sensor_data,
    Display.snapshot, Display.obj_getitem, bind.
  cbn [get_state].
  destruct Hu as [Hu|[iso Hu]]; rewrite Hu; cbn; rewrite Ht; cbn;
    rewrite Hh; cbn; unfold Display.render; cbn; by rewrite ?Hu.
Qed.

(** The invariants of a store that received no message on the topics of
    one quantity, after writes that leave the two timestamps as they are. *)
Ltac unstamped_solve :=
  match goal with
  | Hs : Display.valid _, Hu : Display.unstamped _,
    Hl : Display.last_update_ok _
    |- Display.valid _ ∧ Display.unstamped _ ∧ Display.last_update_ok _ =>
      let Hs' := fresh "Hs" in
      pose proof Hs as Hs';
      split_and!;
      [ valid_solve
      | let Hwf := fresh "Hwf" in
        let Ht := fresh "Ht" in
        let Hh := fresh "Hh" in
        destruct Hs' as [Hwf _]; unfold Display.wf in Hwf;
        destruct Hu as [Ht Hh]; split; cbn in *;
        repeat first
          [ rewrite heap_get_put_eq
          | rewrite heap_get_put_ne by first [congruence | lia]
          | rewrite dict_lookup_set_str, decide_False by done ];
        assumption
      | exact Hl ]
  end.

Lemma unstamped_dispatch (t : string) (data : json) (s : Display.display) :
  Display.valid s → Display.unstamped s → Display.last_update_ok s →
  String.eqb t "sensors/temperature" || String.eqb t "sensors/humidity"
    = false →
  wp (Display.dispatch t data)
     (λ _ s', Display.valid s' ∧ Display.unstamped s' ∧
              Display.last_update_ok s')
     (λ _ s', Display.valid s' ∧ Display.unstamped s' ∧
              Display.last_update_ok s') s.
Proof.
  intros Hs Hu Hl Ht. apply orb_false_iff in Ht as [Ht1 Ht2].
  unfold Display.dispatch. rewrite Ht1, Ht2.
  unfold Display.handle_combined_data, Display.handle_control_data.
  wp_run; try done; unstamped_solve.
Qed.

Lemma unstamped_set_each (devices : list json) (v : bool)
  (s : Display.display) :
  Display.valid s → Display.unstamped s → Display.last_update_ok s →
  wp (Display.set_each devices v)
     (λ _ s', Display.valid s' ∧ Display.unstamped s' ∧
              Display.last_update_ok s')
     (λ _ s', Display.valid s' ∧ Display.unstamped s' ∧
              Display.last_update_ok s') s.
Proof.
  revert s. induction devices as [|d devices IH]; intros s Hs Hu Hl; [done|].
  cbn [Display.set_each]. wp_run; [|done].
  match goal with
  | |- wp _ _ _ ?s' =>
      assert (Display.valid s' ∧ Display.unstamped s' ∧
              Display.last_update_ok s') as (? & ? & ?)
        by unstamped_solve
  end.
  by apply IH.
Qed.

Lemma unstamped_handle (ev : Display.event) (s : Display.display) :
  Display.valid s → Display.unstamped s → Display.last_update_ok s →
  Display.on_quantity_topic ev = false →
  Display.valid (final_state (Display.handle ev s)) ∧
  Display.unstamped (final_state (Display.handle ev s)) ∧
  Display.last_update_ok (final_state (Display.handle ev s)).
Proof.
  intros Hs Hu Hl Hev. split; [by apply valid_handle|].
  destruct ev as [now [t p]|now data]; cbn [Display.handle].
  - destruct p as [| |data]; [done..|]. cbn in Hev.
    apply (on_message_document now t data s
             (λ z, Display.unstamped z ∧ Display.last_update_ok z)).
    eapply wp_mono;
      [apply (unstamped_dispatch t data (Display.counted s));
       [by apply valid_counted | done..]| |]; cbn beta.
    + intros _ s' (Hs' & Hu' & Hl'). split_and!; try done.
      right. by eexists.
    + by intros _ s' (Hs' & Hu' & Hl').
  - rewrite (wp_final_state (Display.handle_control_device now data)
               (λ z, Display.unstamped z ∧ Display.last_update_ok z)).
    unfold Display.handle_control_device.
    wp_run; try done;
      try (eapply wp_mono; [by apply unstamped_set_each| |];
           [intros ? s' (Hs' & Hu' & Hl'); cbn beta in *;
            rewrite wp_bind, wp_output, wp_bind
           |by intros ? s' (Hs' & Hu' & Hl')]);
      try (match goal with
           | |- wp Display.serialized_view _ _ ?s' =>
               assert (Display.valid s' ∧ Display.unstamped s' ∧
                       Display.last_update_ok s') as (? & ? & ?)
                 by first [done | unstamped_solve]
           end;
           apply wp_unchanged;
           [ by apply serialized_view_unchanged, valid_json_heap
           | intros v; by autorewrite with wp
           | done ]).
Qed.

Lemma unstamped_init (c : string) :
  Display.unstamped (Display.init c) ∧ Display.last_update_ok (Display.init c).
Proof. split; [split; reflexivity | by left]. Qed.

Lemma unstamped_run (evs : list Display.event) (s : Display.display) :
  Display.valid s → Display.unstamped s → Display.last_update_ok s →
  forallb (λ ev, negb (Display.on_quantity_topic ev)) evs = true →
  Display.valid (Display.run evs s) ∧
  Display.unstamped (Display.run evs s) ∧
  Display.last_update_ok (Display.run evs s).
Proof.
  revert s. induction evs as [|ev evs IH]; intros s Hs Hu Hl Hevs; [done|].
  cbn [forallb] in Hevs. apply andb_true_iff in Hevs as [Hev Hevs].
  apply negb_true_iff in Hev.
  destruct (unstamped_handle ev s Hs Hu Hl Hev) as (Hs1 & Hu1 & Hl1).
  cbn. by apply IH.
Qed.

Lemma only_handle_combined_data (P : Display.effect → Prop) (data : json) :
  only_outputs P (Display.handle_combined_data data).
Proof.
  unfold Display.handle_combined_data, Display.obj_setitem,
    Display.obj_contains, Display.modify.
  only_solve.
Qed.

(** The handler of readings, on a reading of the emitter. *)
Lemma dispatch_reading (id : string) (c : bool) (x : Sensor.sample)
  (s : Display.display) :
  Display.dispatch Sensor.topic_combined (Sensor.reading id c x) s =
    Returns tt
      (Display.after_combined (Sensor.reading id c x)
         (JNum (Sensor.temperature x)) (JNum (Sensor.humidity x)) (JStr id) s)
      [].
Proof.
  change (Display.dispatch Sensor.topic_combined)
    with Display.handle_combined_data.
  pose proof (handle_combined_data_final (Sensor.reading id c x)
                (JNum (Sensor.temperature x)) (JNum (Sensor.humidity x))
                (JStr id) s eq_refl eq_refl eq_refl eq_refl) as Hwp.
  pose proof (only_handle_combined_data (λ _, False)
                (Sensor.reading id c x) s) as Ho.
  unfold wp in Hwp.
  destruct (Display.handle_combined_data (Sensor.reading id c x) s)
    as [[] s' o|e s' o]; [subst s'|done].
  cbn in Ho. destruct o; [done | by inversion Ho].
Qed.

(** The outcome of a message whose handler returns in a state of which a
    snapshot can be made. *)
Lemma on_message_forwarded (now t : string) (data : json)
  (s s1 : Display.display) (o : list Display.effect) :
  Display.dispatch t data (Display.counted s) = Returns tt s1 o →
  Display.unstamped s1 →
  Display.on_message now (Message t (Document data)) s =
    Returns tt (Display.stamped now s1)
      (o ++ [Display.Emit "data_update"
               (Display.DataUpdate t data
                  (Display.snapshot (Display.stamped now s1))
                  (Display.Stats (Display.message_count s1)
                     (length (Display.connected_devices s1))
                     (Display.connected_devices s1)));
             Display.Printed (Display.LogReceived t data)]).
Proof.
  intros Hd Hu.
  rewrite (wpo_outcome _ (λ r, r = Returns tt (Display.stamped now s1) _)).
  unfold Display.on_message, Display.on_message_body. cbn [topic body].
  rewrite wpo_try_except, wpo_bind, wpo_decode_and_load, wpo_bind, wpo_modify,
    wpo_bind.
  unfold wpo at 1. fold (Display.counted s). rewrite Hd.
  rewrite wpo_bind, wpo_modify, wpo_bind. unfold wpo at 1.
  fold (Display.stamped now s1).
  rewrite serialized_view_unstamped; [|done|right; by eexists].
  rewrite wpo_bind, wpo_get_statistics, wpo_bind, wpo_output, wpo_output.
  by cbn.
Qed.

(** X16: as long as no message arrived on the topics of one quantity, every
    reading of an emitter that is delivered is stored and forwarded to the
    web clients: one [data_update] is sent, with the reading, a snapshot
    whose combined slot is the reading and whose time is the time of
    delivery as text, and the number of messages counted so far; a status
    request made afterwards is answered with the same snapshot and changes
    nothing. *)
Theorem X16_readings_are_forwarded (c now id : string) (conn : bool)
  (x : Sensor.sample) (evs : list Display.event) :
  forallb (λ ev, negb (Display.on_quantity_topic ev)) evs = true →
  let s := Display.run evs (Display.init c) in
  let r := Display.on_message now (reading_message id conn x) s in
  let s' := final_state r in
  returned r = true ∧
  outputs r =
    [Display.Emit "data_update"
       (Display.DataUpdate Sensor.topic_combined (Sensor.reading id conn x)
          (Display.snapshot s')
          (Display.Stats (Display.message_count s + 1)
             (length (Display.connected_devices s'))
             (Display.connected_devices s')));
     Display.Printed
       (Display.LogReceived Sensor.topic_combined
          (Sensor.reading id conn x))] ∧
  Display.v_combined (Display.snapshot s') =
    PJ (Sensor.reading id conn x) ∧
  Display.v_last_update (Display.snapshot s') = PJ (JStr now) ∧
  Display.handle_get_status s' =
    Returns tt s'
      [Display.Emit "status_update"
         (Display.StatusUpdate (Display.is_connected s')
            (Display.snapshot s')
            (Display.Stats (Display.message_count s + 1)
               (length (Display.connected_devices s'))
               (Display.connected_devices s')))].
Proof.
  intros Hevs. cbv zeta.
  destruct (unstamped_init c) as [Hu0 Hl0].
  destruct (unstamped_run evs _ (valid_init c) Hu0 Hl0 Hevs)
    as (Hs & Hu & Hl).
  set (s := Display.run evs (Display.init c)) in *.
  pose proof (unstamped_handle
                (Display.Delivered now (reading_message id conn x)) s
                Hs Hu Hl eq_refl) as (Hs' & Hu' & Hl').
  cbn [Display.handle] in *.
  pose proof (dispatch_reading id conn x (Display.counted s)) as Hd.
  set (s1 := Display.after_combined _ _ _ _ _) in *.
  assert (Display.unstamped s1) as Hu1.
  { pose proof (on_message_reading now id conn x s Hs) as Hfin.
    fold s1 in Hfin. rewrite Hfin in Hu'. exact Hu'. }
  unfold reading_message in *.
  rewrite (on_message_forwarded now Sensor.topic_combined _ s s1 [] Hd Hu1)
    in *.
  cbn [returned outputs final_state app].
  assert (Display.message_count s1 = Display.message_count s + 1) as Hc.
  { subst s1. unfold Display.after_combined. cbv zeta.
    repeat match goal with
           | |- context [if ?b then _ else _] => destruct b
           end; done. }
  assert (Display.combined (Display.sensor_data s1) =
            PJ (Sensor.reading id conn x)) as Hcomb.
  { subst s1. unfold Display.after_combined. cbv zeta.
    repeat match goal with
           | |- context [if ?b then _ else _] => destruct b
           end; done. }
  change (Display.message_count (Display.stamped now s1))
    with (Display.message_count s1).
  change (Display.connected_devices (Display.stamped now s1))
    with (Display.connected_devices s1).
  rewrite Hc. split_and!; try done.
  unfold Display.handle_get_status, bind.
  rewrite serialized_view_unstamped by done.
  cbn. by rewrite Hc.
Qed.

(** The hypothesis of X16 holds for a sequence of a reading, an
    acknowledgement and a request. *)
Lemma X16_witness :
  Display.data_updates
    (outputs
       (Display.on_message "2025-01-01T00:00:09"
          (reading_message "sensor_001" true
             (Sensor.Sample (Q2Qc 30) (Q2Qc 45) "2025-01-01T00:00:09"))
          (Display.run
             [deliver (Delivery "2025-01-01T00:00:03" "sensor_001" true
                         (Sensor.Sample (Q2Qc 21) (Q2Qc 55)
                            "2025-01-01T00:00:03"));
              Display.Requested "2025-01-01T00:00:05"
                (request false "sensor_001")]
             (Display.init "display_001")))) =
  [(Sensor.topic_combined,
    Sensor.reading "sensor_001" true
      (Sensor.Sample (Q2Qc 30) (Q2Qc 45) "2025-01-01T00:00:09"))].
Proof.
  destruct (X16_readings_are_forwarded "display_001" "2025-01-01T00:00:09"
              "sensor_001" true
              (Sensor.Sample (Q2Qc 30) (Q2Qc 45) "2025-01-01T00:00:09")
              [deliver (Delivery "2025-01-01T00:00:03" "sensor_001" true
                          (Sensor.Sample (Q2Qc 21) (Q2Qc 55)
                             "2025-01-01T00:00:03"));
               Display.Requested "2025-01-01T00:00:05"
                 (request false "sensor_001")]
              eq_refl) as (_ & H & _).
  rewrite H. reflexivity.
Defined.

(** ** The connection of the observer *)

(** X17: what the broker connection changes for the observer: after a
    disconnection a command requested on the dashboard is not published;
    once a new connection is accepted the observer has subscribed again to
    its four topics and the same request is published; a refused connection
    changes nothing; and the store, the devices and the message counter
    survive the disconnection and the reconnection. *)
Theorem X17_commands_across_a_reconnection (rc rc' : Z) (now : string)
  (data command device_id : json) (s : Display.display) :
  py_get data "command" (JStr "") = inr command →
  py_get data "device_id" (JStr "all") = inr device_id →
  list_mem command [JStr "enable"; JStr "disable"] = true →
  let down := final_state (Display.on_disconnect rc s) in
  let up := final_state (Display.on_connect 0 down) in
  Display.published (outputs (Display.handle_control_device now data down))
    = [] ∧
  Display.published (outputs (Display.handle_control_device now data up)) =
    [(Display.control_topic,
      Display.control_data command device_id now (Display.client_id s))] ∧
  omap (λ e, match e with Display.Subscribe t => Some t | _ => None end)
    (outputs (Display.on_connect 0 down)) = Display.topics ∧
  (rc' ≠ 0%Z →
   Display.on_connect rc' down =
     Returns tt down [Display.Printed (Display.LogConnectFailed rc')]) ∧
  up = Display.with_is_connected true s.
Proof.
  intros Hc Hd Hmem. cbv zeta.
  rewrite !(handle_control_device_published now data command device_id)
    by done.
  split_and!; try done.
  intros Hrc. unfold Display.on_connect.
  by apply Z.eqb_neq in Hrc as ->.
Qed.

(** The hypotheses of X17 hold for the request the dashboard sends. *)
Lemma X17_witness :
  let down :=
    final_state (Display.on_disconnect 1 (Display.init "display_001")) in
  Display.published
    (outputs
       (Display.handle_control_device "2025-01-01T00:00:05"
          (request true "sensor_001") down)) = [].
Proof.
  exact (proj1
    (X17_commands_across_a_reconnection 1 1 "2025-01-01T00:00:05"
       (request true "sensor_001") (JStr "enable") (JStr "sensor_001")
       (Display.init "display_001") eq_refl eq_refl eq_refl)).
Defined.

(** ** The evaluation of the humidity and of the overall status *)

(** X18: the evaluation reports at most one condition for the temperature
    and one for the humidity, each with its alert; the overall status is
    "warning" exactly when the temperature is not above 32 and the
    temperature is below 18 or the humidity is below 40 or above 70, and
    "success" exactly when none of these four tests holds, a NaN included:
    the humidity alone never gives "danger". *)
Theorem X18_overall_status_warning_and_success (t h : Display.number) :
  let e := Display.evaluate_conditions t h in
  let hot := Display.num_lt (Display.of_Z 32) t in
  let cold := Display.num_lt t (Display.of_Z 18) in
  let dry := Display.num_lt h (Display.of_Z 40) in
  let humid := Display.num_lt (Display.of_Z 70) h in
  length (Display.conditions e) = length (Display.alerts e) ∧
  (length (Display.alerts e) ≤ 2)%nat ∧
  (Display.overall_status e = "warning" ↔
   hot = false ∧ (cold || dry || humid) = true) ∧
  (Display.overall_status e = "success" ↔
   hot = false ∧ (cold || dry || humid) = false) ∧
  (Display.overall_status (Display.evaluate_conditions Display.NaN h)
     = "danger" → False) ∧
  Display.evaluate_conditions Display.NaN Display.NaN =
    Display.Evaluation [] [] "success".
Proof.
  cbv zeta. rewrite overall_status_danger.
  split_and!; [..|done|done]; unfold Display.evaluate_conditions.
  all: destruct (Display.num_lt t (Display.of_Z 18)) eqn:E18;
    [ rewrite ?(num_lt_gt_const 18 32 t) by done
    | destruct (Display.num_lt (Display.of_Z 32) t) eqn:E32;
      [|destruct (Display.num_le (Display.of_Z 20) t
                  && Display.num_le t (Display.of_Z 26))] ].
  all: destruct (Display.num_lt h (Display.of_Z 40));
    [|destruct (Display.num_lt (Display.of_Z 70) h);
      [|destruct (Display.num_le (Display.of_Z 50) h
                  && Display.num_le h (Display.of_Z 60))]].
  all: cbn [Display.conditions Display.alerts Display.overall_status
            Display.str_mem existsb String.eqb Ascii.eqb Bool.eqb orb app
            length].
  all: first [ done | lia | split; [done | by intros [? ?]] ].
Qed.

(** * The two programs together *)

(** X19: when the Enabled flag is toggled on the emitter's page, the state
    the emitter publishes, delivered to the observer, sets the observer's
    entry to the emitter's new flag; the entry is the one of the "sensor_id"
    of the emitter's current data: the emitter's own identity once it has
    generated a reading, and "all" before, when its data carry no
    identity. *)
Theorem X19_toggle_reaches_the_observer (now : string) (e : Sensor.sensor)
  (s : Display.display) (device : json) :
  Display.valid s →
  py_get (Sensor.current_data e) "sensor_id" (JStr "all") = inr device →
  hashable device = true →
  let pubs := Sensor.published (outputs (Sensor.handle_toggle_sensor e)) in
  let s' :=
    Display.run ((λ p, Display.Delivered now (on_bus p)) <$> pubs) s in
  Display.enabled_of device s' =
    Some (PJ (JBool (negb (Sensor.sensor_enabled e)))) ∧
  (∀ id c x, Sensor.current_data e = Sensor.reading id c x →
             device = JStr id) ∧
  (∀ id now0, Sensor.current_data e =
                Sensor.current_data (Sensor.init id now0) →
              device = JStr "all").
Proof.
  intros Hs Hdev Hk. cbv zeta. split_and!.
  - rewrite sensor_handle_toggle. cbv zeta.
    set (data :=
           Sensor.status
             (Sensor.with_sensor_enabled (negb (Sensor.sensor_enabled e)) e)).
    change (Display.run _ s)
      with (final_state
              (Display.on_message now
                 (Message "sensors/control/sub" (Document data)) s)).
    rewrite on_message_control_sub by done.
    pose proof (handle_control_data_returns data
                  (JBool (negb (Sensor.sensor_enabled e)))
                  (Sensor.current_data e) device (Display.counted s)
                  eq_refl eq_refl Hdev Hk) as Hret.
    unfold wp in Hret.
    destruct (Display.handle_control_data data (Display.counted s))
      as [a s1 o1|ex s1 o1]; [subst s1|done].
    unfold Display.enabled_of, Display.states_of. cbn.
    rewrite heap_get_put_eq. by apply dict_lookup_set_eq.
  - intros id c x Hx. rewrite Hx in Hdev. by injection Hdev as <-.
  - intros id now0 Hx. rewrite Hx in Hdev. by injection Hdev as <-.
Qed.

(** The hypotheses of X19 hold for an emitter that has not generated a
    reading yet: the observer records its flag under "all". *)
Lemma X19_witness :
  Display.enabled_of (JStr "all")
    (Display.run
       ((λ p, Display.Delivered "2025-01-01T00:00:02" (on_bus p)) <$>
          Sensor.published
            (outputs
               (Sensor.handle_toggle_sensor
                  (Sensor.init "sensor_001" "2025-01-01T00:00:00"))))
       (Display.init "display_001")) =
  Some (PJ (JBool false)).
Proof.
  exact (proj1
    (X19_toggle_reaches_the_observer "2025-01-01T00:00:02"
       (Sensor.init "sensor_001" "2025-01-01T00:00:00")
       (Display.init "display_001") (JStr "all")
       (valid_init _) eq_refl eq_refl)).
Defined.

(** X20: what the emitter publishes on a sampling tick, delivered to the
    observer, makes the observer's combined slot equal to the emitter's own
    current data, stores the two values, lists the emitter among the devices
    and counts one message; a tick of a disabled or disconnected emitter
    leaves the observer as it is. *)
Theorem X20_tick_reaches_the_observer (now : string) (x : Sensor.sample)
  (interval : Z) (e : Sensor.sensor) (s : Display.display) :
  Display.valid s →
  let r := Sensor.tick x interval e in
  let s' :=
    Display.run
      ((λ p, Display.Delivered now (on_bus p)) <$>
         Sensor.published (outputs r)) s in
  if Sensor.sensor_enabled e && Sensor.is_connected e then
    Display.combined (Display.sensor_data s') =
      PJ (Sensor.current_data (final_state r)) ∧
    dict_lookup (JStr "value") (Display.v_temperature (Display.store_view s'))
      = Some (PJ (JNum (Sensor.temperature x))) ∧
    dict_lookup (JStr "value") (Display.v_humidity (Display.store_view s'))
      = Some (PJ (JNum (Sensor.humidity x))) ∧
    list_mem (JStr (Sensor.client_id e)) (Display.connected_devices s')
      = true ∧
    Display.last_update (Display.sensor_data s') = PDatetime now ∧
    Display.message_count s' = Display.message_count s + 1
  else s' = s.
Proof.
  intros Hs. cbv zeta. rewrite sensor_tick. cbv zeta.
  destruct e as [cid c rn en cd]. cbn [Sensor.sensor_enabled
    Sensor.is_connected Sensor.client_id].
  destruct en, c; cbn [andb]; try done.
  change (Display.run _ s)
    with (final_state
            (Display.on_message now (reading_message cid true x) s)).
  rewrite on_message_reading by done.
  pose proof (after_combined_store (Sensor.reading cid true x)
                (JNum (Sensor.temperature x)) (JNum (Sensor.humidity x))
                (JStr cid) (Display.counted s) (proj1 (valid_counted s Hs)))
    as (H1 & H2 & H3 & H4 & _).
  cbv zeta in *.
  split_and!; try done.
  - change (Display.connected_devices (Display.stamped now ?z))
      with (Display.connected_devices z).
    rewrite H4.
    destruct (list_mem (JStr cid)
                (Display.connected_devices (Display.counted s))) eqn:E;
      [done|].
    unfold list_mem. rewrite existsb_app. cbn.
    by rewrite String.eqb_refl, orb_true_r.
  - unfold Display.after_combined. cbv zeta.
    repeat match goal with
           | |- context [if ?b then _ else _] => destruct b
           end; done.
Qed.

(** The hypothesis of X20 holds for the observer as it starts. *)
Lemma X20_witness :
  let r :=
    Sensor.tick (Sensor.Sample (Q2Qc 21) (Q2Qc 55) "2025-01-01T00:00:03") 3
      (Sensor.with_is_connected true
         (Sensor.init "sensor_001" "2025-01-01T00:00:00")) in
  Display.combined
    (Display.sensor_data
       (Display.run
          ((λ p, Display.Delivered "2025-01-01T00:00:04" (on_bus p)) <$>
             Sensor.published (outputs r))
          (Display.init "display_001"))) =
  PJ (Sensor.current_data (final_state r)).
Proof.
  exact (proj1
    (X20_tick_reaches_the_observer "2025-01-01T00:00:04"
       (Sensor.Sample (Q2Qc 21) (Q2Qc 55) "2025-01-01T00:00:03") 3
       (Sensor.with_is_connected true
          (Sensor.init "sensor_001" "2025-01-01T00:00:00"))
       (Display.init "display_001") (valid_init _))).
Defined.

(** X21: a command issued on the dashboard reaches an emitter exactly when
    the observer is connected to the broker: delivered what the observer
    publishes, the emitter's flag is the command's value if the observer was
    connected and is unchanged if it was not, while the observer's own entry
    for the device holds the command's value in both cases. *)
Theorem X21_command_reaches_the_emitter_iff_connected (now : string)
  (enable : bool) (device : string) (s : Display.display)
  (e : Sensor.sensor) :
  Display.valid s → device ≠ "all" →
  let r := Display.handle_control_device now (request enable device) s in
  let e' :=
    Sensor.run
      ((λ p, Sensor.Received (on_bus p)) <$> Display.published (outputs r))
      e in
  Sensor.sensor_enabled e' =
    (if Display.is_connected s then enable else Sensor.sensor_enabled e) ∧
  Display.enabled_of (JStr device) (final_state r) =
    Some (PJ (JBool enable)).
Proof.
  intros Hs Hdev. cbv zeta. split.
  - rewrite (handle_control_device_published now (request enable device)
               (JStr (command_name enable)) (JStr device));
      [|done|done|by destruct enable].
    destruct (Display.is_connected s); [|done].
    change (Sensor.run _ e)
      with (final_state
              (Sensor.on_message
                 (control_command enable device now (Display.client_id s))
                 e)).
    by rewrite sensor_on_message_command.
  - rewrite handle_control_device_one by done.
    rewrite enabled_of_with_state_of. by rewrite decide_True.
Qed.

(** The hypotheses of X21 hold for an observer that is not connected: its
    entry says "disabled" and the emitter stays enabled. *)
Lemma X21_witness :
  let r :=
    Display.handle_control_device "2025-01-01T00:00:05"
      (request false "sensor_001") (Display.init "display_001") in
  Sensor.sensor_enabled
    (Sensor.run
       ((λ p, Sensor.Received (on_bus p)) <$> Display.published (outputs r))
       (Sensor.init "sensor_001" "2025-01-01T00:00:00")) = true ∧
  Display.enabled_of (JStr "sensor_001") (final_state r) =
    Some (PJ (JBool false)).
Proof.
  apply (X21_command_reaches_the_emitter_iff_connected
           "2025-01-01T00:00:05" false "sensor_001"
           (Display.init "display_001")
           (Sensor.init "sensor_001" "2025-01-01T00:00:00") (valid_init _)).
  discriminate.
Defined.

(** ** Topics *)

Lemma sensor_published_topics (ev : Sensor.event) (e : Sensor.sensor)
  (t : string) (d : json) :
  (t, d) ∈ Sensor.published (outputs (Sensor.handle ev e)) →
  t = "sensors/temp_humidity" ∨ t = "sensors/control/sub".
Proof.
  destruct ev as [rc|rc|msg| | |x interval]; cbn [Sensor.handle].
  - unfold Sensor.on_connect. destruct (rc =? 0)%Z;
      destruct e as [cid c r en [| | | | |cd]]; cbn;
      intros H; by apply elem_of_nil in H.
  - destruct e as [cid c r en [| | | | |cd]]; cbn;
      intros H; by apply elem_of_nil in H.
  - destruct (sensor_on_message_outcome msg e) as (b & out & -> & Hp & _).
    cbn [outputs]. rewrite Hp. intros H. by apply elem_of_nil in H.
  - intros H. by apply elem_of_nil in H.
  - rewrite sensor_handle_toggle. cbn.
    intros [= -> _]%list_elem_of_singleton. by right.
  - rewrite sensor_tick. cbv zeta.
    destruct (Sensor.sensor_enabled e), (Sensor.is_connected e); cbn;
      intros H; try by apply elem_of_nil in H.
    apply list_elem_of_singleton in H as [= -> _]. by left.
Qed.

Lemma display_published_topics (ev : Display.event) (s : Display.display)
  (t : string) (d : json) :
  (t, d) ∈ Display.published (outputs (Display.handle ev s)) →
  t = "sensors/control".
Proof.
  destruct ev as [now msg|now data]; cbn [Display.handle].
  - rewrite (published_nil _ (only_on_message now msg s)).
    intros H. by apply elem_of_nil in H.
  - destruct (py_get data "command" (JStr "")) as [e1|command] eqn:E1.
    { destruct data; try done; cbn; intros H; by apply elem_of_nil in H. }
    destruct (py_get data "device_id" (JStr "all")) as [e2|device_id] eqn:E2.
    { destruct data; done. }
    destruct (list_mem command [JStr "enable"; JStr "disable"]) eqn:Hmem.
    + rewrite (handle_control_device_published now data command device_id)
        by done.
      destruct (Display.is_connected s); intros H;
        [|by apply elem_of_nil in H].
      by apply list_elem_of_singleton in H as [= -> _].
    + destruct data as [| | | | |dd]; try done.
      cbn in E1. injection E1 as <-.
      unfold Display.handle_control_device. cbn [py_get lift].
      unfold bind at 1. cbn [ret]. unfold bind at 1. cbn [ret].
      rewrite Hmem. intros H. by apply elem_of_nil in H.
Qed.

(** X22: the topics of the two programs fit: whatever the emitter
    publishes, in any callback, is on a topic the observer subscribes to when
    its connection is accepted; whatever the observer publishes is on the
    topic the emitter subscribes to; and a message on a topic the observer
    did not subscribe to would reach no handler. *)
Theorem X22_published_topics_are_subscribed (e : Sensor.sensor)
  (s : Display.display) :
  (∀ ev e0 t d,
     (t, d) ∈ Sensor.published (outputs (Sensor.handle ev e0)) →
     Display.Subscribe t ∈ outputs (Display.on_connect 0 s)) ∧
  (∀ ev s0 t d,
     (t, d) ∈ Display.published (outputs (Display.handle ev s0)) →
     Sensor.status_consistent e →
     Sensor.Subscribe t ∈ outputs (Sensor.on_connect 0 e)) ∧
  (∀ t data,
     Display.Subscribe t ∉ outputs (Display.on_connect 0 s) →
     Display.dispatch t data = ret tt).
Proof.
  split_and!.
  - intros ev e0 t d [-> | ->]%sensor_published_topics; cbn;
      repeat first [ apply list_elem_of_here | apply list_elem_of_further ].
  - intros ev s0 t d ->%display_published_topics He.
    destruct e as [cid c r en cd]. unfold Sensor.status_consistent in He.
    destruct cd as [| | | | |cd]; try done. cbn.
    repeat first [ apply list_elem_of_here | apply list_elem_of_further ].
  - intros t data Hnot. unfold Display.dispatch.
    repeat match goal with
           | |- context [String.eqb t ?x] =>
               let E := fresh "E" in
               destruct (String.eqb t x) eqn:E;
               [ apply String.eqb_eq in E as ->; exfalso; apply Hnot; cbn;
                 repeat first
                   [ apply list_elem_of_here | apply list_elem_of_further ]
               | ]
           end.
    done.
Qed.
